(** * git-bob: the issue-resolution action pipeline

    A shallow embedding of [src/git_bob/_ai_github_utilities.py]
    ([create_or_modify_file], [solve_github_issue], [setup_ai_remark]) and
    of the entry script [actions/manager.py], with the properties of the
    pipeline stated and proved over it.

    Python strings are [string], holding the bytes of their UTF-8
    encoding; a planned action (a JSON object, as parsed) is a
    [gmap string value]; [int] is [Z]; code that calls the repository host,
    the text-generation oracle or the operating system is written in a
    state-and-exception monad over a [world]. *)

From Stdlib Require Import ZArith Ascii String List Lia.
From stdpp Require Import base option list strings gmap pretty.

Local Open Scope string_scope.
Local Open Scope list_scope.

(** ** Python values: strings, paths, exceptions *)

Module Py.

(** The characters that cannot be typed inside a string literal here. *)
Definition dq : string := String (ascii_of_nat 34) EmptyString.
Definition nl : string := String (ascii_of_nat 10) EmptyString.
Definition slash : ascii := ascii_of_nat 47.

(** [s.startswith(p)] and [s.endswith(p)]. *)
Definition startswith (s p : string) : bool := String.prefix p s.
Definition endswith (s p : string) : bool :=
  String.prefix (String.rev p) (String.rev s).

(** [needle in hay] on strings. *)
Fixpoint contains (needle hay : string) : bool :=
  String.prefix needle hay ||
  match hay with
  | EmptyString => false
  | String _ rest => contains needle rest
  end.

(** [s.lstrip("/")], [s.rstrip("/")] and [s.strip("/")]. *)
Fixpoint lstrip_slash (s : string) : string :=
  match s with
  | String c rest => if Ascii.eqb c slash then lstrip_slash rest else s
  | EmptyString => EmptyString
  end.
Definition rstrip_slash (s : string) : string :=
  String.rev (lstrip_slash (String.rev s)).
Definition strip_slash (s : string) : string :=
  rstrip_slash (lstrip_slash s).

(** [sep.join(parts)]. *)
Fixpoint join (sep : string) (parts : list string) : string :=
  match parts with
  | [] => EmptyString
  | [p] => p
  | p :: rest => p +:+ sep +:+ join sep rest
  end.

(** [posixpath.dirname]: the head is everything up to and including the
    last slash; trailing slashes are stripped from it unless it consists
    of slashes only. *)
Fixpoint drop_to_slash (s : string) : string :=
  match s with
  | String c rest => if Ascii.eqb c slash then s else drop_to_slash rest
  | EmptyString => EmptyString
  end.
Definition dirname (p : string) : string :=
  let rev_head := drop_to_slash (String.rev p) in
  match lstrip_slash rev_head with
  | EmptyString => String.rev rev_head
  | stripped => String.rev stripped
  end.

(** [posixpath.join(a, b)] for the two-argument case. *)
Definition path_join (a b : string) : string :=
  if startswith b "/" then b
  else match a with
       | EmptyString => b
       | _ => if endswith a "/" then a +:+ b else a +:+ "/" +:+ b
       end.

(** [str(n)] for an [int]. *)
Definition str_int (n : Z) : string := pretty n.

(** [range(n)]. *)
Definition range (n : Z) : list nat := seq 0 (Z.to_nat n).

(** The exception classes the code names or can meet; all of them derive
    from [Exception]. *)
Inductive exn_class : Type :=
| ValueError | KeyError | TypeError | IndexError | UnboundLocalError
| AttributeError | OSError | GithubException | OtherException.

Global Instance exn_class_eq_dec : EqDecision exn_class.
Proof. solve_decision. Defined.

(** An exception: its class and [str(e)]. *)
Record exn : Type := Exn { exn_cls : exn_class; exn_str : string }.

Inductive outcome (A : Type) : Type :=
| Ok (a : A)
| Raised (e : exn).
Global Arguments Ok {A} a.
Global Arguments Raised {A} e.

Definition is_ok {A} (r : outcome A) : bool :=
  match r with Ok _ => true | Raised _ => false end.

(** Stable sort by a boolean key, [False] before [True]: what
    [sorted(l, key=k)] computes when [k] returns a [bool]. An element is
    inserted in front of the first element whose key is not smaller, so
    elements with equal keys keep their input order. *)
Definition key_lt (a b : bool) : bool := negb a && b.

Fixpoint insert_by_key {A} (key : A -> bool) (x : A) (l : list A) : list A :=
  match l with
  | [] => [x]
  | y :: rest =>
      if key_lt (key y) (key x) then y :: insert_by_key key x rest
      else x :: l
  end.

Fixpoint sorted {A} (key : A -> bool) (l : list A) : list A :=
  match l with
  | [] => []
  | x :: rest => insert_by_key key x (sorted key rest)
  end.

End Py.
Import Py.

(** ** The action model *)

(** A parsed JSON value: [None], a [bool], an [int], a [float] (kept as
    its text), a [str], a [list] or a [dict] with string keys. *)
#[local] Unset Elimination Schemes.
Inductive value : Type :=
| VNone
| VBool (b : bool)
| VInt (n : Z)
| VFloat (text : string)
| VStr (s : string)
| VList (items : list value)
| VDict (items : list (string * value)).
#[local] Set Elimination Schemes.

(** [type(v).__name__]. *)
Definition type_name (v : value) : string :=
  match v with
  | VNone => "NoneType"
  | VBool _ => "bool"
  | VInt _ => "int"
  | VFloat _ => "float"
  | VStr _ => "str"
  | VList _ => "list"
  | VDict _ => "dict"
  end.

(** [v == s] for a string [s]: only a string is equal to a string. *)
Definition value_is (s : string) (v : value) : bool :=
  match v with
  | VStr t => bool_decide (t = s)
  | _ => false
  end.

(** [s in v] for a string [s]: a substring of a string, an element of a
    list, a key of a dict; the other values are not iterable. *)
Definition value_contains (s : string) (v : value) : outcome bool :=
  match v with
  | VStr t => Ok (contains s t)
  | VList items => Ok (existsb (value_is s) items)
  | VDict items => Ok (existsb (fun kv => bool_decide (kv.1 = s)) items)
  | _ => Raised (Exn TypeError
                   ("argument of type '" +:+ type_name v +:+ "' is not iterable"))
  end.

(** [v.strip("/")]: only a string has the method. *)
Definition value_strip_slash (v : value) : outcome string :=
  match v with
  | VStr s => Ok (strip_slash s)
  | _ => Raised (Exn AttributeError
                   ("'" +:+ type_name v +:+ "' object has no attribute 'strip'"))
  end.

(** One planned action, as parsed from the oracle's JSON answer: a JSON
    object, whose fields can hold any JSON value. *)
Abbreviation instruction := (gmap string value).

(** [instruction.get('action')]. *)
Definition get_action (i : instruction) : option value := i !! "action".

(** [action == kind], where [action] can be [None]. *)
Definition action_is (kind : string) (action : option value) : bool :=
  match action with
  | Some v => value_is kind v
  | None => false
  end.

(** The sort key of the sequencing step:
    [lambda x: x.get('action') != 'download']. *)
Definition not_download (i : instruction) : bool :=
  negb (action_is "download" (get_action i)).

Definition is_download (i : instruction) : bool := negb (not_download i).

(** [sorted(instructions, key=lambda x: x.get('action') != 'download')]. *)
Definition sequence (instructions : list instruction) : list instruction :=
  sorted not_download instructions.


(** ** The world outside the pipeline *)

(** What the pipeline does to the outside, in the order it does it: the
    oracle prompts, the mutations of the hosted repository, the reports, and
    the steps of the notebook sandbox. Of the console output of the
    pipeline only the retry notice of [create_or_modify_file] is kept;
    [EvPrint] and [EvCommentOnIssue] are the output of the entry script. *)
Inductive event : Type :=
| EvPrompt (prompt : string)
| EvCreateBranch (repository : string) (parent_branch : option string)
| EvWriteFile (repository branch_name filename content message : string)
| EvDownload (repository branch_name : string) (source_url : value)
    (target_filename : string)
| EvRename (repository branch_name old_filename new_filename : string)
| EvDelete (repository branch_name filename : string)
| EvCopy (repository branch_name old_filename new_filename : string)
| EvSendPullRequest (repository source_branch : string)
    (target_branch : option string) (title description : string)
| EvAddComment (repository : string) (issue : Z) (body : string)
| EvMakedirs (path : string)
| EvChdir (path : string)
| EvExecuteNotebook (content : string)
| EvWarn (message : string)
| EvRetryNotice (attempt : nat) (number_of_attempts : Z)
| EvPrint (line : string)
| EvCommentOnIssue (repository : option string) (issue : option Z) (body : string).

(** The process and what it talks to: [os.environ], the working directory,
    the state [H] of everything external (hosted repository, oracle, local
    disk), and the log of events so far. *)
Record world (H : Type) : Type := World {
  environ : gmap string string;
  cwd : string;
  host : H;
  trace : list event
}.
Global Arguments World {H} _ _ _ _.
Global Arguments environ {H} _.
Global Arguments cwd {H} _.
Global Arguments host {H} _.
Global Arguments trace {H} _.

(** An external call: it may change the external state and may raise. *)
Definition ext (H A : Type) : Type := H -> H * outcome A.

(** State and exceptions. *)
Definition M (H A : Type) : Type := world H -> world H * outcome A.

Section Monad.
Context {H : Type}.

Definition ret {A} (a : A) : M H A := fun w => (w, Ok a).

Definition raise {A} (e : exn) : M H A := fun w => (w, Raised e).

Definition bind {A B} (m : M H A) (k : A -> M H B) : M H B :=
  fun w => match m w with
           | (w', Ok a) => k a w'
           | (w', Raised e) => (w', Raised e)
           end.

(** A pure helper that may raise. *)
Definition lift {A} (r : outcome A) : M H A := fun w => (w, r).

(** An external call that is logged. *)
Definition call {A} (ev : event) (f : ext H A) : M H A :=
  fun w => let (h, r) := f (host w) in
           (World (environ w) (cwd w) h (trace w ++ [ev]), r).

(** An external call that only reads. *)
Definition query {A} (f : ext H A) : M H A :=
  fun w => let (h, r) := f (host w) in
           (World (environ w) (cwd w) h (trace w), r).

Definition emit (ev : event) : M H unit :=
  fun w => (World (environ w) (cwd w) (host w) (trace w ++ [ev]), Ok tt).

(** [try: m  except Exception as e: handler(e)]; a handler for one class
    re-raises the others. *)
Definition try_except {A} (m : M H A) (handler : exn -> M H A) : M H A :=
  fun w => match m w with
           | (w', Raised e) => handler e w'
           | r => r
           end.

(** [try: m  finally: fin]: [fin] runs on every exit of [m]; an exception
    of [fin] replaces the result. *)
Definition try_finally {A} (m : M H A) (fin : M H unit) : M H A :=
  fun w => match m w with
           | (w', r) =>
               match fin w' with
               | (w'', Ok _) => (w'', r)
               | (w'', Raised e) => (w'', Raised e)
               end
           end.

(** Modelled from the spec: [save_and_clear_environment] of
    [_utilities.py], which is not among the sources. It returns the
    EnvironmentSnapshot, "a full copy of process-wide environment
    variables taken before sandboxed execution", and, as its name says,
    leaves the environment empty. *)
Definition save_and_clear_environment : M H (gmap string string) :=
  fun w => (World ∅ (cwd w) (host w) (trace w), Ok (environ w)).

(** Modelled from the spec: [restore_environment] of [_utilities.py],
    which is not among the sources. The snapshot is "restored after,
    regardless of outcome": the environment becomes the snapshot. *)
Definition restore_environment (saved : gmap string string) : M H unit :=
  fun w => (World saved (cwd w) (host w) (trace w), Ok tt).

End Monad.

Notation "'let*' p := m 'in' k" := (bind m (fun p => k))
  (at level 10, p pattern, m at level 200, k at level 200, only parsing).

(** ** The collaborators

    The functions that [_ai_github_utilities.py] imports from
    [_github_utilities.py] and [_utilities.py], and those of the operating
    system and of the Python runtime it calls. They are outside the sources
    modelled here and are left open: every result below holds for all
    collaborators. *)
Class Collaborators (H : Type) : Type := {
  (* the hosted repository *)
  get_repository_handle : string -> ext H unit;
  (* [repo.get_branch(repo.default_branch).name] *)
  default_branch_name : string -> ext H string;
  get_conversation_on_issue : string -> Z -> ext H string;
  list_repository_files : string -> ext H (list string);
  create_branch : string -> option string -> ext H string;
  check_if_file_exists : string -> string -> string -> ext H bool;
  get_file_in_repository : string -> string -> string -> ext H string;
  write_file_in_branch : string -> string -> string -> string -> string -> ext H unit;
  download_to_repository : string -> string -> value -> string -> ext H unit;
  rename_file_in_repository : string -> string -> string -> string -> ext H unit;
  delete_file_from_repository : string -> string -> string -> ext H unit;
  copy_file_in_repository : string -> string -> string -> string -> ext H unit;
  get_diff_of_branches : string -> string -> option string -> ext H string;
  send_pull_request : string -> string -> option string -> string -> string -> ext H unit;
  add_comment_to_issue : string -> Z -> string -> ext H unit;
  (* text helpers; the parsing ones may raise *)
  decode_file : string -> outcome string;
  split_content_and_summary : string -> outcome (string * string);
  erase_outputs_of_code_cells : string -> outcome string;
  restore_outputs_of_code_cells : string -> string -> outcome string;
  (* [text_to_json], at the two types its callers use the result at: a
     list of JSON objects with fields of any JSON value, and a list of
     strings *)
  text_to_json_instructions : string -> outcome (list instruction);
  text_to_json_filenames : string -> outcome (list string);
  modify_discussion : string -> string;
  remove_ansi_escape_sequences : string -> string;
  clean_output : string -> string -> string;
  redact_text : string -> string;
  (* the notebook run: it sees and may change the environment variables,
     the working directory and the disk; it returns the executed notebook
     and the error message, if a cell failed *)
  execute_notebook :
    string -> gmap string string -> string -> H ->
    (gmap string string * string * H) * outcome (string * option string);
  (* the local disk, seen from a working directory *)
  os_makedirs : string -> string -> ext H unit;
  os_path_exists : string -> string -> H -> bool;
  read_binary : string -> string -> H -> outcome string;
  (* what the operating system answers to [os.getcwd()] in a working
     directory, and to [os.chdir(path)] from a working directory: nothing,
     or an error (the directory is gone, or is not a directory) *)
  os_getcwd : string -> H -> outcome unit;
  os_chdir : string -> string -> H -> outcome unit;
  (* the Python runtime: [traceback.format_exc()], [repr] of a dict and
     [repr] of a value *)
  format_exc : exn -> string;
  repr_instruction : instruction -> string;
  repr_value : value -> string
}.

Section Process.
Context {H : Type} `{Collaborators H}.

(** [os.getcwd()]: the working directory, when the operating system can
    name it. *)
Definition getcwd : M H string :=
  fun w => match os_getcwd (cwd w) (host w) with
           | Ok _ => (w, Ok (cwd w))
           | Raised e => (w, Raised e)
           end.

(** [os.chdir(path)]: the working directory changes when the operating
    system accepts the change; the attempt is logged either way. *)
Definition chdir (path : string) : M H unit :=
  fun w => match os_chdir (cwd w) path (host w) with
           | Ok _ => (World (environ w) (path_join (cwd w) path) (host w)
                        (trace w ++ [EvChdir path]), Ok tt)
           | Raised e => (World (environ w) (cwd w) (host w)
                            (trace w ++ [EvChdir path]), Raised e)
           end.

(** [str(v)], as an f-string formats a value: a string is itself. *)
Definition str_value (v : value) : string :=
  match v with
  | VStr s => s
  | _ => repr_value v
  end.

End Process.

(** The module-level settings: the environment at import time and the
    fields of [Config] and [__version__] that [setup_ai_remark] reads. *)
Record settings : Type := Settings {
  import_environ : gmap string string;
  version : string;
  llm_name : string;
  run_id : option string;
  config_repository : string
}.

Section Remark.
Variable cfg : settings.

(** [AGENT_NAME = os.environ.get("GIT_BOB_AGENT_NAME", "git-bob")]. *)
Definition AGENT_NAME : string :=
  default "git-bob" (import_environ cfg !! "GIT_BOB_AGENT_NAME").

(** [SYSTEM_PROMPT = os.environ.get("SYSTEM_MESSAGE", f"You are ...")]. *)
Definition SYSTEM_PROMPT : string :=
  default
    ("You are an AI-based coding assistant named " +:+ AGENT_NAME +:+
     ". You are an excellent Python programmer and software engineer.")
    (import_environ cfg !! "SYSTEM_MESSAGE").

Definition setup_ai_remark : string :=
  let model := llm_name cfg in
  let repository := config_repository cfg in
  let link :=
    match run_id cfg with
    | Some run_id =>
        ", [log](https://github.com/" +:+ repository +:+ "/actions/runs/"
        +:+ run_id +:+ ")"
    | None => EmptyString
    end in
  let agent_name :=
    if bool_decide (AGENT_NAME = "git-bob") then "[" +:+ AGENT_NAME
    else AGENT_NAME +:+ " / [git-bob" in
  "<sup>This message was generated by " +:+ agent_name +:+
  "](https://github.com/haesleinhuepf/git-bob) (version: " +:+ version cfg
  +:+ ", model: " +:+ model +:+ link +:+
  "), an experimental AI-based assistant. It can make mistakes and has [limitations](https://github.com/haesleinhuepf/git-bob?tab=readme-ov-file#limitations). Check its messages carefully.</sup>".
End Remark.

(** ** [create_or_modify_file] *)

Definition blank : string := EmptyString.

(** A text given line by line. *)
Definition text (lines : list string) : string := join nl lines.

Definition quoted (s : string) : string := dq +:+ s +:+ dq.

(** The locals of one attempt that are read after it. *)
Record attempt_locals : Type := AttemptLocals {
  new_content : string;
  commit_message : string;
  created_files : list string;
  an_error_happened : bool
}.

Section CreateOrModify.
Context {H : Type} `{Collaborators H}.
Variable cfg : settings.
Variables (repository : string) (issue : Z).
Variables (filename branch_name issue_summary : string).
Variable prompt_function : string -> ext H string.
Variable number_of_attempts : Z.

Definition format_specific_instructions : string :=
  if endswith filename ".py" then
    " When writing new functions, use numpy-style docstrings."
  else if endswith filename ".ipynb" then
    " In the notebook file, write short code snippets in code cells and avoid long code blocks. Make sure everything is done step-by-step and we can inspect intermediate results. Add explanatory markdown cells in front of every code cell. The notebook has NO cell outputs! Make sure that there is code that saves results such as plots, images or dataframes, e.g. as .png or .csv files. Numpy images have to be converted to np.uint8 before saving as .png. Plots must be saved to disk before the cell ends or it is shown. The notebook must be executable from top to bottom without errors. Return the notebook in JSON format!"
  else EmptyString.

Definition modify_instruction (file_content : string) : string :=
  text [ blank;
    "Modify the file " +:+ quoted filename +:+ " to solve the issue #"
      +:+ str_int issue +:+ ". " +:+ format_specific_instructions;
    "If the discussion is long, some stuff might be already done. In that case, focus on what was said at the very end in the discussion.";
    "Keep your modifications absolutely minimal.";
    blank;
    "That's the file " +:+ quoted filename +:+ " content you will find in the file:";
    "```";
    file_content;
    "```";
    blank;
    "## Your task";
    "Modify content of the file " +:+ quoted filename +:+ " to solve the issue above.";
    "Keep your modifications absolutely minimal.";
    "Return the entire new file content, do not shorten it.";
    blank ].

Definition create_instruction : string :=
  text [ blank;
    "Create the file " +:+ quoted filename +:+ " to solve the issue #"
      +:+ str_int issue +:+ ". " +:+ format_specific_instructions;
    blank;
    "## Your task";
    "Generate content for the file " +:+ quoted filename +:+ " to solve the issue above.";
    "Keep it short.";
    blank ].

Definition content_prompt (file_content_instruction : string) : string :=
  text [ blank;
    SYSTEM_PROMPT cfg;
    "Given a github issue summary (#" +:+ str_int issue +:+
      ") and optionally file content (filename " +:+ filename +:+
      "), modify the file content or create the file content to solve the issue.";
    blank;
    "## Issue " +:+ str_int issue +:+ " Summary";
    blank;
    issue_summary;
    blank;
    "## File " +:+ filename +:+ " content";
    blank;
    file_content_instruction;
    blank;
    blank;
    "Respond ONLY the content of the file and afterwards a single line summarizing the changes you made (without mentioning the issue).";
    blank ].

Definition list_files_prompt (not_executed_notebook : string) : string :=
  text [ blank;
    "Extract a list of filenames including path from the following jupyter notebook. ";
    "The path should be relative from the repository root, not from the notebooks's postion. ";
    "The position of the notebook is " +:+ filename +:+ ".";
    "Return the list as a JSON list and nothing else.";
    blank;
    "Notebook:";
    not_executed_notebook;
    "            " ].

(** [execute_notebook(new_content)], in the current process. *)
Definition run_notebook (content : string) : M H (string * option string) :=
  fun w =>
    let '((env', cwd', h'), r) :=
      execute_notebook content (environ w) (cwd w) (host w) in
    (World env' cwd' h' (trace w ++ [EvExecuteNotebook content]), r).

(** [os.path.exists(file)] and [open(file, 'rb').read()]. *)
Definition path_exists (file : string) : M H bool :=
  fun w => (w, Ok (os_path_exists (cwd w) file (host w))).
Definition read_file (file : string) : M H string :=
  fun w => (w, read_binary (cwd w) file (host w)).

(** The scan for the files the notebook created:
    [for file in list_of_files: ...]. *)
Fixpoint commit_created_files (path_without_filename : string)
    (list_of_files created_files : list string) : M H (list string) :=
  match list_of_files with
  | [] => ret created_files
  | file :: rest =>
      let* there := path_exists file in
      if (there : bool) then
        let created_files := created_files ++ [file] in
        let* file_content2 := read_file file in
        let message :=
          "Adding " +:+ path_without_filename +:+ "/" +:+ file +:+
          " created by notebook" in
        let* _ := call (EvWriteFile repository branch_name file file_content2 message)
                    (write_file_in_branch repository branch_name file
                       file_content2 message) in
        commit_created_files path_without_filename rest created_files
      else commit_created_files path_without_filename rest created_files
  end.

(** The statements under [try:] of the notebook block: the run, and
    after a run with no error the scan for the files it created. *)
Definition run_and_scan (saved_environment : gmap string string)
    (path_without_filename new_content : string) : M H (string * list string) :=
  let created_files : list string := [] in
  let not_executed_notebook := new_content in
  let* (new_content, error_message) := run_notebook new_content in
  let* _ := restore_environment saved_environment in
  match error_message with
  | None =>
      (* scan for files the notebook created *)
      let prompt := list_files_prompt not_executed_notebook in
      let* list_of_files_text :=
        call (EvPrompt prompt) (prompt_function prompt) in
      let* list_of_files := lift (text_to_json_filenames list_of_files_text) in
      let* created_files :=
        commit_created_files path_without_filename list_of_files created_files in
      ret (new_content, created_files)
  | Some _ => ret (new_content, created_files)
  end.

(** The block under [if do_execute_notebook:]. It returns the new
    [new_content] and [created_files]. *)
Definition execute_in_sandbox (new_content : string) : M H (string * list string) :=
  let* current_dir := getcwd in
  let path_without_filename := dirname filename in
  let* _ :=
    if (0 <? String.length path_without_filename)%nat then
      let* _ := call (EvMakedirs path_without_filename)
                  (fun h => os_makedirs current_dir path_without_filename h) in
      chdir path_without_filename
    else ret tt in
  (* store environment variables *)
  let* saved_environment := save_and_clear_environment in
  (* Execute the notebook *)
  try_finally
    (try_except
       (run_and_scan saved_environment path_without_filename new_content)
       (fun e =>
          raise (Exn ValueError ("Error during notebook execution: " +:+ exn_str e))))
    (let* _ := chdir current_dir in
     restore_environment saved_environment).

(** The reconciliation step: it returns the new [new_content] and
    [do_execute_notebook]. *)
Definition reconcile (original_ipynb_file_content : option string)
    (new_content : string) : M H (string * bool) :=
  let do_execute_notebook := false in
  match original_ipynb_file_content with
  | Some original =>
      try_except
        (let* restored := lift (restore_outputs_of_code_cells new_content original) in
         ret (restored, do_execute_notebook))
        (fun e =>
           match exn_cls e with
           | ValueError =>
               let* _ := emit (EvWarn ("Could not restore outputs of code cells in "
                                       +:+ filename +:+ ": " +:+ exn_str e)) in
               ret (new_content, true)
           | _ => raise e
           end)
  | None =>
      if endswith filename ".ipynb" then
        let* erased := lift (erase_outputs_of_code_cells new_content) in
        ret (erased, true)
      else ret (new_content, do_execute_notebook)
  end.

(** Reconciliation, then the notebook run when [do_execute_notebook] is
    set. It returns the new [new_content] and [created_files]. *)
Definition materialize (original_ipynb_file_content : option string)
    (new_content : string) : M H (string * list string) :=
  let* (new_content, do_execute_notebook) :=
    reconcile original_ipynb_file_content new_content in
  if (do_execute_notebook : bool) then execute_in_sandbox new_content
  else ret (new_content, []).

(** The body of [for attempt in range(number_of_attempts):], up to the
    test of [an_error_happened]. *)
Definition attempt_body : M H attempt_locals :=
  let an_error_happened := false in
  let* exists_ := query (check_if_file_exists repository branch_name filename) in
  let* (original_ipynb_file_content, file_content_instruction) :=
    if (exists_ : bool) then
      let* raw := query (get_file_in_repository repository branch_name filename) in
      let* file_content := lift (decode_file raw) in
      if endswith filename ".ipynb" then
        let original_ipynb_file_content := file_content in
        let* file_content := lift (erase_outputs_of_code_cells file_content) in
        ret (Some original_ipynb_file_content, modify_instruction file_content)
      else ret (None, modify_instruction file_content)
    else ret (None, create_instruction) in
  let prompt := content_prompt file_content_instruction in
  let* response := call (EvPrompt prompt) (prompt_function prompt) in
  let* (new_content, commit_message) := lift (split_content_and_summary response) in
  let* (new_content, created_files) :=
    materialize original_ipynb_file_content new_content in
  let created_files := created_files ++ [filename] in
  let new_content := redact_text new_content in
  ret (AttemptLocals new_content commit_message created_files an_error_happened).

(** The attempt loop; [last] holds the locals of the last completed
    iteration, which is what the code after the loop reads. *)
Fixpoint attempt_loop (attempts : list nat) (last : option attempt_locals)
    : M H (option attempt_locals) :=
  match attempts with
  | [] => ret last
  | attempt :: rest =>
      let* locals := attempt_body in
      if negb (an_error_happened locals) then ret (Some locals) (* break *)
      else
        let* _ := emit (EvRetryNotice (attempt + 1) number_of_attempts) in
        attempt_loop rest (Some locals)
  end.

Definition create_or_modify_file : M H string :=
  let* last := attempt_loop (range number_of_attempts) None in
  match last with
  | None =>
      (* the loop body never ran: [new_content] is not bound *)
      raise (Exn UnboundLocalError
               "cannot access local variable 'new_content' where it is not associated with a value")
  | Some locals =>
      let content := new_content locals +:+ nl in
      let message := redact_text (commit_message locals) in
      let* _ := call (EvWriteFile repository branch_name filename content message)
                  (write_file_in_branch repository branch_name filename content message) in
      ret (commit_message locals +:+ nl +:+ nl +:+ "Created files:" +:+ nl +:+ "* "
           +:+ join (nl +:+ "* ") (created_files locals))
  end.

End CreateOrModify.

(** ** [solve_github_issue] *)

(** [s.replace("\n", by)]. *)
Fixpoint replace_newlines (by_ s : string) : string :=
  match s with
  | EmptyString => EmptyString
  | String c rest =>
      if Ascii.eqb c (ascii_of_nat 10) then by_ +:+ replace_newlines by_ rest
      else String c (replace_newlines by_ rest)
  end.

(** The filename fields that are checked against the protected path. *)
Definition filename_keys : list string :=
  ["filename"; "new_filename"; "old_filename"; "target_filename"].

Definition workflow_error (filename : string) : string :=
  "Error processing " +:+ filename +:+ ": Modifying workflow files is not allowed.".

Section FilenameCheck.
Context {H : Type} `{Collaborators H}.

(** The inner loop [for filename_key in [...]] of the action loop. Its
    [continue] is the last statement of its own body: it goes on with the
    next key. The test [".github" in filename] raises when the field is
    not iterable. *)
Fixpoint check_filenames (keys : list string) (instruction : instruction)
    (errors : list string) : outcome (list string) :=
  match keys with
  | [] => Ok errors
  | filename_key :: rest =>
      match instruction !! filename_key with
      | Some filename =>
          match value_contains ".github" filename with
          | Ok true =>
              check_filenames rest instruction
                (errors ++ [workflow_error (str_value filename)])
          | Ok false => check_filenames rest instruction errors
          | Raised e => Raised e
          end
      | None => check_filenames rest instruction errors
      end
  end.

End FilenameCheck.

(** [errors] and [commit_messages]. *)
Record report_lists : Type := ReportLists {
  errors : list string;
  commit_messages : list string
}.

Section Solve.
Context {H : Type} `{Collaborators H}.
Variable cfg : settings.
Variables (repository : string) (issue : Z).
Variable prompt_function : string -> ext H string.
Variable base_branch : option string.

Definition action_format (kind : string) (fields : list string) : string :=
  "{" +:+ quoted "action" +:+ ": " +:+ quoted kind +:+
  String.concat EmptyString
    (map (fun f => ", " +:+ quoted f +:+ ": " +:+ quoted "...") fields) +:+ "}".

Definition planning_prompt (discussion all_files : string) : string :=
  text [ blank;
    "Given a list of files in the repository " +:+ repository +:+
      " and a github issues description (# " +:+ str_int issue +:+
      "), determine which files need to be modified, renamed or deleted to solve the issue.";
    blank;
    "## Github Issue #" +:+ str_int issue +:+ " Discussion";
    blank;
    discussion;
    blank;
    "## All files in the repository";
    blank;
    all_files;
    blank;
    "## Your task";
    "Decide which of these files need to be modified, created, downloaded, renamed, copied or deleted to solve #"
      +:+ str_int issue +:+ " ? ";
    "Downloads are necessary, if there is a url in the discussion and the linked file is needed in the proposed code.";
    "If the user asks for executing a notebook, consider this as modification.";
    "Keep the list of actions minimal.";
    "Response format:";
    "- For modifications: " +:+ action_format "modify" ["filename"];
    "- For creations: " +:+ action_format "create" ["filename"];
    "- For downloads: " +:+ action_format "download" ["source_url"; "target_filename"];
    "- For renames: " +:+ action_format "rename" ["old_filename"; "new_filename"];
    "- For copies: " +:+ action_format "copy" ["old_filename"; "new_filename"];
    "- For executions: " +:+ action_format "execute" ["filename"];
    "- For deletions: " +:+ action_format "delete" ["filename"];
    "Respond with the actions as JSON list.";
    blank ].

(** [instruction[key]]: a [KeyError] when the key is missing. *)
Definition item (instruction : instruction) (key : string) : M H value :=
  match instruction !! key with
  | Some v => ret v
  | None => raise (Exn KeyError ("'" +:+ key +:+ "'"))
  end.

(** [instruction[key].strip("/")]. *)
Definition stripped_item (instruction : instruction) (key : string) : M H string :=
  let* raw := item instruction key in
  lift (value_strip_slash raw).

Section Actions.
Variables (branch_name discussion : string).

(** The body of the [try:] of the action loop. *)
Definition perform_action (action : option value)
    (instruction : instruction) (commit_messages : list string)
    : M H (list string) :=
  if action_is "create" action || action_is "modify" action then
    let* filename := stripped_item instruction "filename" in
    let* result :=
      create_or_modify_file cfg repository issue filename branch_name
        discussion prompt_function 3 in
    let message := filename +:+ ":" +:+ result in
    ret (commit_messages ++ [message])
  else if action_is "download" action then
    let* source_url := item instruction "source_url" in
    let* target_filename := stripped_item instruction "target_filename" in
    let* _ := call (EvDownload repository branch_name source_url target_filename)
                (download_to_repository repository branch_name source_url
                   target_filename) in
    ret (commit_messages ++
         ["Downloaded " +:+ str_value source_url +:+ ", saved as "
          +:+ target_filename +:+ "."])
  else if action_is "rename" action then
    let* old_filename := stripped_item instruction "old_filename" in
    let* new_filename := stripped_item instruction "new_filename" in
    let* _ := call (EvRename repository branch_name old_filename new_filename)
                (rename_file_in_repository repository branch_name old_filename
                   new_filename) in
    ret (commit_messages ++
         ["Renamed " +:+ old_filename +:+ " to " +:+ new_filename +:+ "."])
  else if action_is "delete" action then
    let* filename := stripped_item instruction "filename" in
    let* _ := call (EvDelete repository branch_name filename)
                (delete_file_from_repository repository branch_name filename) in
    ret (commit_messages ++ ["Deleted " +:+ filename +:+ "."])
  else if action_is "copy" action then
    let* old_filename := stripped_item instruction "old_filename" in
    let* new_filename := stripped_item instruction "new_filename" in
    let* _ := call (EvCopy repository branch_name old_filename new_filename)
                (copy_file_in_repository repository branch_name old_filename
                   new_filename) in
    ret (commit_messages ++
         ["Copied " +:+ old_filename +:+ " to " +:+ new_filename +:+ "."])
  else ret commit_messages.

(** The [except Exception as e:] of the action loop: the entry that is
    appended to [errors]. *)
Definition error_summary (instruction : instruction) (e : exn) : string :=
  let traces :=
    "    " +:+
    replace_newlines (nl +:+ "    ") (remove_ansi_escape_sequences (format_exc e)) in
  "<details>" +:+ nl +:+
  "    <summary>Error during " +:+ repr_instruction instruction +:+ ": "
    +:+ exn_str e +:+ "</summary>" +:+ nl +:+
  "    <pre>" +:+ traces +:+ "</pre>" +:+ nl +:+
  "</details>" +:+ nl +:+
  "            ".

(** The body of [for instruction in instructions:]. The filename check
    stands before the [try:], so what it raises leaves the loop. *)
Definition process_instruction (instruction : instruction)
    (st : report_lists) : M H report_lists :=
  let action := get_action instruction in
  let* errors := lift (check_filenames filename_keys instruction (errors st)) in
  try_except
    (let* commit_messages :=
       perform_action action instruction (commit_messages st) in
     ret (ReportLists errors commit_messages))
    (fun e =>
       let summary := error_summary instruction e in
       ret (ReportLists (errors ++ [summary]) (commit_messages st))).

Fixpoint process_instructions (instructions : list instruction)
    (st : report_lists) : M H report_lists :=
  match instructions with
  | [] => ret st
  | instruction :: rest =>
      let* st := process_instruction instruction st in
      process_instructions rest st
  end.

(** The text that carries the accumulated errors into the report. *)
Definition error_messages_of (errors : list string) : string :=
  if (0 <? length errors)%nat then
    nl +:+ nl +:+ "During solving this task, the following errors occurred:"
    +:+ nl +:+ nl +:+ "* " +:+ join (nl +:+ "* ") errors +:+ nl
  else EmptyString.

Definition link_files_task : string :=
  text [ blank;
    "If there are image files created, use the markdown syntax ![](url) to display them.";
    "If there other new files created, add markdown links to them. ";
    "For file and image urls, prefix them with the repository name and the branch name: https://github.com/"
      +:+ repository +:+ "/blob/" +:+ branch_name +:+ "/";
    "For image urls, append " +:+ quoted "?raw=true" +:+
      " by the end of the url to display the image directly. Again, you MUST use the ![]() markdown syntax for image files.";
    blank ].

Definition pull_request_prompt (commit_messages_prompt diffs_prompt : string)
    : string :=
  text [ blank;
    SYSTEM_PROMPT cfg;
    "Given a list of commit messages and a git diff, summarize the changes you made in the files.";
    "You modified the repository " +:+ repository +:+ " to solve the issue #"
      +:+ str_int issue +:+ ", which is also summarized below.";
    blank;
    "## Github Issue #" +:+ str_int issue +:+ " Discussion";
    blank;
    discussion;
    blank;
    "## Commit messages";
    "You committed these changes to these files";
    blank;
    commit_messages_prompt;
    blank;
    "## Git diffs";
    "The following changes were made in the files:";
    blank;
    diffs_prompt;
    blank;
    "## Your task";
    blank;
    "Summarize the changes above to a one paragraph line Github pull-request message. ";
    link_files_task;
    blank;
    "Afterwards, summarize the summary in a single line, which will become the title of the pull-request.";
    "Do not add headline or any other formatting. Just respond with the paragraph and the title in a new line below.";
    blank ].

Definition comment_prompt (commit_messages_prompt : string) : string :=
  text [ blank;
    SYSTEM_PROMPT cfg;
    "Given a list of commit messages, summarize the changes you made.";
    blank;
    "## Commit messages";
    "You committed these changes to these files";
    blank;
    commit_messages_prompt;
    blank;
    "## Your task";
    "Summarize the changes above to a one paragraph.";
    link_files_task;
    blank;
    "Do not add headline or any other formatting. Just respond with the paragraphe below.";
    blank ].

(** The pull-request description and the two comment bodies. *)
Definition pull_request_body (pull_request_description error_messages : string)
    : string :=
  let remark := setup_ai_remark cfg +:+ nl +:+ nl in
  let full_report :=
    remark +:+ clean_output repository pull_request_description +:+ error_messages in
  redact_text full_report +:+ nl +:+ nl +:+ "closes #" +:+ str_int issue.

Definition fallback_comment_body (e : exn) (error_messages : string) : string :=
  let remark := setup_ai_remark cfg +:+ nl +:+ nl in
  remark +:+ "Error creating pull-request: " +:+ exn_str e +:+ error_messages.

Definition summary_comment_body (modification_summary error_messages : string)
    : string :=
  let remark := setup_ai_remark cfg +:+ nl +:+ nl in
  remark +:+ redact_text (clean_output repository modification_summary)
  +:+ redact_text error_messages.

(** The code after the action loop. *)
Definition report (st : report_lists) : M H unit :=
  let error_messages := error_messages_of (errors st) in
  (* get a diff of all changes *)
  let* diffs_prompt :=
    query (get_diff_of_branches repository branch_name base_branch) in
  (* summarize the changes *)
  let commit_messages_prompt := "* " +:+ join (nl +:+ "* ") (commit_messages st) in
  if bool_decide (Some branch_name <> base_branch) then
    let prompt := pull_request_prompt commit_messages_prompt diffs_prompt in
    let* pull_request_summary := call (EvPrompt prompt) (prompt_function prompt) in
    let* (pull_request_description, pull_request_title) :=
      lift (split_content_and_summary pull_request_summary) in
    let title := redact_text pull_request_title in
    let description := pull_request_body pull_request_description error_messages in
    try_except
      (call (EvSendPullRequest repository branch_name base_branch title description)
         (send_pull_request repository branch_name base_branch title description))
      (fun e =>
         match exn_cls e with
         | GithubException =>
             let body := fallback_comment_body e error_messages in
             call (EvAddComment repository issue body)
               (add_comment_to_issue repository issue body)
         | _ => raise e
         end)
  else
    let prompt := comment_prompt commit_messages_prompt in
    let* modification_summary := call (EvPrompt prompt) (prompt_function prompt) in
    let body := summary_comment_body modification_summary error_messages in
    call (EvAddComment repository issue body)
      (add_comment_to_issue repository issue body).

(** The Executing and Reporting phases: the action loop on empty
    [errors] and [commit_messages], then the report. *)
Definition execute_and_report (instructions : list instruction) : M H unit :=
  let* st := process_instructions instructions (ReportLists [] []) in
  report st.

End Actions.

(** The branch to work on: a new one when no branch is given or the given
    one is the default branch (the default is only asked for when a
    branch is given). *)
Definition select_branch : M H string :=
  let create :=
    call (EvCreateBranch repository base_branch)
      (create_branch repository base_branch) in
  match base_branch with
  | None => create
  | Some b =>
      let* name := query (default_branch_name repository) in
      if bool_decide (b = name) then create
      else ret b (* continue on the current branch *)
  end.

Definition solve_github_issue : M H unit :=
  let* _ := query (get_repository_handle repository) in
  let* conversation := query (get_conversation_on_issue repository issue) in
  let discussion := modify_discussion conversation in
  let* files := query (list_repository_files repository) in
  let all_files := "* " +:+ join (nl +:+ "* ") files in
  let prompt := planning_prompt discussion all_files in
  let* modifications := call (EvPrompt prompt) (prompt_function prompt) in
  let* instructions := lift (text_to_json_instructions modifications) in
  let* branch_name := select_branch in
  (* sort instructions by action: downloads first, then the rest in
     original order *)
  let instructions := sequence instructions in
  execute_and_report branch_name discussion instructions.

End Solve.

(** ** The entry script [actions/manager.py] *)

Module Manager.

(** What the script imports from [github_utilities] and [claude], and
    [int] on a string. *)
Class Collaborators (H : Type) : Type := {
  get_most_recent_comment_on_issue :
    option string -> option Z -> ext H (string * string);
  get_conversation_on_issue : option string -> option Z -> ext H string;
  prompt_claude : string -> ext H string;
  comment_on_issue : option string -> option Z -> string -> ext H unit;
  int_of_str : string -> outcome Z
}.

Section Script.
Context {H : Type} `{Collaborators H}.
(** [sys.argv]. *)
Variable argv : list string.

Definition print (line : string) : M H unit := emit (EvPrint line).

(** [os.environ.get(name)]. *)
Definition environ_get (name : string) : M H (option string) :=
  fun w => (w, Ok (environ w !! name)).

(** [s[0]] on an optional string: [None] is not subscriptable, and the
    empty string has no first character. *)
Definition first_char (s : option string) : M H ascii :=
  match s with
  | None => raise (Exn TypeError "'NoneType' object is not subscriptable")
  | Some EmptyString => raise (Exn IndexError "string index out of range")
  | Some (String c _) => ret c
  end.

(** [sys.argv[n]]. *)
Definition argv_item (n : nat) : M H string :=
  match argv !! n with
  | Some a => ret a
  | None => raise (Exn IndexError "list index out of range")
  end.

Fixpoint print_all (lines : list string) : M H unit :=
  match lines with
  | [] => ret tt
  | line :: rest => let* _ := print line in print_all rest
  end.

Definition response_prompt : string :=
  text [ blank;
    "Assume you are Bob (also known as git-bob). Generate a response to the following discussion in a github pull-request:";
    blank;
    "{discussion}";
    blank;
    "Respond to the discussion above only. Do NOT explain your response or anything else. Just respond to the discussion.";
    blank ].

Definition generated_comment (comment : string) : string :=
  text [ blank;
    comment;
    blank;
    "---";
    "This comment was generated by git-bob, an AI assistant. Read how this is done in the [git-bob](https://github.com/haesleinhuepf/git-bob) documentation.";
    blank ].

Definition main : M H unit :=
  let* _ := print "Hello" in
  (* Read the environment variable "ANTHROPIC_API_KEY" *)
  let* api_key := environ_get "ANTHROPIC_API_KEY" in
  (* Check if the environment variable is not None *)
  let* _ := print "Hello" in
  let* _ := if bool_decide (api_key <> None) then print "world!" else ret tt in
  let* c := first_char api_key in
  let* _ := if Ascii.eqb c (ascii_of_nat 34) then print "nej!" else ret tt in
  (* Print out all arguments passed to the script *)
  let* _ := print "Script arguments:" in
  let* _ := print_all (drop 1 argv) in
  let* task := argv_item 1 in
  let repository := if (2 <? length argv)%nat then argv !! 2%nat else None in
  let* issue :=
    if (3 <? length argv)%nat then
      let* a := argv_item 3 in
      let* n := lift (int_of_str a) in
      ret (Some n)
    else ret None in
  if bool_decide (task = "response-pull-request") then
    let* (user, text) :=
      query (get_most_recent_comment_on_issue repository issue) in
    if contains "@bob" text then
      let* discussion := query (get_conversation_on_issue repository issue) in
      let* _ := print ("Discussion: " +:+ discussion) in
      let* comment :=
        call (EvPrompt response_prompt) (prompt_claude response_prompt) in
      let* _ := print ("comment: " +:+ comment) in
      let body := generated_comment comment in
      call (EvCommentOnIssue repository issue body)
        (comment_on_issue repository issue body)
    else ret tt
  else ret tt.
End Script.

End Manager.

(** ** A scripted outside world

    A concrete set of collaborators, to run the pipeline on concrete
    inputs. The external state is the local disk, as the list of the
    absolute paths of its files. The oracle answers by the kind of prompt;
    notebooks are texts in which a ['!'] stands for a cell output. *)

Module Scripted.

Record script : Type := Script {
  plan : list instruction;
  default_branch : string;
  refuse_pull_request : bool;
  (* the notebook in the repository has no cells to restore outputs from *)
  broken_notebook : bool
}.

Definition bang : ascii := ascii_of_nat 33.

(** Erasing the outputs removes every ['!']. *)
Fixpoint erase (s : string) : string :=
  match s with
  | EmptyString => EmptyString
  | String c rest => if Ascii.eqb c bang then erase rest else String c (erase rest)
  end.

(** The outputs are restored when the sources agree. *)
Definition restore (new original : string) : outcome string :=
  if bool_decide (new = erase original) then Ok original
  else Raised (Exn ValueError "cell sources differ").

(** [rev_before_nl s] is the part of [s] before its first newline,
    reversed onto [acc], and the rest after that newline. *)
Fixpoint cut_at_newline (acc s : string) : option (string * string) :=
  match s with
  | EmptyString => None
  | String c rest =>
      if Ascii.eqb c (ascii_of_nat 10) then Some (acc, rest)
      else cut_at_newline (String c acc) rest
  end.

(** The last line is the summary, what is before it the content. *)
Definition split_last_line (response : string) : outcome (string * string) :=
  match cut_at_newline EmptyString (String.rev response) with
  | Some (summary, rev_content) => Ok (String.rev rev_content, summary)
  | None => Raised (Exn ValueError "no summary line")
  end.

Definition oracle (prompt : string) : string :=
  if contains "Extract a list of filenames" prompt then
    (* the files of the notebook, relative to the repository root *)
    if contains "The position of the notebook is docs/" prompt
    then "docs/plot.png missing.csv" else "plot.png missing.csv"
  else if contains "same.ipynb" prompt then "print(1)" +:+ nl +:+ "No change"
  else if contains "## File" prompt then "print(2)!" +:+ nl +:+ "Edit the cell"
  else "Report paragraph" +:+ nl +:+ "Short title".

Definition in_repository (filename : string) : bool :=
  bool_decide (filename ∈ ["old.ipynb"; "same.ipynb"; "old.py"]).

(** The notebook run leaks an environment variable and writes [plot.png]
    into the directory it runs in; a notebook with [crash] in it moves the
    working directory and kills the kernel. *)
Definition run (content : string) (env : gmap string string) (dir : string)
    (disk : list string)
    : (gmap string string * string * list string) * outcome (string * option string) :=
  if contains "crash" content then
    ((<["LEAK" := "1"]> env, "/elsewhere", disk),
     Raised (Exn OtherException "kernel died"))
  else
    ((<["LEAK" := "1"]> env, dir, path_join dir "plot.png" :: disk),
     Ok (content +:+ "!", None)).

Definition done_ {A} (a : A) : ext (list string) A := fun disk => (disk, Ok a).
Definition fails {A} (cls : exn_class) (msg : string) : ext (list string) A :=
  fun disk => (disk, Raised (Exn cls msg)).

(** How the scripted runtime shows a value; what is inside a list or a
    dict is not shown. *)
Definition show_value (v : value) : string :=
  match v with
  | VNone => "None"
  | VBool true => "True"
  | VBool false => "False"
  | VInt n => str_int n
  | VFloat text => text
  | VStr s => quoted s
  | VList _ => "[...]"
  | VDict _ => "{...}"
  end.

Definition show_instruction (i : instruction) : string :=
  "{" +:+ join ", " (map (fun kv => quoted kv.1 +:+ ": " +:+ show_value kv.2)
                       (map_to_list i)) +:+ "}".

Section Host.
Variable s : script.

Global Instance collaborators : Collaborators (list string) := {|
  get_repository_handle _ := done_ tt;
  default_branch_name _ := done_ (default_branch s);
  get_conversation_on_issue _ _ := done_ "Please fix it.";
  list_repository_files _ := done_ ["old.ipynb"; "same.ipynb"; "old.py"];
  create_branch _ _ := done_ "git-bob-mod-1";
  check_if_file_exists _ _ filename := done_ (in_repository filename);
  get_file_in_repository _ _ _ := done_ "print(1)!";
  write_file_in_branch _ _ _ _ _ := done_ tt;
  download_to_repository _ _ _ _ := done_ tt;
  rename_file_in_repository _ _ old_filename _ :=
    if bool_decide (old_filename = "missing.txt")
    then fails GithubException "404 Not Found" else done_ tt;
  delete_file_from_repository _ _ _ := done_ tt;
  copy_file_in_repository _ _ _ _ := done_ tt;
  get_diff_of_branches _ _ _ := done_ "diff --git";
  send_pull_request _ _ _ _ _ :=
    if refuse_pull_request s
    then fails GithubException "422 Validation Failed" else done_ tt;
  add_comment_to_issue _ _ _ := done_ tt;
  decode_file raw := Ok raw;
  split_content_and_summary := split_last_line;
  erase_outputs_of_code_cells content := Ok (erase content);
  restore_outputs_of_code_cells new original :=
    if broken_notebook s then Raised (Exn KeyError "'cells'")
    else restore new original;
  text_to_json_instructions _ := Ok (plan s);
  text_to_json_filenames listing := Ok (String.words listing);
  modify_discussion d := d;
  remove_ansi_escape_sequences t := t;
  clean_output _ t := t;
  redact_text t := t;
  execute_notebook := run;
  os_makedirs _ _ := done_ tt;
  os_path_exists dir file disk := bool_decide (path_join dir file ∈ disk);
  read_binary dir file _ := Ok ("bytes of " +:+ path_join dir file);
  os_getcwd _ _ := Ok tt;
  os_chdir _ _ _ := Ok tt;
  format_exc e := "Traceback (most recent call last):" +:+ nl +:+ exn_str e;
  repr_instruction := show_instruction;
  repr_value := show_value
|}.
End Host.

(** The oracle as a [prompt_function]. *)
Definition ask (prompt : string) : ext (list string) string := done_ (oracle prompt).

Definition cfg : settings := Settings ∅ "0.1" "model" None "owner/repo".

(** A process in [/work] with one environment variable, an empty disk and
    an empty log. *)
Definition start : world (list string) :=
  World {[ "HOME" := "/root" ]} "/work" [] [].

(** Planned actions to run. *)
Definition create_new_py : instruction :=
  {[ "action" := VStr "create"; "filename" := VStr "new.py" ]}.
Definition rename_missing : instruction :=
  {[ "action" := VStr "rename"; "old_filename" := VStr "missing.txt";
     "new_filename" := VStr "found.txt" ]}.
Definition delete_notes : instruction :=
  {[ "action" := VStr "delete"; "filename" := VStr "notes.txt" ]}.
Definition delete_workflow : instruction :=
  {[ "action" := VStr "delete"; "filename" := VStr ".github/workflows/ci.yml" ]}.
Definition execute_old_notebook : instruction :=
  {[ "action" := VStr "execute"; "filename" := VStr "old.ipynb" ]}.
Definition download_data : instruction :=
  {[ "action" := VStr "download";
     "source_url" := VStr "https://example.org/data.csv";
     "target_filename" := VStr "data/data.csv" ]}.
Definition download_logo : instruction :=
  {[ "action" := VStr "download";
     "source_url" := VStr "https://example.org/logo.png";
     "target_filename" := VStr "logo.png" ]}.
(** An action whose filename is the JSON [null]. *)
Definition delete_nameless : instruction :=
  {[ "action" := VStr "delete"; "filename" := VNone ]}.

(** [int] on a decimal numeral. *)
Fixpoint digits (acc : Z) (s : string) : outcome Z :=
  match s with
  | EmptyString => Ok acc
  | String c rest =>
      let n := Z.of_nat (nat_of_ascii c) in
      if ((48 <=? n) && (n <=? 57))%Z then digits (10 * acc + (n - 48)) rest
      else Raised (Exn ValueError "invalid literal for int() with base 10")
  end.

Global Instance manager_collaborators : Manager.Collaborators (list string) := {|
  Manager.get_most_recent_comment_on_issue _ _ := done_ ("alice", "@bob please answer");
  Manager.get_conversation_on_issue _ _ := done_ "Please answer.";
  Manager.prompt_claude prompt := done_ (oracle prompt);
  Manager.comment_on_issue _ _ _ := done_ tt;
  Manager.int_of_str s :=
    match s with
    | EmptyString => Raised (Exn ValueError "invalid literal for int() with base 10")
    | _ => digits 0 s
    end
|}.

End Scripted.

(** ** The other entry points of [_ai_github_utilities.py] *)

(** A Python string is a sequence of characters; here it is the sequence
    of the bytes of its UTF-8 encoding, in which a character is one byte
    that is not of the form [10xxxxxx], followed by the bytes of that form
    that continue it. *)
Definition continues (c : ascii) : bool :=
  match c with
  | Ascii _ _ _ _ _ _ false true => true
  | _ => false
  end.

(** [len(s)]: the number of characters. *)
Fixpoint char_length (s : string) : nat :=
  match s with
  | EmptyString => 0
  | String c rest =>
      if continues c then char_length rest else S (char_length rest)
  end.

(** [s[:n]]: the first [n] characters, each with the bytes that continue
    it. *)
Fixpoint slice_to (n : nat) (s : string) : string :=
  match s with
  | EmptyString => EmptyString
  | String c rest =>
      if continues c then String c (slice_to n rest)
      else match n with
           | 0 => EmptyString
           | S n' => String c (slice_to n' rest)
           end
  end.

(** [s[n:]]: what follows the first [n] characters. *)
Fixpoint slice_from (n : nat) (s : string) : string :=
  match s with
  | EmptyString => EmptyString
  | String c rest =>
      if continues c then slice_from n rest
      else match n with
           | 0 => s
           | S n' => slice_from n' rest
           end
  end.

(** [s] without its first [n] bytes. *)
Fixpoint str_drop (n : nat) (s : string) : string :=
  match n, s with
  | S n', String _ rest => str_drop n' rest
  | _, _ => s
  end.

(** [s.replace(old, new)] for a non-empty [old]: the occurrences of [old]
    are found from the left, without overlap (an occurrence of a character
    sequence in a character sequence is an occurrence of its bytes). The
    fuel is the number of bytes still to be read. *)
Fixpoint replace_from (fuel : nat) (old new s : string) : string :=
  match fuel with
  | 0 => s
  | S fuel' =>
      match s with
      | EmptyString => EmptyString
      | String c rest =>
          if String.prefix old s
          then new +:+ replace_from fuel' old new (str_drop (String.length old) s)
          else String c (replace_from fuel' old new rest)
      end
  end.

(** [s.replace("", new)] puts [new] before every character and at the
    end. *)
Fixpoint intersperse_all (new s : string) : string :=
  match s with
  | EmptyString => new
  | String c rest =>
      if continues c then String c (intersperse_all new rest)
      else new +:+ String c (intersperse_all new rest)
  end.

Definition str_replace (old new s : string) : string :=
  match old with
  | EmptyString => intersperse_all new s
  | _ => replace_from (String.length s) old new s
  end.

(** What these functions import besides the collaborators above. *)
Class Responders (H : Type) : Type := {
  get_repository_file_contents :
    string -> string -> list string -> ext H (list (string * string));
  get_diff_of_pull_request : string -> Z -> ext H string;
  get_issue_details : string -> Z -> ext H string;
  create_issue : string -> string -> string -> ext H Z
}.

Section Respond.
Context {H : Type} `{Collaborators H} `{Responders H}.
Variable cfg : settings.
Variables (repository : string) (issue : Z).
Variable prompt_function : string -> ext H string.

Definition relevant_files_prompt (discussion all_files : string) : string :=
  text [ blank;
    SYSTEM_PROMPT cfg;
    "Decide what to do to respond to a github issue. The entire issue discussion is given and a list of all files in the repository.";
    blank;
    "## Discussion of the issue #" +:+ str_int issue;
    blank;
    discussion;
    blank;
    "## All files in the repository";
    blank;
    all_files;
    blank;
    "## Your task";
    "Which of these files are necessary to read for solving the issue #"
      +:+ str_int issue +:+ " ? Keep the list short.";
    "Returning an empty list is also a valid answer.";
    "Respond with the filenames as JSON list.";
    blank ].

Definition file_section (entry : string * string) : string :=
  "### File " +:+ entry.1 +:+ " content" +:+ nl +:+ nl +:+ "```" +:+ nl
  +:+ entry.2 +:+ nl +:+ "```" +:+ nl.

Definition respond_prompt (discussion relevant_files_contents : string) : string :=
  text [ blank;
    SYSTEM_PROMPT cfg;
    "Respond to a github issue. Its entire discussion is given and additionally, content of some relevant files.";
    blank;
    "## Discussion";
    blank;
    discussion;
    blank;
    "## Relevant files";
    blank;
    relevant_files_contents;
    blank;
    "## Your task";
    blank;
    "Respond to the discussion above.";
    "In case code-changes are discussed, make a proposal of how new code could look like.";
    "Do NOT explain your response or anything else. ";
    "Do not repeat answers that were given already.";
    "Focus on the most recent discussion.";
    "Just respond to the discussion.";
    blank ].

(** The body of the comment that both responders post. *)
Definition remarked_comment (ai_remark comment : string) : string :=
  "        " +:+ nl +:+ ai_remark +:+ nl +:+ nl +:+ comment +:+ nl.

Definition comment_on_issue : M H unit :=
  let ai_remark := setup_ai_remark cfg in
  let* conversation := query (get_conversation_on_issue repository issue) in
  let discussion := modify_discussion conversation in
  let* files := query (list_repository_files repository) in
  let all_files := "* " +:+ join (nl +:+ "* ") files in
  let prompt := relevant_files_prompt discussion all_files in
  let* relevant_files := call (EvPrompt prompt) (prompt_function prompt) in
  let* filenames := lift (text_to_json_filenames relevant_files) in
  let* file_content_dict :=
    query (get_repository_file_contents repository "main" filenames) in
  let temp := map file_section file_content_dict in
  let relevant_files_contents := join nl temp in
  let prompt := respond_prompt discussion relevant_files_contents in
  let* comment := call (EvPrompt prompt) (prompt_function prompt) in
  let comment := redact_text (clean_output repository comment) in
  let body := remarked_comment ai_remark comment in
  call (EvAddComment repository issue body)
    (add_comment_to_issue repository issue body).



Definition summary_prompt (issue_conversation : string) : string :=
  text [ blank;
    "Summarize the most important details of this issue #" +:+ str_int issue
      +:+ " in the repository " +:+ repository +:+ ". ";
    "In case filenames, variables and code-snippetes are mentioned, keep them in the summary, they are very important.";
    blank;
    "## Issue to summarize:";
    issue_conversation;
    blank ].

Definition summarize_github_issue : M H string :=
  let* issue_conversation := query (get_issue_details repository issue) in
  let prompt := summary_prompt issue_conversation in
  call (EvPrompt prompt) (prompt_function prompt).



(** [body.replace(AGENT_NAME, AGENT_NAME[:3] + "_" + AGENT_NAME[4:])]. *)
Definition defuse_agent_name (body : string) : string :=
  let name := AGENT_NAME cfg in
  str_replace name (slice_to 3 name +:+ "_" +:+ slice_from 4 name) body.




End Respond.

(** The scripted outside world, for these functions: the repository files
    that are asked for come back with a fixed content, and a new issue gets
    the length of its title as its number. *)
Module ScriptedResponders.

Global Instance responders : Responders (list string) := {|
  get_repository_file_contents _ _ filenames :=
    Scripted.done_ (map (fun f => (f, "content of " +:+ f)) filenames);
  get_diff_of_pull_request _ _ := Scripted.done_ "diff --git";
  get_issue_details _ _ := Scripted.done_ "Please fix it.";
  create_issue _ title _ := Scripted.done_ (Z.of_nat (String.length title))
|}.

End ScriptedResponders.

(** ** Vocabulary of the properties *)

(** A relation [R] between the world before and after a run holds of a
    program when it holds of every run of it. *)
Definition keeps {H A} (R : relation (world H)) (m : M H A) : Prop :=
  forall w, R w (m w).1.

(** The run only appends to the log, and what it appends satisfies [P]. *)
Definition logs {H} (P : event -> Prop) : relation (world H) :=
  fun w w' => exists evs, trace w' = trace w ++ evs /\ Forall P evs.

(** The run leaves the environment variables and the working directory as
    they were, when started in the directory [home]. *)
Definition same_process {H} (home : string) : relation (world H) :=
  fun w w' => cwd w = home -> environ w' = environ w /\ cwd w' = cwd w.

Definition is_retry_notice (ev : event) : bool :=
  match ev with EvRetryNotice _ _ => true | _ => false end.

Definition is_notebook_run (ev : event) : bool :=
  match ev with EvExecuteNotebook _ => true | _ => false end.

Definition is_write (ev : event) : bool :=
  match ev with EvWriteFile _ _ _ _ _ => true | _ => false end.

Definition is_posting (ev : event) : bool :=
  match ev with
  | EvSendPullRequest _ _ _ _ _ | EvAddComment _ _ _ => true
  | _ => false
  end.

(** The flag as the test [if not an_error_happened] finds it, when an
    attempt gets that far. *)
Definition flag_at_test (r : outcome attempt_locals) : bool :=
  match r with
  | Ok locals => an_error_happened locals
  | Raised _ => false
  end.

(** The world after the warning about the failed restoration. *)
Definition warned {H} (filename : string) (e : exn) (w : world H) : world H :=
  World (environ w) (cwd w) (host w)
    (trace w ++ [EvWarn ("Could not restore outputs of code cells in "
                         +:+ filename +:+ ": " +:+ exn_str e)]).

(** The values on which [".github" in v] is defined. *)
Definition iterable (v : value) : bool :=
  match v with
  | VStr _ | VList _ | VDict _ => true
  | _ => false
  end.

(** Every filename field of the action is iterable. *)
Definition checkable (i : instruction) : Prop :=
  forall k v, k ∈ filename_keys -> i !! k = Some v -> iterable v = true.

Definition normal_path (p : string) : bool :=
  negb (startswith p "/") && negb (endswith p "/").

Definition unstripped_path (ev : event) : bool :=
  match ev with
  | EvDownload _ _ _ target => negb (normal_path target)
  | EvRename _ _ old new | EvCopy _ _ old new =>
      negb (normal_path old && normal_path new)
  | EvDelete _ _ filename => negb (normal_path filename)
  | _ => false
  end.

(** [r] is [s] with some of its hyphens turned into underscores. *)
Fixpoint hyphens_softened (s r : string) : Prop :=
  match s, r with
  | EmptyString, EmptyString => True
  | String a s', String b r' =>
      (a = b \/ (a = "-"%char /\ b = "_"%char)) /\ hyphens_softened s' r'
  | _, _ => False
  end.

(** Every value that [m] returns satisfies [Q]. *)
Definition returns {H A} (Q : A -> Prop) (m : M H A) : Prop :=
  forall w w' a, m w = (w', Ok a) -> Q a.

Definition is_branch_or_pull_request (ev : event) : bool :=
  match ev with
  | EvCreateBranch _ _ | EvSendPullRequest _ _ _ _ _ => true
  | _ => false
  end.

(** The events of a notebook run and of its sandbox. *)
Definition is_sandbox_step (ev : event) : bool :=
  match ev with
  | EvMakedirs _ | EvChdir _ | EvExecuteNotebook _ => true
  | _ => false
  end.

Definition is_print (ev : event) : bool :=
  match ev with EvPrint _ => true | _ => false end.

(** The run leaves the outside as it is and only prints. *)
Definition only_prints {H} : relation (world H) :=
  fun w w' => host w' = host w /\
              exists evs, trace w' = trace w ++ evs /\
                          Forall (fun ev => is_print ev = true) evs.

(** The prompts the run sends are all the same text. *)
Definition prompts_only {H} (text : string) : relation (world H) :=
  logs (fun ev => forall p, ev = EvPrompt p -> p = text).

Definition is_prompt_or_comment (ev : event) : bool :=
  match ev with
  | EvPrompt _ | EvCommentOnIssue _ _ _ | EvAddComment _ _ _ => true
  | _ => false
  end.

(** The events that change the repository, the disk or the process. *)
Definition is_mutation (ev : event) : bool :=
  match ev with
  | EvCreateBranch _ _ | EvWriteFile _ _ _ _ _ | EvDownload _ _ _ _
  | EvRename _ _ _ _ | EvDelete _ _ _ | EvCopy _ _ _ _
  | EvSendPullRequest _ _ _ _ _ | EvMakedirs _ | EvChdir _
  | EvExecuteNotebook _ => true
  | _ => false
  end.

(** The scripted world with a notebook of which a cell fails: the run
    gives back the notebook as far as it got, and the error message. *)
Module ScriptedCellError.

Definition run (content : string) (env : gmap string string) (dir : string)
    (disk : list string)
    : (gmap string string * string * list string) * outcome (string * option string) :=
  ((env, dir, disk), Ok (content +:+ "!", Some "NameError: name 'x' is not defined")).

Definition base : Collaborators (list string) :=
  Scripted.collaborators (Scripted.Script [] "main" false false).

Global Instance collaborators : Collaborators (list string) := {|
  get_repository_handle := get_repository_handle (Collaborators := base);
  default_branch_name := default_branch_name (Collaborators := base);
  get_conversation_on_issue := get_conversation_on_issue (Collaborators := base);
  list_repository_files := list_repository_files (Collaborators := base);
  create_branch := create_branch (Collaborators := base);
  check_if_file_exists := check_if_file_exists (Collaborators := base);
  get_file_in_repository := get_file_in_repository (Collaborators := base);
  write_file_in_branch := write_file_in_branch (Collaborators := base);
  download_to_repository := download_to_repository (Collaborators := base);
  rename_file_in_repository := rename_file_in_repository (Collaborators := base);
  delete_file_from_repository := delete_file_from_repository (Collaborators := base);
  copy_file_in_repository := copy_file_in_repository (Collaborators := base);
  get_diff_of_branches := get_diff_of_branches (Collaborators := base);
  send_pull_request := send_pull_request (Collaborators := base);
  add_comment_to_issue := add_comment_to_issue (Collaborators := base);
  decode_file := decode_file (Collaborators := base);
  split_content_and_summary := split_content_and_summary (Collaborators := base);
  erase_outputs_of_code_cells := erase_outputs_of_code_cells (Collaborators := base);
  restore_outputs_of_code_cells := restore_outputs_of_code_cells (Collaborators := base);
  text_to_json_instructions := text_to_json_instructions (Collaborators := base);
  text_to_json_filenames := text_to_json_filenames (Collaborators := base);
  modify_discussion := modify_discussion (Collaborators := base);
  remove_ansi_escape_sequences := remove_ansi_escape_sequences (Collaborators := base);
  clean_output := clean_output (Collaborators := base);
  redact_text := redact_text (Collaborators := base);
  execute_notebook := run;
  os_makedirs := os_makedirs (Collaborators := base);
  os_path_exists := os_path_exists (Collaborators := base);
  read_binary := read_binary (Collaborators := base);
  os_getcwd := os_getcwd (Collaborators := base);
  os_chdir := os_chdir (Collaborators := base);
  format_exc := format_exc (Collaborators := base);
  repr_instruction := repr_instruction (Collaborators := base);
  repr_value := repr_value (Collaborators := base)
|}.

End ScriptedCellError.

(** The scripted world with a notebook that removes the directory the
    process was started in, leaves for the root directory and then fails.
    On the disk a removed directory is recorded by its path followed by a
    slash, and the operating system refuses to change to it. *)
Module ScriptedRemoval.

Definition run (content : string) (env : gmap string string) (dir : string)
    (disk : list string)
    : (gmap string string * string * list string) * outcome (string * option string) :=
  ((<["LEAK" := "1"]> env, "/", (dir +:+ "/") :: disk),
   Raised (Exn OtherException "kernel died")).

Definition change (dir path : string) (disk : list string) : outcome unit :=
  if bool_decide (path_join dir path +:+ "/" ∈ disk)
  then Raised (Exn OSError "[Errno 2] No such file or directory")
  else Ok tt.

Definition base : Collaborators (list string) :=
  Scripted.collaborators (Scripted.Script [] "main" false false).

Definition collaborators : Collaborators (list string) := {|
  get_repository_handle := get_repository_handle (Collaborators := base);
  default_branch_name := default_branch_name (Collaborators := base);
  get_conversation_on_issue := get_conversation_on_issue (Collaborators := base);
  list_repository_files := list_repository_files (Collaborators := base);
  create_branch := create_branch (Collaborators := base);
  check_if_file_exists := check_if_file_exists (Collaborators := base);
  get_file_in_repository := get_file_in_repository (Collaborators := base);
  write_file_in_branch := write_file_in_branch (Collaborators := base);
  download_to_repository := download_to_repository (Collaborators := base);
  rename_file_in_repository := rename_file_in_repository (Collaborators := base);
  delete_file_from_repository := delete_file_from_repository (Collaborators := base);
  copy_file_in_repository := copy_file_in_repository (Collaborators := base);
  get_diff_of_branches := get_diff_of_branches (Collaborators := base);
  send_pull_request := send_pull_request (Collaborators := base);
  add_comment_to_issue := add_comment_to_issue (Collaborators := base);
  decode_file := decode_file (Collaborators := base);
  split_content_and_summary := split_content_and_summary (Collaborators := base);
  erase_outputs_of_code_cells := erase_outputs_of_code_cells (Collaborators := base);
  restore_outputs_of_code_cells := restore_outputs_of_code_cells (Collaborators := base);
  text_to_json_instructions := text_to_json_instructions (Collaborators := base);
  text_to_json_filenames := text_to_json_filenames (Collaborators := base);
  modify_discussion := modify_discussion (Collaborators := base);
  remove_ansi_escape_sequences := remove_ansi_escape_sequences (Collaborators := base);
  clean_output := clean_output (Collaborators := base);
  redact_text := redact_text (Collaborators := base);
  execute_notebook := run;
  os_makedirs := os_makedirs (Collaborators := base);
  os_path_exists := os_path_exists (Collaborators := base);
  read_binary := read_binary (Collaborators := base);
  os_getcwd := os_getcwd (Collaborators := base);
  os_chdir := change;
  format_exc := format_exc (Collaborators := base);
  repr_instruction := repr_instruction (Collaborators := base);
  repr_value := repr_value (Collaborators := base)
|}.

End ScriptedRemoval.

(** The scripted world of the entry script in which the most recent
    comment does not mention the agent. *)
Module ScriptedQuiet.

Definition manager_collaborators : Manager.Collaborators (list string) := {|
  Manager.get_most_recent_comment_on_issue _ _ :=
    Scripted.done_ ("alice", "Thanks, that works.");
  Manager.get_conversation_on_issue :=
    Manager.get_conversation_on_issue
      (Collaborators := Scripted.manager_collaborators);
  Manager.prompt_claude :=
    Manager.prompt_claude (Collaborators := Scripted.manager_collaborators);
  Manager.comment_on_issue :=
    Manager.comment_on_issue (Collaborators := Scripted.manager_collaborators);
  Manager.int_of_str :=
    Manager.int_of_str (Collaborators := Scripted.manager_collaborators)
|}.

End ScriptedQuiet.

(** * Properties *)

(** ** The sequencing step *)

Section Sorted.
Context {A : Type} (key : A -> bool).

Lemma insert_by_key_false x l :
  key x = false -> insert_by_key key x l = x :: l.
Proof.
  intros Hx. destruct l as [|y l]; simpl; [done|].
  rewrite Hx. unfold key_lt. by rewrite andb_false_r.
Qed.

Lemma insert_by_key_true x front back :
  key x = true ->
  Forall (fun y => key y = false) front ->
  Forall (fun y => key y = true) back ->
  insert_by_key key x (front ++ back) = front ++ x :: back.
Proof.
  intros Hx Hfront Hback.
  induction Hfront as [|y front Hy _ IH]; simpl.
  - destruct Hback as [|z back Hz _]; simpl; [done|].
    by rewrite Hx, Hz.
  - rewrite Hx, Hy. simpl. by rewrite IH.
Qed.

Lemma Forall_filter_key (b : bool) (l : list A) :
  Forall (fun y => key y = b) (List.filter (fun y => eqb (key y) b) l).
Proof.
  apply List.Forall_forall. intros y Hy.
  apply List.filter_In in Hy as [_ Hy]. by apply eqb_prop in Hy.
Qed.

(** A stable sort on a two-valued key is a stable partition. *)
Lemma sorted_partition (l : list A) :
  sorted key l =
  List.filter (fun y => eqb (key y) false) l ++
  List.filter (fun y => eqb (key y) true) l.
Proof.
  induction l as [|x l IH]; simpl; [done|].
  rewrite IH. destruct (key x) eqn:Hx; simpl.
  - apply insert_by_key_true; [done|apply Forall_filter_key..].
  - by apply insert_by_key_false.
Qed.
End Sorted.

Lemma filter_ext_bool {A} (f g : A -> bool) (l : list A) :
  (forall x, f x = g x) -> List.filter f l = List.filter g l.
Proof. intros Hfg. induction l as [|x l IH]; simpl; [done|]. by rewrite Hfg, IH. Qed.

Lemma sequence_partition (instructions : list instruction) :
  sequence instructions =
  List.filter is_download instructions ++ List.filter not_download instructions.
Proof.
  unfold sequence. rewrite sorted_partition. f_equal; apply filter_ext_bool;
    intros i; unfold is_download; by destruct (not_download i).
Qed.

Lemma filter_filter_same {A} (f : A -> bool) (l : list A) :
  List.filter f (List.filter f l) = List.filter f l.
Proof.
  induction l as [|x l IH]; simpl; [done|].
  destruct (f x) eqn:Hx; simpl; [by rewrite Hx, IH|done].
Qed.

Lemma filter_filter_none {A} (f g : A -> bool) (l : list A) :
  (forall x, f x = true -> g x = false) ->
  List.filter g (List.filter f l) = [].
Proof.
  intros Hfg. induction l as [|x l IH]; simpl; [done|].
  destruct (f x) eqn:Hx; simpl; [by rewrite (Hfg x Hx)|done].
Qed.


Example sequence_of_mixed_plan :
  sequence [Scripted.create_new_py; Scripted.download_data;
            Scripted.delete_notes; Scripted.download_logo]
  = [Scripted.download_data; Scripted.download_logo;
     Scripted.create_new_py; Scripted.delete_notes].
Proof. by vm_compute. Qed.

(** ** Reasoning about runs

    A relation [R] between the world before and after a run, reflexive and
    transitive, holds of a program when it holds of its steps. *)

Section Keeps.
Context {H : Type} (R : relation (world H)) `{!PreOrder R}.


Lemma keeps_ret {A} (a : A) : keeps R (ret a).
Proof. intros w. simpl. reflexivity. Qed.

Lemma keeps_raise {A} e : keeps R (@raise H A e).
Proof. intros w. simpl. reflexivity. Qed.

Lemma keeps_lift {A} (r : outcome A) : keeps R (lift r).
Proof. intros w. simpl. reflexivity. Qed.

Lemma keeps_bind {A B} (m : M H A) (k : A -> M H B) :
  keeps R m -> (forall a, keeps R (k a)) -> keeps R (bind m k).
Proof.
  intros Hm Hk w. unfold bind. specialize (Hm w).
  destruct (m w) as [w' [a|e]]; simpl in *; [|done].
  etrans; [exact Hm|apply Hk].
Qed.

Lemma keeps_try_except {A} (m : M H A) (handler : exn -> M H A) :
  keeps R m -> (forall e, keeps R (handler e)) -> keeps R (try_except m handler).
Proof.
  intros Hm Hh w. unfold try_except. specialize (Hm w).
  destruct (m w) as [w' [a|e]]; simpl in *; [done|].
  etrans; [exact Hm|apply Hh].
Qed.

Lemma keeps_try_finally {A} (m : M H A) (fin : M H unit) :
  keeps R m -> keeps R fin -> keeps R (try_finally m fin).
Proof.
  intros Hm Hf w. unfold try_finally. specialize (Hm w).
  destruct (m w) as [w' r]; simpl in *. specialize (Hf w').
  destruct (fin w') as [w'' [[]|e]]; simpl in *; by etrans.
Qed.
End Keeps.

Lemma keeps_getcwd {H} `{Collaborators H} (R : relation (world H))
    `{!PreOrder R} : keeps R getcwd.
Proof.
  intros w. unfold getcwd. destruct (os_getcwd (cwd w) (host w)); reflexivity.
Qed.

(** Applies one of the lemmas above; the order is found by instance
    search. *)
Ltac keeps_by lem := apply lem; [apply _|..].

(** Decomposes a goal [keeps R m] along the structure of [m]; [base]
    closes the steps that are particular to [R]. *)
Ltac keeps_steps base :=
  repeat first
    [ keeps_by @keeps_ret | keeps_by @keeps_raise | keeps_by @keeps_lift
    | keeps_by @keeps_getcwd
    | base
    | keeps_by @keeps_bind; [|intros ?; cbv beta]
    | keeps_by @keeps_try_except; [|intros ?; cbv beta]
    | keeps_by @keeps_try_finally
    | match goal with
      | |- keeps _ (match ?x with _ => _ end) => destruct x
      end ].


Global Instance logs_preorder {H} (P : event -> Prop) : PreOrder (@logs H P).
Proof.
  split.
  - intros w. exists []. by rewrite app_nil_r.
  - intros a b c (e1 & H1 & F1) (e2 & H2 & F2). exists (e1 ++ e2). split.
    + by rewrite H2, H1, app_assoc.
    + by apply Forall_app.
Qed.


Global Instance same_process_preorder {H} (home : string) :
  PreOrder (@same_process H home).
Proof.
  split.
  - by intros w _.
  - intros a b c Hab Hbc Ha. destruct (Hab Ha) as [He Hc].
    rewrite <- Hc in Ha. destruct (Hbc Ha) as [He' Hc']. split; congruence.
Qed.

Section Steps.
Context {H : Type}.

Lemma logs_call {A} (P : event -> Prop) ev (f : ext H A) :
  P ev -> keeps (logs P) (call ev f).
Proof.
  intros Hev w. unfold call. destruct (f (host w)) as [h r]; simpl.
  exists [ev]. split; [done|]. by constructor.
Qed.

Lemma logs_query {A} (P : event -> Prop) (f : ext H A) :
  keeps (logs P) (query f).
Proof.
  intros w. unfold query. destruct (f (host w)) as [h r]; simpl.
  exists []. by rewrite app_nil_r.
Qed.

Lemma logs_emit (P : event -> Prop) ev : P ev -> keeps (@logs H P) (emit ev).
Proof. intros Hev w. simpl. exists [ev]. split; [done|]. by constructor. Qed.

Lemma logs_save (P : event -> Prop) :
  keeps (@logs H P) save_and_clear_environment.
Proof. intros w. simpl. exists []. by rewrite app_nil_r. Qed.

Lemma logs_restore (P : event -> Prop) saved :
  keeps (@logs H P) (restore_environment saved).
Proof. intros w. simpl. exists []. by rewrite app_nil_r. Qed.

Lemma same_process_call {A} home ev (f : ext H A) :
  keeps (same_process home) (call ev f).
Proof. intros w. unfold call. by destruct (f (host w)) as [h r]. Qed.

Lemma same_process_query {A} home (f : ext H A) :
  keeps (same_process home) (query f).
Proof. intros w. unfold query. by destruct (f (host w)) as [h r]. Qed.

Lemma same_process_emit home ev : keeps (@same_process H home) (emit ev).
Proof. by intros w. Qed.

Lemma path_join_absolute (a b : string) :
  startswith b "/" = true -> path_join a b = b.
Proof. intros Hb. unfold path_join. by rewrite Hb. Qed.
End Steps.

Lemma logs_chdir {H} `{Collaborators H} (P : event -> Prop) path :
  P (EvChdir path) -> keeps (@logs H P) (chdir path).
Proof.
  intros Hev w. unfold chdir.
  destruct (os_chdir (cwd w) path (host w)); simpl;
    exists [EvChdir path]; (split; [done|]); by constructor.
Qed.

(** What a run returns, apart from what it does. *)

Section Returns.
Context {H : Type}.

Lemma returns_ret {A} (Q : A -> Prop) (a : A) : Q a -> returns (H := H) Q (ret a).
Proof. intros Ha w w' a' [= _ <-]. done. Qed.

Lemma returns_raise {A} (Q : A -> Prop) (e : exn) : returns (H := H) Q (raise e).
Proof. by intros w w' a. Qed.

Lemma returns_bind {A B} (Q : B -> Prop) (m : M H A) (k : A -> M H B) :
  (forall a, returns Q (k a)) -> returns Q (bind m k).
Proof.
  intros Hk w w' b. unfold bind. destruct (m w) as [w1 [a|e]]; [|done].
  apply Hk.
Qed.

(** The value that follows a step may be used in what comes after. *)
Lemma keeps_bind_returns {A B} (R : relation (world H)) `{!PreOrder R}
    (Q : A -> Prop) (m : M H A) (k : A -> M H B) :
  keeps R m -> returns Q m -> (forall a, Q a -> keeps R (k a)) ->
  keeps R (bind m k).
Proof.
  intros Hm HQ Hk w. unfold bind. specialize (Hm w). specialize (HQ w).
  destruct (m w) as [w' [a|e]]; simpl in *; [|done].
  etrans; [exact Hm|]. apply Hk. by eapply HQ.
Qed.
End Returns.

Lemma returns_query {H A} (Q : A -> Prop) (f : ext H A) :
  (forall h h' a, f h = (h', Ok a) -> Q a) -> returns Q (query f).
Proof.
  intros Hf w w' a. unfold query.
  destruct (f (host w)) as [h' r] eqn:Hq. intros [= _ ->]. by eapply Hf.
Qed.

(** ** The notebook sandbox *)

Section Sandbox.
Context {H : Type} `{Collaborators H}.
Variable cfg : settings.
Variables (repository : string) (issue : Z).
Variables (filename branch_name issue_summary : string).
Variable prompt_function : string -> ext H string.

(** The directory the process is in, to which the operating system lets
    it return. *)
Variable home : string.
Hypothesis home_absolute : startswith home "/" = true.
Hypothesis home_accepted : forall dir h, os_chdir dir home h = Ok tt.

(** Whatever the protected block did, after the [finally] clause the
    environment is the snapshot and the working directory is the one
    changed back to. *)
Lemma finally_restores {A} (m : M H A)
    (saved : gmap string string) (w : world H) :
  let w' := (try_finally m (let* _ := chdir home in
                            restore_environment saved) w).1 in
  environ w' = saved /\ cwd w' = home.
Proof.
  unfold try_finally, bind, chdir. destruct (m w) as [w1 r].
  rewrite home_accepted. simpl. split; [done|]. by apply path_join_absolute.
Qed.

Lemma execute_in_sandbox_restores (new_content : string) :
  keeps (same_process home)
    (execute_in_sandbox repository filename branch_name prompt_function
       new_content).
Proof.
  intros w Hhome.
  set (P := fun r : world H * outcome (string * list string) =>
              environ r.1 = environ w /\ cwd r.1 = cwd w).
  change (P (execute_in_sandbox repository filename branch_name
               prompt_function new_content w)).
  assert (Hfin : forall m w0, P (try_finally m
                   (let* _ := chdir (cwd w) in
                    restore_environment (environ w)) w0)).
  { intros m w0. unfold P. rewrite Hhome. apply finally_restores. }
  unfold execute_in_sandbox. unfold bind at 1. unfold getcwd.
  destruct (os_getcwd (cwd w) (host w)) as [[]|e]; [|by split].
  destruct (0 <? String.length (dirname filename))%nat.
  - unfold bind at 1. unfold bind at 1. unfold call.
    destruct (os_makedirs (cwd w) (dirname filename) (host w)) as [h [[]|e]];
      cbn [host environ cwd trace]; [|by split].
    unfold chdir. cbn [host environ cwd trace].
    destruct (os_chdir (cwd w) (dirname filename) h) as [[]|e]; [|by split].
    unfold bind at 1. cbn [save_and_clear_environment host environ cwd trace].
    apply Hfin.
  - unfold bind at 1. simpl. unfold bind at 1. simpl. apply Hfin.
Qed.
End Sandbox.

(** ** The attempt loop of [create_or_modify_file] *)


Lemma logs_filter {H} (p : event -> bool) (w w' : world H) :
  logs (fun ev => p ev = false) w w' ->
  List.filter p (trace w') = List.filter p (trace w).
Proof.
  intros (evs & -> & Hevs). rewrite List.filter_app.
  assert (List.filter p evs = []) as ->; [|by rewrite app_nil_r].
  induction Hevs as [|ev evs Hev _ IH]; simpl; [done|]. by rewrite Hev.
Qed.

Ltac same_process_base :=
  first [ apply same_process_call | apply same_process_query
        | apply same_process_emit ].

Ltac logs_base :=
  first [ apply logs_call; reflexivity | apply logs_query
        | apply logs_emit; reflexivity | apply logs_chdir; reflexivity
        | apply logs_save | apply logs_restore ].

Section Attempts.
Context {H : Type} `{Collaborators H}.
Variable cfg : settings.
Variables (repository : string) (issue : Z).
Variables (filename branch_name issue_summary : string).
Variable prompt_function : string -> ext H string.

Let body := attempt_body cfg repository issue filename branch_name
              issue_summary prompt_function.
Let loop := attempt_loop cfg repository issue filename branch_name
              issue_summary prompt_function.
Let whole := create_or_modify_file cfg repository issue filename branch_name
               issue_summary prompt_function.

(** No statement of the loop body assigns the flag after its
    initialisation. *)
Lemma attempt_body_flag (w : world H) : flag_at_test (body w).2 = false.
Proof.
  subst body. unfold attempt_body.
  repeat match goal with
         | |- flag_at_test (bind ?m ?k ?w).2 = false =>
             unfold bind at 1; destruct (m w) as [? [?|?]]; [|done]
         | |- flag_at_test ((let '(_, _) := ?p in _) _).2 = false =>
             destruct p
         end.
  done.
Qed.

(** So the first completed iteration leaves the loop: the loop is its
    body, run once. *)
Lemma attempt_loop_exits (n : Z) (attempt : nat) (rest : list nat)
    (last : option attempt_locals) (w : world H) :
  loop n (attempt :: rest) last w =
  bind body (fun locals => ret (Some locals)) w.
Proof.
  subst loop. simpl. unfold bind.
  pose proof (attempt_body_flag w) as Hflag. subst body.
  destruct (attempt_body _ _ _ _ _ _ _ w) as [w' [locals|e]]; [|done].
  simpl in Hflag. by rewrite Hflag.
Qed.

Lemma bind_run_eq {A B} (m m' : M H A) (k : A -> M H B) (w : world H) :
  m w = m' w -> bind m k w = bind m' k w.
Proof. unfold bind. by intros ->. Qed.

Lemma range_first (n : Z) :
  (1 <= n)%Z -> exists rest, range n = 0 :: rest.
Proof.
  intros Hn. unfold range. destruct (Z.to_nat n) as [|k] eqn:Hk; [lia|].
  by exists (seq 1 k).
Qed.

Lemma single_attempt (n : Z) (w : world H) :
  whole n w = whole (Z.min n 1) w.
Proof.
  subst whole. unfold create_or_modify_file. apply bind_run_eq.
  destruct (decide (1 <= n)%Z) as [Hn|Hn].
  - rewrite Z.min_r by done. destruct (range_first n Hn) as [rest ->].
    change (range 1) with [0].
    by rewrite (attempt_loop_exits n), (attempt_loop_exits 1).
  - rewrite Z.min_l by lia.
    assert (range n = []) as ->; [|done].
    unfold range. by replace (Z.to_nat n) with 0 by lia.
Qed.
End Attempts.

Section Frames.
Context {H : Type} `{Collaborators H}.
Variable cfg : settings.
Variables (repository : string) (issue : Z).
Variables (filename branch_name issue_summary : string).
Variable prompt_function : string -> ext H string.

(** The events of [create_or_modify_file] other than the retry notice. *)
Variable p : event -> bool.
Hypothesis p_prompt : forall t, p (EvPrompt t) = false.
Hypothesis p_write : forall a b c d e, p (EvWriteFile a b c d e) = false.
Hypothesis p_makedirs : forall d, p (EvMakedirs d) = false.
Hypothesis p_chdir : forall d, p (EvChdir d) = false.
Hypothesis p_run : forall c, p (EvExecuteNotebook c) = false.
Hypothesis p_warn : forall m, p (EvWarn m) = false.

Local Abbreviation quiet := (logs (fun ev => p ev = false)).

Ltac quiet_base :=
  first [ apply logs_call; solve [auto] | apply logs_query
        | apply logs_emit; solve [auto] | apply logs_chdir; solve [auto]
        | apply logs_save | apply logs_restore ].

Lemma run_notebook_quiet content : keeps quiet (run_notebook content).
Proof.
  intros w. unfold run_notebook.
  destruct (execute_notebook content (environ w) (cwd w) (host w))
    as [[[env' cwd'] h'] r]; simpl.
  exists [EvExecuteNotebook content]. split; [done|]. constructor; auto.
Qed.

Lemma commit_created_files_quiet path files created :
  keeps quiet
    (commit_created_files repository branch_name path files created).
Proof.
  revert created. induction files as [|file rest IH]; intros created; simpl.
  - keeps_by @keeps_ret.
  - keeps_by @keeps_bind; [by intros w; exists []; rewrite app_nil_r|].
    intros [|]; [|apply IH].
    keeps_by @keeps_bind; [by intros w; exists []; rewrite app_nil_r|].
    intros bytes. keeps_by @keeps_bind; [quiet_base|]. intros _. apply IH.
Qed.

Lemma execute_in_sandbox_quiet content :
  keeps quiet
    (execute_in_sandbox repository filename branch_name prompt_function content).
Proof.
  unfold execute_in_sandbox, run_and_scan.
  keeps_steps ltac:(first [ quiet_base | apply run_notebook_quiet
                          | apply commit_created_files_quiet ]).
Qed.

Lemma materialize_quiet original content :
  keeps quiet
    (materialize repository filename branch_name prompt_function original content).
Proof.
  unfold materialize, reconcile.
  keeps_steps ltac:(first [ quiet_base | apply execute_in_sandbox_quiet ]).
Qed.

Lemma attempt_body_quiet :
  keeps quiet
    (attempt_body cfg repository issue filename branch_name issue_summary
       prompt_function).
Proof.
  unfold attempt_body.
  keeps_steps ltac:(first [ quiet_base | apply materialize_quiet ]).
Qed.

Lemma create_or_modify_file_quiet (n : Z) :
  keeps quiet
    (create_or_modify_file cfg repository issue filename branch_name
       issue_summary prompt_function n).
Proof.
  unfold create_or_modify_file. keeps_by @keeps_bind.
  - intros w. destruct (range n) as [|attempt rest].
    + simpl. reflexivity.
    + rewrite attempt_loop_exits.
      revert w. keeps_by @keeps_bind; [apply attempt_body_quiet|].
      intros locals. keeps_by @keeps_ret.
  - intros [locals|]; keeps_steps quiet_base.
Qed.

End Frames.

Section ProcessFrames.
Context {H : Type} `{Collaborators H}.
Variable cfg : settings.
Variables (repository : string) (issue : Z).
Variables (filename branch_name issue_summary : string).
Variable prompt_function : string -> ext H string.
Variable home : string.
Hypothesis home_absolute : startswith home "/" = true.
Hypothesis home_accepted : forall dir h, os_chdir dir home h = Ok tt.

Lemma materialize_same_process original content :
  keeps (same_process home)
    (materialize repository filename branch_name prompt_function original content).
Proof.
  unfold materialize, reconcile.
  keeps_steps ltac:(first [ same_process_base
                          | by apply execute_in_sandbox_restores ]).
Qed.

Lemma create_or_modify_file_same_process (n : Z) :
  keeps (same_process home)
    (create_or_modify_file cfg repository issue filename branch_name
       issue_summary prompt_function n).
Proof.
  unfold create_or_modify_file. keeps_by @keeps_bind.
  - intros w. destruct (range n) as [|attempt rest].
    + simpl. reflexivity.
    + rewrite attempt_loop_exits.
      revert w. keeps_by @keeps_bind.
      * unfold attempt_body.
        keeps_steps ltac:(first [ same_process_base
                                | apply materialize_same_process ]).
      * intros locals. keeps_by @keeps_ret.
  - intros [locals|]; keeps_steps same_process_base.
Qed.
End ProcessFrames.

(** C4. The retry trigger is dead code. In every run of
    [create_or_modify_file]: the flag [an_error_happened] is false where it
    is tested; the attempt loop, entered with any non-empty range, is its
    body run once; the whole function does the same with any attempt
    budget as with a budget of at most one; and no retry notice is
    printed. *)
Theorem retry_trigger_is_dead_code {H} `{Collaborators H} (cfg : settings)
    (repository : string) (issue : Z)
    (filename branch_name issue_summary : string)
    (prompt_function : string -> ext H string)
    (number_of_attempts : Z) (w : world H) :
  let body := attempt_body cfg repository issue filename branch_name
                issue_summary prompt_function in
  let loop := attempt_loop cfg repository issue filename branch_name
                issue_summary prompt_function number_of_attempts in
  let whole := create_or_modify_file cfg repository issue filename branch_name
                 issue_summary prompt_function in
  flag_at_test (body w).2 = false /\
  (forall attempt rest last,
      loop (attempt :: rest) last w =
      bind body (fun locals => ret (Some locals)) w) /\
  whole number_of_attempts w = whole (Z.min number_of_attempts 1) w /\
  List.filter is_retry_notice (trace (whole number_of_attempts w).1) =
  List.filter is_retry_notice (trace w).
Proof.
  cbv zeta. split; [apply attempt_body_flag|].
  split; [intros; apply attempt_loop_exits|].
  split; [apply single_attempt|].
  apply logs_filter. by apply create_or_modify_file_quiet.
Qed.

(** Sandbox state restoration, as far as it holds. Started in an absolute
    working directory to which the operating system lets the process
    return, the notebook block of [create_or_modify_file] ends, on every
    exit path, with the environment variables equal to those it found (the
    snapshot) and in the working directory it started in; and so does
    [create_or_modify_file] as a whole. *)
Theorem sandbox_state_restored {H} `{Collaborators H} (cfg : settings)
    (repository : string) (issue : Z)
    (filename branch_name issue_summary : string)
    (prompt_function : string -> ext H string)
    (number_of_attempts : Z) (new_content : string) (w : world H) :
  startswith (cwd w) "/" = true ->
  (forall dir h, os_chdir dir (cwd w) h = Ok tt) ->
  let after_block :=
    (execute_in_sandbox repository filename branch_name prompt_function
       new_content w).1 in
  let after_all :=
    (create_or_modify_file cfg repository issue filename branch_name
       issue_summary prompt_function number_of_attempts w).1 in
  (environ after_block = environ w /\ cwd after_block = cwd w) /\
  (environ after_all = environ w /\ cwd after_all = cwd w).
Proof.
  intros Habs Hback. split.
  - by apply (execute_in_sandbox_restores repository filename branch_name
                prompt_function (cwd w) Habs Hback).
  - by apply (create_or_modify_file_same_process cfg repository issue filename
                branch_name issue_summary prompt_function (cwd w) Habs Hback).
Qed.

(** The scripted notebook run does change the process: it leaks a variable
    and, when it crashes, leaves the working directory moved. *)
Example scripted_run_changes_process :
  let w := (run_notebook (H0 := Scripted.collaborators (Scripted.Script [] "main" false false))
              "crash" Scripted.start).1 in
  environ w !! "LEAK" = Some "1" /\ cwd w = "/elsewhere".
Proof. by vm_compute. Qed.

Lemma sandbox_state_restored_witness :
  let c := Scripted.collaborators (Scripted.Script [] "main" false false) in
  let w := Scripted.start in
  let after_block :=
    (execute_in_sandbox "owner/repo" "docs/new.ipynb" "b" Scripted.ask
       "print(2)" w).1 in
  let after_all :=
    (create_or_modify_file Scripted.cfg "owner/repo" 5 "docs/new.ipynb" "b"
       "summary" Scripted.ask 3 w).1 in
  (environ after_block = environ w /\ cwd after_block = cwd w) /\
  (environ after_all = environ w /\ cwd after_all = cwd w).
Proof.
  exact (sandbox_state_restored
           (H0 := Scripted.collaborators (Scripted.Script [] "main" false false))
           Scripted.cfg "owner/repo" 5 "docs/new.ipynb" "b" "summary"
           Scripted.ask 3 "print(2)" Scripted.start eq_refl
           (fun _ _ => eq_refl)).
Defined.

(** C5. Sandbox state restoration fails when the process cannot return:
    [os.chdir(current_dir)] is the first statement of the [finally]
    clause, and when it raises, [restore_environment] is not reached. In
    the scripted world, a notebook that removes the directory the process
    was started in and then fails leaves the block with the error of
    [os.chdir], outside the directory it started in, and with the
    environment as the run left it: the variables of the snapshot are gone
    and the one the run has set is there. *)
Theorem failed_return_leaks_environment :
  let c := ScriptedRemoval.collaborators in
  let r := execute_in_sandbox "owner/repo" "new.ipynb" "b" Scripted.ask
             "print(2)" Scripted.start in
  environ Scripted.start = {[ "HOME" := "/root" ]} /\
  cwd Scripted.start = "/work" /\
  r.2 = Raised (Exn OSError "[Errno 2] No such file or directory") /\
  environ r.1 = {[ "LEAK" := "1" ]} /\
  cwd r.1 = "/" /\
  List.filter is_sandbox_step (trace r.1)
  = [EvExecuteNotebook "print(2)"; EvChdir "/work"].
Proof. by vm_compute. Qed.


(** ** Reconciliation of notebook outputs *)

Section Reconciliation.
Context {H : Type} `{Collaborators H}.
Variable cfg : settings.
Variables (repository : string) (issue : Z).
Variables (filename branch_name issue_summary : string).
Variable prompt_function : string -> ext H string.


Lemma materialize_fallback (original new_content : string) (e : exn) (w : world H) :
  restore_outputs_of_code_cells new_content original = Raised e ->
  exn_cls e = ValueError ->
  materialize repository filename branch_name prompt_function
    (Some original) new_content w =
  execute_in_sandbox repository filename branch_name prompt_function
    new_content (warned filename e w).
Proof.
  intros Hr Hcls. unfold materialize, reconcile, bind, try_except, lift.
  rewrite Hr. simpl. by rewrite Hcls.
Qed.

Lemma materialize_propagates (original new_content : string) (e : exn) (w : world H) :
  restore_outputs_of_code_cells new_content original = Raised e ->
  exn_cls e <> ValueError ->
  materialize repository filename branch_name prompt_function
    (Some original) new_content w = (w, Raised e).
Proof.
  intros Hr Hcls. unfold materialize, reconcile, bind, try_except, lift.
  rewrite Hr. simpl. by destruct (exn_cls e).
Qed.

Lemma materialize_restored (original new_content restored : string) (w : world H) :
  restore_outputs_of_code_cells new_content original = Ok restored ->
  materialize repository filename branch_name prompt_function
    (Some original) new_content w = (w, Ok (restored, [])).
Proof.
  intros Hr. unfold materialize, reconcile, bind, try_except, lift.
  by rewrite Hr.
Qed.

(** An attempt on an existing notebook, up to the reconciliation. *)
Lemma attempt_body_existing_notebook (w : world H) (h1 h2 h3 : H)
    (raw original stripped response new_content commit_message : string) :
  check_if_file_exists repository branch_name filename (host w) = (h1, Ok true) ->
  get_file_in_repository repository branch_name filename h1 = (h2, Ok raw) ->
  decode_file raw = Ok original ->
  endswith filename ".ipynb" = true ->
  erase_outputs_of_code_cells original = Ok stripped ->
  prompt_function
    (content_prompt cfg issue filename issue_summary
       (modify_instruction issue filename stripped)) h2 = (h3, Ok response) ->
  split_content_and_summary response = Ok (new_content, commit_message) ->
  attempt_body cfg repository issue filename branch_name issue_summary
    prompt_function w =
  bind (materialize repository filename branch_name prompt_function
          (Some original) new_content)
    (fun '(content, files) =>
       ret (AttemptLocals (redact_text content) commit_message
              (files ++ [filename]) false))
    (World (environ w) (cwd w) h3
       (trace w ++ [EvPrompt (content_prompt cfg issue filename issue_summary
                                (modify_instruction issue filename stripped))])).
Proof.
  intros Hex Hget Hdec Hnb Her Hpr Hsp. unfold attempt_body.
  unfold bind at 1. unfold query at 1. rewrite Hex. simpl.
  unfold bind at 1. unfold bind at 1. unfold query at 1. simpl. rewrite Hget.
  simpl. unfold bind at 1. unfold lift at 1. rewrite Hdec. rewrite Hnb.
  unfold bind at 1. unfold lift at 1. rewrite Her. simpl.
  unfold bind at 1. unfold call at 1. simpl. rewrite Hpr.
  unfold bind at 1. unfold lift at 1. rewrite Hsp. reflexivity.
Qed.
End Reconciliation.

(** C6, as the code has it. When [create_or_modify_file] modifies an
    existing notebook (the file exists on the branch, its content was
    fetched and stripped for the prompt, and the oracle's answer was split
    into content and summary):
    - if restoring the old outputs raises a [ValueError], a warning is
      issued and the notebook block is run on the generated content as the
      oracle returned it;
    - if it raises another exception, that exception leaves the attempt
      and nothing is run;
    - if it succeeds, the restored content is kept and nothing is run: the
      attempt ends there, with the file as the only created file. *)
Theorem reconciliation_fallback {H} `{Collaborators H} (cfg : settings)
    (repository : string) (issue : Z)
    (filename branch_name issue_summary : string)
    (prompt_function : string -> ext H string)
    (w : world H) (h1 h2 h3 : H)
    (raw original stripped response new_content commit_message : string) :
  check_if_file_exists repository branch_name filename (host w) = (h1, Ok true) ->
  get_file_in_repository repository branch_name filename h1 = (h2, Ok raw) ->
  decode_file raw = Ok original ->
  endswith filename ".ipynb" = true ->
  erase_outputs_of_code_cells original = Ok stripped ->
  prompt_function
    (content_prompt cfg issue filename issue_summary
       (modify_instruction issue filename stripped)) h2 = (h3, Ok response) ->
  split_content_and_summary response = Ok (new_content, commit_message) ->
  let attempt :=
    attempt_body cfg repository issue filename branch_name issue_summary
      prompt_function w in
  let prompted :=
    World (environ w) (cwd w) h3
      (trace w ++ [EvPrompt (content_prompt cfg issue filename issue_summary
                               (modify_instruction issue filename stripped))]) in
  (forall e,
      restore_outputs_of_code_cells new_content original = Raised e ->
      exn_cls e = ValueError ->
      attempt =
      bind (execute_in_sandbox repository filename branch_name prompt_function
              new_content)
        (fun '(content, files) =>
           ret (AttemptLocals (redact_text content) commit_message
                  (files ++ [filename]) false))
        (warned filename e prompted)) /\
  (forall e,
      restore_outputs_of_code_cells new_content original = Raised e ->
      exn_cls e <> ValueError ->
      attempt = (prompted, Raised e)) /\
  (forall restored,
      restore_outputs_of_code_cells new_content original = Ok restored ->
      attempt =
      (prompted,
       Ok (AttemptLocals (redact_text restored) commit_message [filename] false))).
Proof.
  intros Hex Hget Hdec Hnb Her Hpr Hsp attempt prompted. subst attempt.
  rewrite (attempt_body_existing_notebook cfg repository issue filename
             branch_name issue_summary prompt_function w h1 h2 h3 raw original
             stripped response new_content commit_message) by done.
  fold prompted. split; [|split].
  - intros e Hr Hcls. unfold bind at 1.
    rewrite (materialize_fallback repository filename branch_name
               prompt_function original new_content e prompted Hr Hcls).
    reflexivity.
  - intros e Hr Hcls. unfold bind.
    by rewrite (materialize_propagates repository filename branch_name
                  prompt_function original new_content e prompted Hr Hcls).
  - intros restored Hr. unfold bind.
    by rewrite (materialize_restored repository filename branch_name
                  prompt_function original new_content restored prompted Hr).
Qed.

Lemma reconciliation_fallback_witness :
  let c := Scripted.collaborators (Scripted.Script [] "main" false false) in
  let prompt :=
    content_prompt Scripted.cfg 5 "old.ipynb" "summary"
      (modify_instruction 5 "old.ipynb" "print(1)") in
  let e := Exn ValueError "cell sources differ" in
  attempt_body Scripted.cfg "owner/repo" 5 "old.ipynb" "b" "summary"
    Scripted.ask Scripted.start =
  bind (execute_in_sandbox "owner/repo" "old.ipynb" "b" Scripted.ask "print(2)!")
    (fun '(content, files) =>
       ret (AttemptLocals (redact_text content) "Edit the cell"
              (files ++ ["old.ipynb"]) false))
    (warned "old.ipynb" e
       (World (environ Scripted.start) (cwd Scripted.start) []
          (trace Scripted.start ++ [EvPrompt prompt]))).
Proof.
  intros c prompt e.
  refine (proj1 (reconciliation_fallback (H0 := c) Scripted.cfg "owner/repo" 5
                   "old.ipynb" "b" "summary" Scripted.ask Scripted.start
                   [] [] [] "print(1)!" "print(1)!" "print(1)"
                   ("print(2)!" +:+ nl +:+ "Edit the cell") "print(2)!"
                   "Edit the cell" _ _ _ _ _ _ _) e _ _);
    by vm_compute.
Defined.

(** C6 as stated fails, in the scripted world, modifying [old.ipynb].
    - The restoration raises a [ValueError]; stripping the generated
      content would change it; and the notebook that is run is the
      generated content with its outputs, not the stripped one.
    - When the restoration raises another exception (here a [KeyError],
      the notebook in the repository having no cells), no notebook is run:
      the exception leaves [create_or_modify_file]. *)
Lemma fallback_runs_unstripped_notebook :
  let c := Scripted.collaborators (Scripted.Script [] "main" false false) in
  let broken := Scripted.collaborators (Scripted.Script [] "main" false true) in
  let after :=
    create_or_modify_file (H0 := c) Scripted.cfg "owner/repo" 5 "old.ipynb" "b"
      "summary" Scripted.ask 3 Scripted.start in
  let after_broken :=
    create_or_modify_file (H0 := broken) Scripted.cfg "owner/repo" 5 "old.ipynb"
      "b" "summary" Scripted.ask 3 Scripted.start in
  (restore_outputs_of_code_cells (Collaborators := c) "print(2)!" "print(1)!"
   = Raised (Exn ValueError "cell sources differ") /\
   erase_outputs_of_code_cells (Collaborators := c) "print(2)!" = Ok "print(2)" /\
   List.filter is_notebook_run (trace after.1) = [EvExecuteNotebook "print(2)!"]) /\
  (restore_outputs_of_code_cells (Collaborators := broken) "print(2)!" "print(1)!"
   = Raised (Exn KeyError "'cells'") /\
   List.filter is_notebook_run (trace after_broken.1) = [] /\
   after_broken.2 = Raised (Exn KeyError "'cells'")).
Proof. by vm_compute. Qed.

(** ** The files a notebook created *)

(** The scan, file by file. After a notebook run that reported no error,
    the oracle is asked for the files and the scan goes through its answer;
    a file that [os.path.exists] does not find from the working directory
    of that moment is skipped, with no event, no exception and no change of
    [created_files]; a file that it finds is read and written to the branch
    (and listed as created) before the scan goes on. *)
Theorem artifact_enumeration {H} `{Collaborators H}
    (repository filename branch_name : string)
    (prompt_function : string -> ext H string)
    (path file : string) (rest created : list string) (w : world H) :
  let scan := commit_created_files repository branch_name path in
  let message := "Adding " +:+ path +:+ "/" +:+ file +:+ " created by notebook" in
  (os_path_exists (cwd w) file (host w) = false ->
   scan (file :: rest) created w = scan rest created w) /\
  (os_path_exists (cwd w) file (host w) = true ->
   forall bytes h',
     read_binary (cwd w) file (host w) = Ok bytes ->
     write_file_in_branch repository branch_name file bytes message (host w)
     = (h', Ok tt) ->
     scan (file :: rest) created w =
     scan rest (created ++ [file])
       (World (environ w) (cwd w) h'
          (trace w ++ [EvWriteFile repository branch_name file bytes message]))) /\
  (forall saved new_content executed env1 cwd1 h1 h2 listing files,
     execute_notebook new_content (environ w) (cwd w) (host w)
     = ((env1, cwd1, h1), Ok (executed, None)) ->
     prompt_function (list_files_prompt filename new_content) h1 = (h2, Ok listing) ->
     text_to_json_filenames listing = Ok files ->
     run_and_scan repository filename branch_name prompt_function saved path
       new_content w =
     bind (scan files []) (fun created_files => ret (executed, created_files))
       (World saved cwd1 h2
          (trace w ++ [EvExecuteNotebook new_content;
                       EvPrompt (list_files_prompt filename new_content)]))).
Proof.
  cbv zeta. split; [|split].
  - intros Hno. simpl. unfold bind at 1. unfold path_exists. by rewrite Hno.
  - intros Hyes bytes h' Hread Hwrite. simpl.
    unfold bind at 1. unfold path_exists at 1. rewrite Hyes.
    unfold bind at 1. unfold read_file at 1. rewrite Hread.
    unfold bind at 1. unfold call at 1. simpl. by rewrite Hwrite.
  - intros saved new_content executed env1 cwd1 h1 h2 listing files Hrun Hpr Hjson.
    unfold run_and_scan. unfold bind at 1. unfold run_notebook at 1.
    rewrite Hrun. unfold bind at 1. simpl.
    unfold bind at 1. unfold call at 1. simpl. rewrite Hpr.
    unfold bind at 1. unfold lift at 1. rewrite Hjson.
    by rewrite <- app_assoc.
Qed.

Lemma artifact_enumeration_witness :
  let c := Scripted.collaborators (Scripted.Script [] "main" false false) in
  let w := World (environ Scripted.start) "/work" ["/work/plot.png"] [] in
  commit_created_files "owner/repo" "b" EmptyString ["missing.csv"; "plot.png"] [] w
  = (World (environ Scripted.start) "/work" ["/work/plot.png"]
       [EvWriteFile "owner/repo" "b" "plot.png" "bytes of /work/plot.png"
          "Adding /plot.png created by notebook"],
     Ok ["plot.png"]).
Proof.
  intros c w.
  rewrite (proj1 (artifact_enumeration (H0 := c) "owner/repo" "nb.ipynb"
                    "b" Scripted.ask EmptyString "missing.csv" ["plot.png"] [] w))
    by (by vm_compute).
  rewrite (proj1 (proj2 (artifact_enumeration (H0 := c) "owner/repo"
                           "nb.ipynb" "b" Scripted.ask EmptyString "plot.png"
                           [] [] w))
             ltac:(by vm_compute) "bytes of /work/plot.png" ["/work/plot.png"]
             ltac:(by vm_compute) ltac:(by vm_compute)).
  reflexivity.
Defined.

(** ** The action loop of [solve_github_issue] *)

(** The filename check only appends to [errors]. *)
Lemma check_filenames_app {H} `{Collaborators H} (keys : list string)
    (i : instruction) (errors : list string) :
  check_filenames keys i errors =
  match check_filenames keys i [] with
  | Ok new => Ok (errors ++ new)
  | Raised e => Raised e
  end.
Proof.
  revert errors. induction keys as [|k keys IH]; intros errors; simpl.
  - by rewrite app_nil_r.
  - destruct (i !! k) as [f|]; [|apply IH].
    destruct (value_contains ".github" f) as [[|]|e]; [|apply IH|done].
    rewrite IH, (IH [workflow_error (str_value f)]).
    destruct (check_filenames keys i []) as [new|e]; [|done].
    by rewrite app_assoc.
Qed.

Lemma check_filenames_clean {H} `{Collaborators H} (i : instruction)
    (errors : list string) :
  check_filenames filename_keys i [] = Ok [] ->
  check_filenames filename_keys i errors = Ok errors.
Proof. intros Hc. by rewrite check_filenames_app, Hc, app_nil_r. Qed.

(** The check raises only at a field that is not iterable. *)
Lemma check_filenames_checkable {H} `{Collaborators H} (keys : list string)
    (i : instruction) (errors : list string) :
  (forall k v, k ∈ keys -> i !! k = Some v -> iterable v = true) ->
  exists new, check_filenames keys i errors = Ok (errors ++ new).
Proof.
  revert errors. induction keys as [|k keys IH]; intros errors Hit; simpl.
  - exists []. by rewrite app_nil_r.
  - assert (Hrest : forall k' v, k' ∈ keys -> i !! k' = Some v ->
                                 iterable v = true).
    { intros k' v Hk'. apply Hit. by right. }
    destruct (i !! k) as [f|] eqn:Hf; [|by apply IH].
    assert (Hk : k ∈ k :: keys) by (by left).
    specialize (Hit k f Hk Hf).
    assert (exists b, value_contains ".github" f = Ok b) as [b ->].
    { destruct f; try done; by eexists. }
    destruct b; [|by apply IH].
    destruct (IH (errors ++ [workflow_error (str_value f)]) Hrest) as [new ->].
    eexists. by rewrite <- app_assoc.
Qed.

Section ActionLoop.
Context {H : Type} `{Collaborators H}.
Variable cfg : settings.
Variables (repository : string) (issue : Z).
Variable prompt_function : string -> ext H string.
Variable base_branch : option string.
Variables (branch_name discussion : string).

Local Abbreviation perform :=
  (perform_action cfg repository issue prompt_function branch_name discussion).
Local Abbreviation step :=
  (process_instruction cfg repository issue prompt_function branch_name discussion).
Local Abbreviation run :=
  (process_instructions cfg repository issue prompt_function branch_name discussion).

Lemma process_instruction_raised (i : instruction) (st : report_lists)
    (checked : list string) (w w' : world H) (e : exn) :
  check_filenames filename_keys i (errors st) = Ok checked ->
  perform (get_action i) i (commit_messages st) w = (w', Raised e) ->
  step i st w =
  (w', Ok (ReportLists (checked ++ [error_summary i e]) (commit_messages st))).
Proof.
  intros Hc Hp. unfold process_instruction, try_except, bind, lift.
  by rewrite Hc, Hp.
Qed.

Lemma process_instruction_done (i : instruction) (st : report_lists)
    (checked : list string) (w w' : world H) (messages : list string) :
  check_filenames filename_keys i (errors st) = Ok checked ->
  perform (get_action i) i (commit_messages st) w = (w', Ok messages) ->
  step i st w = (w', Ok (ReportLists checked messages)).
Proof.
  intros Hc Hp. unfold process_instruction, try_except, bind, lift.
  by rewrite Hc, Hp.
Qed.

(** What the filename check raises leaves the loop body, and the world as
    it is. *)
Lemma process_instruction_unchecked (i : instruction) (st : report_lists)
    (w : world H) (e : exn) :
  check_filenames filename_keys i (errors st) = Raised e ->
  step i st w = (w, Raised e).
Proof.
  intros Hc. unfold process_instruction, try_except, bind, lift. by rewrite Hc.
Qed.

(** The body of the action loop raises nothing when the filename check
    raises nothing. *)
Lemma process_instruction_total (i : instruction) (st : report_lists)
    (w : world H) :
  checkable i -> exists w' st', step i st w = (w', Ok st').
Proof.
  intros Hi.
  destruct (check_filenames_checkable filename_keys i (errors st) Hi)
    as [new Hc].
  destruct (perform (get_action i) i (commit_messages st) w) as [w' [ms|e]] eqn:Hp.
  - eexists _, _. by eapply process_instruction_done.
  - eexists _, _. by eapply process_instruction_raised.
Qed.

Lemma process_instructions_total (l : list instruction) (st : report_lists)
    (w : world H) :
  Forall checkable l -> exists w' st', run l st w = (w', Ok st').
Proof.
  intros Hl. revert st w. induction Hl as [|i l Hi _ IH]; intros st w; simpl.
  - by eexists _, _.
  - destruct (process_instruction_total i st w Hi) as (w1 & st1 & Hs).
    unfold bind. rewrite Hs. apply IH.
Qed.

Lemma process_instructions_cons (i : instruction) (rest : list instruction)
    (st st' : report_lists) (w w' : world H) :
  step i st w = (w', Ok st') -> run (i :: rest) st w = run rest st' w'.
Proof. intros Hs. simpl. unfold bind. by rewrite Hs. Qed.
End ActionLoop.

(** Per-action failure isolation, as far as it holds. In the action loop
    of [solve_github_issue]:
    - when the filename check of an action raises nothing and the
      processing of the action raises, the exception is caught, an entry is
      appended to [errors] that holds the action, the text of the exception
      and, indented, its stack trace as [traceback.format_exc()] gives it,
      [commit_messages] is unchanged, and the loop goes on with the rest of
      the list;
    - when every filename field of every action is a string, a list or a
      dict, the loop raises nothing, so the report that follows it is
      reached;
    - of three actions with no protected filename, of which the first and
      the third succeed with a commit message and the second raises, the
      loop leaves the two commit messages and the one error entry, and the
      report is made from them. *)
Theorem per_action_failure_isolation {H} `{Collaborators H} (cfg : settings)
    (repository : string) (issue : Z)
    (prompt_function : string -> ext H string) (base_branch : option string)
    (branch_name discussion : string) :
  let perform :=
    perform_action cfg repository issue prompt_function branch_name discussion in
  let run :=
    process_instructions cfg repository issue prompt_function branch_name
      discussion in
  let phases :=
    execute_and_report cfg repository issue prompt_function base_branch
      branch_name discussion in
  let report :=
    report cfg repository issue prompt_function base_branch branch_name
      discussion in
  let entry := fun (i : instruction) (e : exn) =>
    "<details>" +:+ nl +:+
    "    <summary>Error during " +:+ repr_instruction i +:+ ": "
      +:+ exn_str e +:+ "</summary>" +:+ nl +:+
    "    <pre>" +:+
      ("    " +:+ replace_newlines (nl +:+ "    ")
                    (remove_ansi_escape_sequences (format_exc e)))
      +:+ "</pre>" +:+ nl +:+
    "</details>" +:+ nl +:+
    "            " in
  (forall i rest st checked w w' e,
      check_filenames filename_keys i (errors st) = Ok checked ->
      perform (get_action i) i (commit_messages st) w = (w', Raised e) ->
      run (i :: rest) st w =
      run rest (ReportLists (checked ++ [entry i e]) (commit_messages st)) w') /\
  (forall l w,
      Forall checkable l ->
      exists w' st',
        run l (ReportLists [] []) w = (w', Ok st') /\ phases l w = report st' w') /\
  (forall i1 i2 i3 w0 w1 w2 w3 m1 m3 e,
      check_filenames filename_keys i1 [] = Ok [] ->
      check_filenames filename_keys i2 [] = Ok [] ->
      check_filenames filename_keys i3 [] = Ok [] ->
      perform (get_action i1) i1 [] w0 = (w1, Ok [m1]) ->
      perform (get_action i2) i2 [m1] w1 = (w2, Raised e) ->
      perform (get_action i3) i3 [m1] w2 = (w3, Ok [m1; m3]) ->
      run [i1; i2; i3] (ReportLists [] []) w0 =
      (w3, Ok (ReportLists [entry i2 e] [m1; m3])) /\
      phases [i1; i2; i3] w0 =
      report (ReportLists [entry i2 e] [m1; m3]) w3).
Proof.
  cbv zeta. split; [|split].
  - intros i rest st checked w w' e Hc Hp. apply process_instructions_cons.
    by apply process_instruction_raised.
  - intros l w Hl.
    destruct (process_instructions_total cfg repository issue prompt_function
                branch_name discussion l (ReportLists [] []) w Hl)
      as (w' & st' & Hr).
    exists w', st'. split; [done|].
    unfold execute_and_report, bind. by rewrite Hr.
  - intros i1 i2 i3 w0 w1 w2 w3 m1 m3 e Hc1 Hc2 Hc3 Hp1 Hp2 Hp3.
    change (_ +:+ _) with (error_summary i2 e).
    assert (process_instructions cfg repository issue prompt_function
              branch_name discussion [i1; i2; i3] (ReportLists [] []) w0 =
            (w3, Ok (ReportLists [error_summary i2 e] [m1; m3]))) as Hrun.
    { rewrite (process_instructions_cons cfg repository issue prompt_function
                 branch_name discussion i1 [i2; i3] (ReportLists [] [])
                 (ReportLists [] [m1]) w0 w1).
      2: { by apply process_instruction_done. }
      rewrite (process_instructions_cons cfg repository issue prompt_function
                 branch_name discussion i2 [i3] (ReportLists [] [m1])
                 (ReportLists [error_summary i2 e] [m1]) w1 w2).
      2: { by apply (process_instruction_raised cfg repository issue
                       prompt_function branch_name discussion i2
                       (ReportLists [] [m1]) [] w1 w2 e). }
      rewrite (process_instructions_cons cfg repository issue prompt_function
                 branch_name discussion i3 [] (ReportLists [error_summary i2 e] [m1])
                 (ReportLists [error_summary i2 e] [m1; m3]) w2 w3).
      2: { apply process_instruction_done; [|done].
           by apply check_filenames_clean. }
      reflexivity. }
    split; [done|]. unfold execute_and_report, bind. by rewrite Hrun.
Qed.

Lemma per_action_failure_isolation_witness :
  let c := Scripted.collaborators (Scripted.Script [] "main" false false) in
  let e := Exn GithubException "404 Not Found" in
  let m1 := "new.py:Edit the cell" +:+ nl +:+ nl +:+ "Created files:" +:+ nl
            +:+ "* new.py" in
  let m3 := "Deleted notes.txt." in
  (process_instructions Scripted.cfg "owner/repo" 5 Scripted.ask "b"
     "Please fix it."
     [Scripted.create_new_py; Scripted.rename_missing; Scripted.delete_notes]
     (ReportLists [] []) Scripted.start).2
  = Ok (ReportLists [error_summary Scripted.rename_missing e] [m1; m3]).
Proof.
  intros c e m1 m3.
  set (perform := perform_action Scripted.cfg "owner/repo" 5 Scripted.ask "b"
                    "Please fix it.").
  set (w1 := (perform (Some (VStr "create")) Scripted.create_new_py [] Scripted.start).1).
  set (w2 := (perform (Some (VStr "rename")) Scripted.rename_missing [m1] w1).1).
  set (w3 := (perform (Some (VStr "delete")) Scripted.delete_notes [m1] w2).1).
  refine (f_equal snd
            (proj1 (proj2 (proj2 (per_action_failure_isolation (H0 := c)
                                    Scripted.cfg "owner/repo" 5 Scripted.ask
                                    None "b" "Please fix it."))
                      Scripted.create_new_py Scripted.rename_missing
                      Scripted.delete_notes Scripted.start w1 w2 w3 m1 m3 e
                      _ _ _ _ _ _)));
    by vm_compute.
Defined.

(** C1, on the code. The filename check of the loop body stands before
    the [try:], and its test [".github" in filename] raises a [TypeError]
    when the field is the JSON [null]. Of three planned actions of which
    the second has such a filename, the first is carried out; at the second
    the exception leaves the loop and [solve_github_issue]: the third
    action is not processed, no error entry is recorded and nothing is
    reported. *)
Theorem null_filename_aborts_batch :
  let c := Scripted.collaborators
             (Scripted.Script
                [Scripted.create_new_py; Scripted.delete_nameless;
                 Scripted.delete_notes] "main" false false) in
  let r := solve_github_issue Scripted.cfg "owner/repo" 5 Scripted.ask None
             Scripted.start in
  r.2 = Raised (Exn TypeError "argument of type 'NoneType' is not iterable") /\
  List.filter is_mutation (trace r.1)
  = [EvCreateBranch "owner/repo" None;
     EvWriteFile "owner/repo" "git-bob-mod-1" "new.py"
       ("print(2)!" +:+ nl) "Edit the cell"] /\
  List.filter is_posting (trace r.1) = [] /\
  (process_instructions Scripted.cfg "owner/repo" 5 Scripted.ask
     "git-bob-mod-1" "Please fix it."
     [Scripted.create_new_py; Scripted.delete_nameless; Scripted.delete_notes]
     (ReportLists [] []) Scripted.start).2
  = Raised (Exn TypeError "argument of type 'NoneType' is not iterable").
Proof. by vm_compute. Qed.

(** C2, on the code. A [delete] of a workflow file: the filename check
    records its error, and the action is carried out all the same: the
    file is deleted on the branch and a commit message is recorded. The
    [continue] after the error leaves the loop over the filename keys, not
    the loop over the actions. *)
Lemma protected_delete_is_executed :
  let c := Scripted.collaborators (Scripted.Script [] "main" false false) in
  let r := process_instruction Scripted.cfg "owner/repo" 5 Scripted.ask "b"
             "Please fix it." Scripted.delete_workflow (ReportLists [] [])
             Scripted.start in
  trace r.1 = [EvDelete "owner/repo" "b" ".github/workflows/ci.yml"] /\
  r.2 = Ok (ReportLists [workflow_error ".github/workflows/ci.yml"]
              ["Deleted .github/workflows/ci.yml."]).
Proof. by vm_compute. Qed.

(** An action of a kind the dispatch has no branch for leaves the world
    and [commit_messages] as they are, and raises nothing. *)
Lemma unhandled_action_is_skipped {H} `{Collaborators H} (cfg : settings)
    (repository : string) (issue : Z)
    (prompt_function : string -> ext H string)
    (branch_name discussion : string) (i : instruction) (kind : string)
    (st : report_lists) (checked : list string) (w : world H) :
  get_action i = Some (VStr kind) ->
  kind ∉ ["create"; "modify"; "download"; "rename"; "delete"; "copy"] ->
  check_filenames filename_keys i (errors st) = Ok checked ->
  process_instruction cfg repository issue prompt_function branch_name
    discussion i st w =
  (w, Ok (ReportLists checked (commit_messages st))).
Proof.
  intros Hk Hnot Hc.
  unfold process_instruction, try_except, bind, lift, perform_action.
  rewrite Hc, Hk. unfold action_is, value_is.
  repeat (rewrite bool_decide_eq_false_2;
          [|intros Hx; apply Hnot; simplify_eq; set_solver]).
  reflexivity.
Qed.

(** C7, on the code. An [execute] action, which the planning prompt offers
    to the oracle, is not dispatched: the loop body does nothing to the
    outside, records no commit message and no error. *)
Lemma execute_action_is_dropped :
  let c := Scripted.collaborators (Scripted.Script [] "main" false false) in
  process_instruction Scripted.cfg "owner/repo" 5 Scripted.ask "b"
    "Please fix it." Scripted.execute_old_notebook (ReportLists [] [])
    Scripted.start
  = (Scripted.start, Ok (ReportLists [] [])).
Proof.
  intros c.
  rewrite (unhandled_action_is_skipped (H0 := c) Scripted.cfg "owner/repo" 5
             Scripted.ask "b" "Please fix it." Scripted.execute_old_notebook
             "execute" _ [] Scripted.start); [done|done| |done].
  rewrite !elem_of_cons, elem_of_nil. intros Hx.
  repeat destruct Hx as [Hx|Hx]; done.
Qed.

(** ** The report of [solve_github_issue] *)



(** ** The entry script *)

(** C10. With [ANTHROPIC_API_KEY] unset, the entry script prints its two
    greetings and raises a [TypeError] at the quote check [api_key[0]]:
    nothing of [sys.argv] is read and no task is dispatched. *)
Theorem missing_api_key_raises {H} `{Manager.Collaborators H}
    (argv : list string) (w : world H) :
  environ w !! "ANTHROPIC_API_KEY" = None ->
  Manager.main argv w =
  (World (environ w) (cwd w) (host w)
     (trace w ++ [EvPrint "Hello"; EvPrint "Hello"]),
   Raised (Exn TypeError "'NoneType' object is not subscriptable")).
Proof.
  intros Hkey. unfold Manager.main.
  unfold bind at 1. unfold Manager.print at 1, emit at 1.
  unfold bind at 1. unfold Manager.environ_get at 1.
  cbn [host environ cwd trace]. rewrite Hkey.
  unfold bind at 1. unfold Manager.print at 1, emit at 1.
  cbn [host environ cwd trace].
  rewrite bool_decide_eq_false_2 by (by intros Hne).
  unfold bind at 1. unfold ret at 1.
  unfold bind at 1. unfold Manager.first_char, raise.
  by rewrite <- app_assoc.
Qed.

Lemma missing_api_key_raises_witness :
  Manager.main (H0 := Scripted.manager_collaborators)
    ["manager.py"; "response-pull-request"; "owner/repo"; "12"] Scripted.start
  = (World (environ Scripted.start) "/work" []
       [EvPrint "Hello"; EvPrint "Hello"],
     Raised (Exn TypeError "'NoneType' object is not subscriptable")).
Proof.
  exact (missing_api_key_raises (H0 := Scripted.manager_collaborators)
           ["manager.py"; "response-pull-request"; "owner/repo"; "12"]
           Scripted.start eq_refl).
Defined.


(** C9, on the code. A notebook in a subdirectory: the scripted run of
    [docs/new.ipynb] writes [plot.png] next to the notebook, so
    [docs/plot.png] exists under the root [/work]; the oracle names it
    relative to the root, as the prompt asks; the scan looks for that name
    from the notebook's directory, which is still the working directory,
    does not find it, and the file is not written to the branch nor listed
    as created. For a notebook at the root the same file is committed. *)
Lemma subdirectory_artifact_is_skipped :
  let c := Scripted.collaborators (Scripted.Script [] "main" false false) in
  let run filename :=
    create_or_modify_file Scripted.cfg "owner/repo" 5 filename "b" "summary"
      Scripted.ask 3 Scripted.start in
  (host (run "docs/new.ipynb").1 = ["/work/docs/plot.png"] /\
   text_to_json_filenames
     (Scripted.oracle (list_files_prompt "docs/new.ipynb" "print(2)"))
   = Ok ["docs/plot.png"; "missing.csv"] /\
   List.filter is_write (trace (run "docs/new.ipynb").1)
   = [EvWriteFile "owner/repo" "b" "docs/new.ipynb" ("print(2)!" +:+ nl)
        "Edit the cell"] /\
   (run "docs/new.ipynb").2
   = Ok ("Edit the cell" +:+ nl +:+ nl +:+ "Created files:" +:+ nl
         +:+ "* docs/new.ipynb")) /\
  (host (run "new.ipynb").1 = ["/work/plot.png"] /\
   List.filter is_write (trace (run "new.ipynb").1)
   = [EvWriteFile "owner/repo" "b" "plot.png" "bytes of /work/plot.png"
        "Adding /plot.png created by notebook";
      EvWriteFile "owner/repo" "b" "new.ipynb" ("print(2)!" +:+ nl)
        "Edit the cell"]).
Proof. by vm_compute. Qed.

(** * Further properties *)

(** ** More on the sequencing step *)

Lemma filter_split_perm {A} (f g : A -> bool) (l : list A) :
  (forall x, g x = negb (f x)) ->
  List.filter f l ++ List.filter g l ≡ₚ l.
Proof.
  intros Hg. induction l as [|x l IH]; simpl; [done|].
  rewrite Hg. destruct (f x); simpl.
  - by rewrite IH.
  - by rewrite <- Permutation_middle, IH.
Qed.

Lemma filter_sequence (instructions : list instruction) :
  List.filter is_download (sequence instructions)
  = List.filter is_download instructions /\
  List.filter not_download (sequence instructions)
  = List.filter not_download instructions.
Proof.
  rewrite sequence_partition, !List.filter_app, !filter_filter_same. split.
  - rewrite (filter_filter_none not_download is_download), app_nil_r; [done|].
    intros x Hx. unfold is_download. by rewrite Hx.
  - rewrite (filter_filter_none is_download not_download); [done|].
    intros x Hx. unfold is_download in Hx. by destruct (not_download x).
Qed.

(** The sequencing step loses no action and invents none: the sequenced
    list is a permutation of the planned one. *)
Theorem sequence_permutation (instructions : list instruction) :
  sequence instructions ≡ₚ instructions.
Proof.
  rewrite sequence_partition. apply filter_split_perm.
  intros i. unfold is_download. by rewrite negb_involutive.
Qed.

(** Sequencing a sequenced list changes nothing. *)
Theorem sequence_idempotent (instructions : list instruction) :
  sequence (sequence instructions) = sequence instructions.
Proof.
  rewrite (sequence_partition (sequence instructions)).
  destruct (filter_sequence instructions) as [-> ->].
  by rewrite <- sequence_partition.
Qed.

Lemma filter_all {A} (f : A -> bool) (l : list A) :
  Forall (fun x => f x = true) l -> List.filter f l = l.
Proof.
  induction 1 as [|x l Hx _ IH]; simpl; [done|]. by rewrite Hx, IH.
Qed.

Lemma filter_none {A} (f : A -> bool) (l : list A) :
  Forall (fun x => f x = false) l -> List.filter f l = [].
Proof.
  induction 1 as [|x l Hx _ IH]; simpl; [done|]. by rewrite Hx.
Qed.

Lemma action_is_other (kind : string) (action : option value) :
  action <> Some (VStr kind) -> action_is kind action = false.
Proof.
  intros Hne. destruct action as [[]|]; try done. simpl.
  apply bool_decide_eq_false_2. congruence.
Qed.

(** A plan without a download is left in the order it was generated in. *)
Theorem sequence_without_download (instructions : list instruction) :
  Forall (fun i => get_action i <> Some (VStr "download")) instructions ->
  sequence instructions = instructions.
Proof.
  intros Hno. rewrite sequence_partition.
  rewrite (filter_none is_download), (filter_all not_download); [done|..].
  - eapply Forall_impl; [exact Hno|]. intros i Hi. unfold not_download.
    by rewrite action_is_other.
  - eapply Forall_impl; [exact Hno|]. intros i Hi. unfold is_download, not_download.
    by rewrite action_is_other.
Qed.

Lemma sequence_without_download_witness :
  sequence [Scripted.create_new_py; Scripted.rename_missing; Scripted.delete_notes]
  = [Scripted.create_new_py; Scripted.rename_missing; Scripted.delete_notes].
Proof.
  apply sequence_without_download. repeat constructor; by vm_compute.
Defined.

(** ** Paths handed to the repository host *)

Lemma append_cons (c : ascii) (s t : string) :
  String c s +:+ t = String c (s +:+ t).
Proof. reflexivity. Qed.

Lemma append_empty_r (s : string) : s +:+ EmptyString = s.
Proof. induction s as [|c s IH]; [done|]. by rewrite append_cons, IH. Qed.

Lemma append_assoc (a b c : string) : (a +:+ b) +:+ c = a +:+ (b +:+ c).
Proof. induction a as [|x a IH]; [done|]. by rewrite !append_cons, IH. Qed.

Lemma rev_app_rev_app (s a b : string) :
  String.rev_app (String.rev_app s a) b = String.rev_app a (s +:+ b).
Proof.
  revert a b. induction s as [|c s IH]; intros a b; simpl; [done|].
  by rewrite IH.
Qed.

Lemma string_rev_involutive (s : string) : String.rev (String.rev s) = s.
Proof.
  unfold String.rev. rewrite rev_app_rev_app. simpl. apply append_empty_r.
Qed.

Lemma rev_app_append (s a : string) :
  String.rev_app s a = String.rev s +:+ a.
Proof.
  unfold String.rev. revert a. induction s as [|c s IH]; intros a; [done|].
  simpl. rewrite IH, (IH (String c EmptyString)). by rewrite append_assoc.
Qed.

Lemma string_rev_cons (c : ascii) (s : string) :
  String.rev (String c s) = String.rev s +:+ String c EmptyString.
Proof. unfold String.rev at 1. simpl. apply rev_app_append. Qed.

Lemma string_rev_append (s t : string) :
  String.rev (s +:+ t) = String.rev t +:+ String.rev s.
Proof.
  induction s as [|c s IH].
  - by rewrite append_empty_r.
  - by rewrite append_cons, !string_rev_cons, IH, append_assoc.
Qed.

Lemma prefix_cons (a b : ascii) (s1 s2 : string) :
  String.prefix (String a s1) (String b s2)
  = if Ascii.eqb a b then String.prefix s1 s2 else false.
Proof.
  change (String.prefix (String a s1) (String b s2))
    with (match ascii_dec a b with
          | left _ => String.prefix s1 s2
          | right _ => false
          end).
  destruct (ascii_dec a b) as [->|Hne].
  - by rewrite Ascii.eqb_refl.
  - apply Ascii.eqb_neq in Hne. by rewrite Hne.
Qed.

Lemma prefix_empty (s : string) : String.prefix EmptyString s = true.
Proof. by destruct s. Qed.

(** stripping *)
Lemma lstrip_slash_no_lead (s : string) :
  startswith (lstrip_slash s) "/" = false.
Proof.
  induction s as [|c s IH]; [done|]. simpl.
  destruct (Ascii.eqb c slash) eqn:Hc; [exact IH|].
  unfold startswith. rewrite prefix_cons.
  rewrite Ascii.eqb_sym. change "/"%char with slash. by rewrite Hc.
Qed.

Lemma lstrip_slash_id (s : string) :
  startswith s "/" = false -> lstrip_slash s = s.
Proof.
  destruct s as [|c s]; [done|]. unfold startswith. rewrite prefix_cons.
  rewrite Ascii.eqb_sym. change "/"%char with slash. simpl.
  destruct (Ascii.eqb c slash); [|done]. by rewrite prefix_empty.
Qed.

(** the stripped string is what is left of a run of slashes *)
Lemma lstrip_slash_suffix (s : string) :
  exists k, s = k +:+ lstrip_slash s.
Proof.
  induction s as [|c s [k IH]]; [by exists EmptyString|]. simpl.
  destruct (Ascii.eqb c slash).
  - exists (String c k). by rewrite append_cons, <- IH.
  - by exists EmptyString.
Qed.

Lemma rstrip_slash_prefix (s : string) :
  exists k, s = rstrip_slash s +:+ k.
Proof.
  unfold rstrip_slash. destruct (lstrip_slash_suffix (String.rev s)) as [k Hk].
  exists (String.rev k).
  rewrite <- string_rev_append, <- Hk. by rewrite string_rev_involutive.
Qed.

Lemma rstrip_slash_no_trail (s : string) :
  endswith (rstrip_slash s) "/" = false.
Proof.
  unfold endswith, rstrip_slash. rewrite string_rev_involutive.
  apply lstrip_slash_no_lead.
Qed.

Lemma rstrip_slash_keeps_lead (s : string) :
  startswith s "/" = false -> startswith (rstrip_slash s) "/" = false.
Proof.
  intros Hs. destruct (rstrip_slash_prefix s) as [k Hk].
  destruct (rstrip_slash s) as [|c r]; [done|].
  rewrite Hk, append_cons in Hs. unfold startswith in *.
  rewrite prefix_cons in *. destruct (Ascii.eqb "/" c); [|done].
  by rewrite prefix_empty in Hs.
Qed.

Lemma rstrip_slash_id (s : string) :
  endswith s "/" = false -> rstrip_slash s = s.
Proof.
  unfold endswith, rstrip_slash. intros Hs.
  change (String.rev "/") with "/" in Hs.
  rewrite (lstrip_slash_id _ Hs). apply string_rev_involutive.
Qed.

Theorem strip_slash_normal (s : string) :
  startswith (strip_slash s) "/" = false /\
  endswith (strip_slash s) "/" = false /\
  strip_slash (strip_slash s) = strip_slash s.
Proof.
  assert (Hl : startswith (strip_slash s) "/" = false).
  { unfold strip_slash. apply rstrip_slash_keeps_lead, lstrip_slash_no_lead. }
  assert (Hr : endswith (strip_slash s) "/" = false).
  { unfold strip_slash. apply rstrip_slash_no_trail. }
  split; [done|]. split; [done|].
  unfold strip_slash at 1. rewrite (lstrip_slash_id _ Hl).
  by apply rstrip_slash_id.
Qed.
Lemma strip_slash_normal_path (s : string) : normal_path (strip_slash s) = true.
Proof.
  unfold normal_path. destruct (strip_slash_normal s) as (-> & -> & _). done.
Qed.

Section StrippedPaths.
Context {H : Type} `{Collaborators H}.
Variable cfg : settings.
Variables (repository : string) (issue : Z).
Variable prompt_function : string -> ext H string.
Variables (branch_name discussion : string).

Local Abbreviation stripped := (logs (fun ev => unstripped_path ev = false)).

(** What [instruction[key].strip("/")] returns is stripped. *)
Lemma stripped_item_returns instruction key :
  returns (H := H) (fun s => normal_path s = true) (stripped_item instruction key).
Proof.
  intros w w' a. unfold stripped_item, item, bind, lift, ret, raise.
  destruct (instruction !! key) as [[]|]; try done.
  intros [= _ <-]. apply strip_slash_normal_path.
Qed.

Lemma stripped_item_keeps (R : relation (world H)) `{!PreOrder R} instruction key :
  keeps R (stripped_item instruction key).
Proof. unfold stripped_item, item. keeps_steps fail. Qed.

Lemma item_keeps (R : relation (world H)) `{!PreOrder R} instruction key :
  keeps R (item (H := H) instruction key).
Proof. unfold item. keeps_steps fail. Qed.

Lemma perform_action_stripped action instruction commit_messages :
  keeps stripped
    (perform_action cfg repository issue prompt_function branch_name discussion
       action instruction commit_messages).
Proof.
  unfold perform_action.
  repeat first
    [ keeps_by @keeps_ret
    | keeps_by @item_keeps
    | apply create_or_modify_file_quiet; reflexivity
    | apply logs_call; simpl;
      repeat match goal with
             | Hn : normal_path _ = true |- _ => rewrite Hn; clear Hn
             end; reflexivity
    | eapply (keeps_bind_returns _ (fun s => normal_path s = true));
      [ keeps_by @stripped_item_keeps | apply stripped_item_returns
      | intros ? ? ]
    | keeps_by @keeps_bind; [|intros ?]
    | match goal with
      | |- keeps _ (if ?b then _ else _) => destruct b
      end ].
Qed.

Lemma process_instructions_stripped instructions st :
  keeps stripped
    (process_instructions cfg repository issue prompt_function branch_name
       discussion instructions st).
Proof.
  revert st. induction instructions as [|i l IH]; intros st; simpl.
  - keeps_by @keeps_ret.
  - keeps_by @keeps_bind; [|intros st'; apply IH].
    unfold process_instruction.
    keeps_steps ltac:(apply perform_action_stripped).
Qed.
End StrippedPaths.

(** Every path that the action loop hands to the host for a download, a
    rename, a deletion or a copy has been stripped of leading and trailing
    slashes. *)
Theorem action_paths_are_stripped {H} `{Collaborators H} (cfg : settings)
    (repository : string) (issue : Z)
    (prompt_function : string -> ext H string)
    (branch_name discussion : string) (instructions : list instruction)
    (st : report_lists) (w : world H) :
  List.filter unstripped_path
    (trace (process_instructions cfg repository issue prompt_function
              branch_name discussion instructions st w).1)
  = List.filter unstripped_path (trace w).
Proof. apply logs_filter, process_instructions_stripped. Qed.

(** ** Defusing the agent name in sub-issue bodies *)

Lemma contains_cons (needle : string) (c : ascii) (s : string) :
  contains needle (String c s)
  = String.prefix needle (String c s) || contains needle s.
Proof. reflexivity. Qed.

Lemma contains_prefix (needle s : string) :
  String.prefix needle s = true -> contains needle s = true.
Proof.
  intros Hp. destruct s as [|c s].
  - by destruct needle.
  - by rewrite contains_cons, Hp.
Qed.

Lemma prefix_append (p s : string) : String.prefix p (p +:+ s) = true.
Proof.
  induction p as [|c p IH]; [apply prefix_empty|].
  by rewrite append_cons, prefix_cons, Ascii.eqb_refl.
Qed.

Lemma prefix_drop (p s : string) :
  String.prefix p s = true -> s = p +:+ str_drop (String.length p) s.
Proof.
  revert s. induction p as [|c p IH]; intros s Hp; [done|].
  destruct s as [|d s]; [done|]. rewrite prefix_cons in Hp.
  destruct (Ascii.eqb c d) eqn:Hcd; [|done]. apply Ascii.eqb_eq in Hcd as ->.
  simpl. rewrite append_cons. f_equal. by apply IH.
Qed.

Lemma str_drop_length (n : nat) (s : string) :
  String.length (str_drop n s) <= String.length s.
Proof.
  revert s. induction n as [|n IH]; intros [|c s]; simpl; try lia.
  specialize (IH s). lia.
Qed.

Lemma slice_to_short (n : nat) (s : string) :
  char_length s <= n -> slice_to n s = s.
Proof.
  revert n. induction s as [|c s IH]; intros n Hs; [done|]. simpl in *.
  destruct (continues c).
  - by rewrite IH.
  - destruct n as [|n]; [lia|]. rewrite IH; [done|lia].
Qed.

Lemma slice_from_long (n : nat) (s : string) :
  char_length s <= n -> slice_from n s = EmptyString.
Proof.
  revert n. induction s as [|c s IH]; intros n Hs; [done|]. simpl in *.
  destruct (continues c).
  - by apply IH.
  - destruct n as [|n]; [lia|]. apply IH. lia.
Qed.

Lemma replace_from_cons (fuel : nat) (old new : string) (c : ascii) (s : string) :
  replace_from (S fuel) old new (String c s)
  = if String.prefix old (String c s)
    then new +:+ replace_from fuel old new (str_drop (String.length old) (String c s))
    else String c (replace_from fuel old new s).
Proof. reflexivity. Qed.

(** A replacement that starts with the text it replaces keeps every
    mention of it. *)
Lemma replace_from_keeps (fuel : nat) (old tail s : string) :
  old <> EmptyString ->
  contains old s = true ->
  contains old (replace_from fuel old (old +:+ tail) s) = true.
Proof.
  intros Hold. revert s. induction fuel as [|fuel IH]; intros s Hs; [done|].
  destruct s as [|c s].
  - simpl in Hs. rewrite orb_false_r in Hs. by destruct old.
  - rewrite replace_from_cons. destruct (String.prefix old (String c s)) eqn:Hp.
    + apply contains_prefix. rewrite append_assoc. apply prefix_append.
    + rewrite contains_cons, Hp in Hs. simpl in Hs.
      rewrite contains_cons, (IH s Hs). apply orb_true_r.
Qed.

(** With an agent name of at most three characters, the replacement of
    [split_issue_in_sub_issues] is the name followed by an underscore: a
    body that mentions the agent still mentions it afterwards. *)
Theorem short_agent_name_is_not_defused (cfg : settings) (body : string) :
  AGENT_NAME cfg <> EmptyString ->
  char_length (AGENT_NAME cfg) <= 3 ->
  contains (AGENT_NAME cfg) body = true ->
  defuse_agent_name cfg body
  = str_replace (AGENT_NAME cfg) (AGENT_NAME cfg +:+ "_") body /\
  contains (AGENT_NAME cfg) (defuse_agent_name cfg body) = true.
Proof.
  intros Hne Hlen Hin. unfold defuse_agent_name.
  rewrite (slice_to_short 3) by done. rewrite (slice_from_long 4) by lia.
  split; [done|]. unfold str_replace.
  destruct (AGENT_NAME cfg) as [|c name] eqn:Hname; [done|].
  by apply replace_from_keeps.
Qed.

(** The name of the witness has three characters in four bytes: [b], an
    [o] with a diaeresis (the bytes 195 and 182), [b]. *)
Lemma short_agent_name_is_not_defused_witness :
  let name := String "b" (String (ascii_of_nat 195)
                            (String (ascii_of_nat 182) "b")) in
  let cfg := Settings {[ "GIT_BOB_AGENT_NAME" := name ]} "0.1" "model" None
               "owner/repo" in
  defuse_agent_name cfg (name +:+ " solve this")
  = str_replace name (name +:+ "_") (name +:+ " solve this") /\
  contains name (defuse_agent_name cfg (name +:+ " solve this")) = true.
Proof.
  intros name cfg.
  apply (short_agent_name_is_not_defused cfg (name +:+ " solve this"));
    [by vm_compute | vm_compute; lia | by vm_compute].
Defined.
Lemma hyphens_softened_refl (s : string) : hyphens_softened s s.
Proof. induction s as [|c s IH]; simpl; [done|]. split; [by left|done]. Qed.

(** Replacing [git-bob] by [git_bob] only turns hyphens into underscores. *)
Lemma replace_git_bob_softens (fuel : nat) (s : string) :
  String.length s <= fuel ->
  hyphens_softened s (replace_from fuel "git-bob" "git_bob" s).
Proof.
  revert s. induction fuel as [|fuel IH]; intros s Hs.
  - destruct s; [done|simpl in Hs; lia].
  - destruct s as [|c s]; [done|]. rewrite replace_from_cons.
    destruct (String.prefix "git-bob" (String c s)) eqn:Hp.
    + pose proof (prefix_drop _ _ Hp) as Hsplit.
      set (rest := str_drop (String.length "git-bob") (String c s)) in *.
      assert (Hrest : String.length rest <= fuel).
      { assert (String.length (String c s) = 7 + String.length rest) as Hl.
        { rewrite Hsplit at 1. reflexivity. }
        simpl in Hl, Hs. lia. }
      rewrite Hsplit at 1. specialize (IH rest Hrest).
      simpl. repeat (split; [by (left + right)|]). exact IH.
    + simpl. split; [by left|]. apply IH. simpl in Hs. lia.
Qed.

Lemma softened_git_bob (s r : string) :
  hyphens_softened s r ->
  String.prefix "git-bob" r = true -> String.prefix "git-bob" s = true.
Proof.
  intros Hsoft Hp. apply prefix_drop in Hp.
  set (rest := str_drop (String.length "git-bob") r) in *. clearbody rest. subst r.
  do 7 (destruct s as [|? s]; [done|]; destruct Hsoft as [[->|[_ ?]] Hsoft];
        [|done]).
  change (String.prefix "git-bob" ("git-bob" +:+ s) = true). apply prefix_append.
Qed.

Lemma contains_git_bob_skip (s : string) :
  contains "git-bob" ("git_bob" +:+ s) = contains "git-bob" s.
Proof.
  change ("git_bob" +:+ s)
    with (String "g" (String "i" (String "t" (String "_"
            (String "b" (String "o" (String "b" s))))))).
  rewrite !contains_cons.
  repeat match goal with
         | |- context [String.prefix "git-bob" (String ?c ?t)] =>
             lazymatch t with
             | s => fail
             | _ =>
                 replace (String.prefix "git-bob" (String c t)) with false
                   by (rewrite !prefix_cons; reflexivity)
             end
         end.
  replace (String.prefix "git-bob" (String "b" s)) with false
    by (rewrite prefix_cons; reflexivity).
  reflexivity.
Qed.

Lemma replace_git_bob_clean (fuel : nat) (s : string) :
  String.length s <= fuel ->
  contains "git-bob" (replace_from fuel "git-bob" "git_bob" s) = false.
Proof.
  revert s. induction fuel as [|fuel IH]; intros s Hs.
  - destruct s; [done|simpl in Hs; lia].
  - destruct s as [|c s]; [done|]. rewrite replace_from_cons.
    destruct (String.prefix "git-bob" (String c s)) eqn:Hp.
    + rewrite contains_git_bob_skip. apply IH.
      pose proof (str_drop_length (String.length "git-bob") (String c s)) as Hd.
      pose proof (prefix_drop _ _ Hp) as Hsplit.
      assert (String.length (String c s)
              = 7 + String.length (str_drop (String.length "git-bob") (String c s)))
        as Hl.
      { rewrite Hsplit at 1. reflexivity. }
      simpl in Hl, Hs. simpl. lia.
    + rewrite contains_cons, IH by (simpl in Hs; lia). rewrite orb_false_r.
      destruct (String.prefix "git-bob"
                  (String c (replace_from fuel "git-bob" "git_bob" s))) eqn:Hq;
        [|done].
      rewrite <- Hp. symmetry.
      apply (softened_git_bob (String c s)
               (String c (replace_from fuel "git-bob" "git_bob" s))); [|done].
      simpl. split; [by left|]. apply replace_git_bob_softens. simpl in Hs. lia.
Qed.

Lemma contains_append_l (needle s t : string) :
  contains needle t = true -> contains needle (s +:+ t) = true.
Proof.
  intros Ht. induction s as [|c s IH]; [done|].
  rewrite append_cons, contains_cons, IH. apply orb_true_r.
Qed.

(** The remark links to git-bob, whatever the agent is called. *)
Lemma remark_has_link (cfg : settings) :
  exists pre post,
    setup_ai_remark cfg
    = pre +:+ ("[git-bob](https://github.com/haesleinhuepf/git-bob)" +:+ post).
Proof.
  unfold setup_ai_remark. cbv zeta.
  set (tail := version cfg +:+ _).
  assert (Hname : exists pre,
    (if bool_decide (AGENT_NAME cfg = "git-bob") then "[" +:+ AGENT_NAME cfg
     else AGENT_NAME cfg +:+ " / [git-bob") = pre +:+ "[git-bob").
  { case_bool_decide as Hn.
    - exists EmptyString. by rewrite Hn.
    - exists (AGENT_NAME cfg +:+ " / "). by rewrite append_assoc. }
  destruct Hname as [pre ->].
  exists ("<sup>This message was generated by " +:+ pre),
         (" (version: " +:+ tail).
  rewrite !append_assoc. reflexivity.
Qed.

Lemma remark_has_name (cfg : settings) (rest : string) :
  contains "git-bob" (setup_ai_remark cfg +:+ rest) = true.
Proof.
  destruct (remark_has_link cfg) as (pre & post & ->).
  rewrite append_assoc. apply contains_append_l.
  rewrite append_assoc.
  change ("[git-bob](https://github.com/haesleinhuepf/git-bob)" +:+ post +:+ rest)
    with (String "[" ("git-bob" +:+
            ("](https://github.com/haesleinhuepf/git-bob)" +:+ post +:+ rest))).
  rewrite contains_cons.
  rewrite (contains_prefix "git-bob" ("git-bob" +:+ _)) by apply prefix_append.
  apply orb_true_r.
Qed.

(** With the default agent name, the replacement that is there to prevent
    endless loops leaves no [git-bob] in the generated text of a sub-issue;
    the body that the sub-issue is created with, the remark followed by
    that text, still holds [git-bob], in the remark. *)
Theorem default_agent_name_is_defused (cfg : settings) (body : string) :
  import_environ cfg !! "GIT_BOB_AGENT_NAME" = None ->
  contains "git-bob" (defuse_agent_name cfg body) = false /\
  contains "git-bob"
    ((setup_ai_remark cfg +:+ nl) +:+ defuse_agent_name cfg body) = true.
Proof.
  intros Henv. split.
  - unfold defuse_agent_name, AGENT_NAME. rewrite Henv. simpl.
    by apply replace_git_bob_clean.
  - rewrite append_assoc. apply remark_has_name.
Qed.

Lemma default_agent_name_is_defused_witness :
  let body := "Ask git-bob to solve it, git-bob solve" in
  contains "git-bob" (defuse_agent_name Scripted.cfg body) = false /\
  contains "git-bob"
    ((setup_ai_remark Scripted.cfg +:+ nl)
     +:+ defuse_agent_name Scripted.cfg body) = true.
Proof.
  exact (default_agent_name_is_defused Scripted.cfg
           "Ask git-bob to solve it, git-bob solve" eq_refl).
Defined.

(** ** What the action loop accumulates *)

Section Accumulation.
Context {H : Type} `{Collaborators H}.
Variable cfg : settings.
Variables (repository : string) (issue : Z).
Variable prompt_function : string -> ext H string.
Variables (branch_name discussion : string).

(** An action adds at most one commit message, at the end. *)
Lemma perform_action_appends action instruction commit_messages :
  returns (fun messages => exists added, messages = commit_messages ++ added /\
                                         length added <= 1)
    (perform_action cfg repository issue prompt_function branch_name discussion
       action instruction commit_messages).
Proof.
  unfold perform_action.
  repeat match goal with
         | |- returns _ (if ?b then _ else _) => destruct b
         | |- returns _ (bind _ _) => apply returns_bind; intros ?
         | |- returns _ _ => progress cbv zeta
         end;
    apply returns_ret;
    first [ by eexists [_]
          | exists []; split; [by rewrite app_nil_r|simpl; lia] ].
Qed.

Lemma process_instruction_appends instruction st w :
  checkable instruction ->
  exists w' new_errors added,
    process_instruction cfg repository issue prompt_function branch_name
      discussion instruction st w
    = (w', Ok (ReportLists (errors st ++ new_errors)
                 (commit_messages st ++ added))) /\
    length added <= 1.
Proof.
  intros Hi.
  destruct (check_filenames_checkable filename_keys instruction (errors st) Hi)
    as [new Hc].
  destruct (perform_action cfg repository issue prompt_function branch_name
              discussion (get_action instruction) instruction
              (commit_messages st) w) as [w' [messages|e]] eqn:Hp.
  - destruct (perform_action_appends _ _ _ _ _ _ Hp) as (added & -> & Hlen).
    exists w', new, added. split; [|done].
    by erewrite process_instruction_done.
  - exists w', (new ++ [error_summary instruction e]), [].
    split; [|simpl; lia].
    erewrite process_instruction_raised by done.
    by rewrite app_nil_r, app_assoc.
Qed.
End Accumulation.

(** When every filename field of every action is a string, a list or a
    dict, the action loop never raises and only appends: what it returns
    is the [errors] and [commit_messages] it was given, each followed by
    new entries, with at most one new commit message per action. *)
Theorem action_loop_only_appends {H} `{Collaborators H} (cfg : settings)
    (repository : string) (issue : Z)
    (prompt_function : string -> ext H string)
    (branch_name discussion : string) (instructions : list instruction)
    (st : report_lists) (w : world H) :
  Forall checkable instructions ->
  exists w' new_errors added,
    process_instructions cfg repository issue prompt_function branch_name
      discussion instructions st w
    = (w', Ok (ReportLists (errors st ++ new_errors)
                 (commit_messages st ++ added))) /\
    length added <= length instructions.
Proof.
  intros Hl. revert st w. induction Hl as [|i l Hi _ IH]; intros st w.
  - exists w, [], []. simpl. split; [|done]. rewrite !app_nil_r. by destruct st.
  - destruct (process_instruction_appends cfg repository issue prompt_function
                branch_name discussion i st w Hi) as (w1 & e1 & a1 & Hs & Hl1).
    rewrite (process_instructions_cons _ _ _ _ _ _ _ _ _ _ _ _ Hs).
    destruct (IH (ReportLists (errors st ++ e1) (commit_messages st ++ a1)) w1)
      as (w2 & e2 & a2 & Hr & Hl2).
    exists w2, (e1 ++ e2), (a1 ++ a2). simpl in Hr. rewrite Hr.
    split; [by rewrite !app_assoc|]. rewrite length_app. simpl. lia.
Qed.

Lemma checkable_strings (i : instruction) :
  map_Forall (fun _ v => iterable v = true) i -> checkable i.
Proof. intros Hi k v _ Hv. by apply (Hi k v). Qed.

Lemma action_loop_only_appends_witness :
  let c := Scripted.collaborators (Scripted.Script [] "main" false false) in
  exists w' new_errors added,
    process_instructions Scripted.cfg "owner/repo" 5 Scripted.ask "b"
      "Please fix it."
      [Scripted.delete_workflow; Scripted.rename_missing; Scripted.delete_notes]
      (ReportLists ["earlier"] ["Done."]) Scripted.start
    = (w', Ok (ReportLists (["earlier"] ++ new_errors) (["Done."] ++ added))) /\
    length added <= 3.
Proof.
  intros c.
  apply (action_loop_only_appends (H0 := c) Scripted.cfg "owner/repo" 5
           Scripted.ask "b" "Please fix it."
           [Scripted.delete_workflow; Scripted.rename_missing;
            Scripted.delete_notes]
           (ReportLists ["earlier"] ["Done."]) Scripted.start).
  repeat (apply List.Forall_cons;
          [apply checkable_strings, map_Forall_to_list; vm_compute;
           repeat constructor|]).
  apply List.Forall_nil.
Defined.

(** ** The whole of [solve_github_issue] *)

Section WholeSolve.
Context {H : Type} `{Collaborators H}.
Variable cfg : settings.
Variables (repository : string) (issue : Z).
Variable prompt_function : string -> ext H string.
Variable base_branch : option string.
Variable home : string.
Hypothesis home_absolute : startswith home "/" = true.
Hypothesis home_accepted : forall dir h, os_chdir dir home h = Ok tt.

Local Abbreviation steady := (same_process (H := H) home).

Lemma process_instructions_same_process branch_name discussion instructions st :
  keeps steady
    (process_instructions cfg repository issue prompt_function branch_name
       discussion instructions st).
Proof.
  revert st. induction instructions as [|i l IH]; intros st; simpl.
  - keeps_by @keeps_ret.
  - keeps_by @keeps_bind; [|intros st'; apply IH].
    unfold process_instruction, perform_action, stripped_item, item.
    keeps_steps ltac:(first [ same_process_base
                            | by apply create_or_modify_file_same_process ]).
Qed.

Lemma report_same_process branch_name discussion st :
  keeps steady
    (report cfg repository issue prompt_function base_branch branch_name
       discussion st).
Proof. unfold report. keeps_steps same_process_base. Qed.

Lemma solve_github_issue_same_process :
  keeps steady
    (solve_github_issue cfg repository issue prompt_function base_branch).
Proof.
  unfold solve_github_issue, select_branch, execute_and_report.
  keeps_steps ltac:(first [ same_process_base
                          | apply process_instructions_same_process
                          | apply report_same_process ]).
Qed.
End WholeSolve.

(** Started in an absolute working directory to which the operating
    system lets the process return, [solve_github_issue] ends with the
    environment variables and the working directory it started with,
    whatever the plan and whatever else fails. *)
Theorem solve_github_issue_leaves_process {H} `{Collaborators H}
    (cfg : settings) (repository : string) (issue : Z)
    (prompt_function : string -> ext H string) (base_branch : option string)
    (w : world H) :
  startswith (cwd w) "/" = true ->
  (forall dir h, os_chdir dir (cwd w) h = Ok tt) ->
  let after :=
    (solve_github_issue cfg repository issue prompt_function base_branch w).1 in
  environ after = environ w /\ cwd after = cwd w.
Proof.
  intros Habs Hback.
  by apply (solve_github_issue_same_process cfg repository issue
              prompt_function base_branch (cwd w) Habs Hback).
Qed.

Lemma solve_github_issue_leaves_process_witness :
  let c := Scripted.collaborators
             (Scripted.Script
                [{[ "action" := VStr "create";
                    "filename" := VStr "docs/new.ipynb" ]};
                 Scripted.delete_nameless]
                "main" false false) in
  let after :=
    (solve_github_issue Scripted.cfg "owner/repo" 5 Scripted.ask None
       Scripted.start).1 in
  environ after = environ Scripted.start /\ cwd after = "/work".
Proof.
  intros c.
  exact (solve_github_issue_leaves_process (H0 := c) Scripted.cfg "owner/repo" 5
           Scripted.ask None Scripted.start eq_refl (fun _ _ => eq_refl)).
Defined.

(** ** Continuing on a branch *)

Section Continuing.
Context {H : Type} `{Collaborators H}.
Variable cfg : settings.
Variables (repository : string) (issue : Z).
Variable prompt_function : string -> ext H string.
Variable b : string.
Hypothesis not_default :
  forall h h' name, default_branch_name repository h = (h', Ok name) -> name <> b.

Local Abbreviation calm := (logs (fun ev => is_branch_or_pull_request ev = false)).

Lemma select_branch_continues :
  keeps calm (select_branch repository (Some b)) /\
  returns (fun name => name = b) (select_branch repository (Some b)).
Proof.
  unfold select_branch. split.
  - eapply (keeps_bind_returns _ (fun name => name <> b)).
    + apply logs_query.
    + by apply returns_query.
    + intros name Hname. rewrite bool_decide_eq_false_2 by done.
      keeps_by @keeps_ret.
  - intros w w' name. unfold bind, query.
    destruct (default_branch_name repository (host w)) as [h' [d|e]] eqn:Hd;
      [|done].
    rewrite bool_decide_eq_false_2 by (intros ->; by eapply not_default).
    by intros [= _ <-].
Qed.

Lemma process_instructions_calm branch_name discussion instructions st :
  keeps calm
    (process_instructions cfg repository issue prompt_function branch_name
       discussion instructions st).
Proof.
  revert st. induction instructions as [|i l IH]; intros st; simpl.
  - keeps_by @keeps_ret.
  - keeps_by @keeps_bind; [|intros st'; apply IH].
    unfold process_instruction, perform_action, stripped_item, item.
    keeps_steps ltac:(first [ logs_base
                            | apply create_or_modify_file_quiet; reflexivity ]).
Qed.

Lemma report_in_place_calm discussion st :
  keeps calm
    (report cfg repository issue prompt_function (Some b) b discussion st).
Proof.
  unfold report. keeps_by @keeps_bind; [apply logs_query|]. intros diffs.
  rewrite bool_decide_eq_false_2 by (by intros Hne).
  keeps_steps logs_base.
Qed.

Lemma solve_github_issue_calm :
  keeps calm (solve_github_issue cfg repository issue prompt_function (Some b)).
Proof.
  unfold solve_github_issue.
  do 5 (keeps_by @keeps_bind; [first [logs_base | keeps_by @keeps_lift]|intros ?]).
  eapply (keeps_bind_returns _ (fun name => name = b));
    [apply select_branch_continues..|].
  intros name ->. unfold execute_and_report.
  keeps_by @keeps_bind; [apply process_instructions_calm|].
  intros st. apply report_in_place_calm.
Qed.
End Continuing.

(** Continuing on a branch that is not the default branch,
    [solve_github_issue] creates no branch and sends no pull request,
    whatever the plan and whatever fails. *)
Theorem continuing_sends_no_pull_request {H} `{Collaborators H}
    (cfg : settings) (repository : string) (issue : Z)
    (prompt_function : string -> ext H string) (b : string) (w : world H) :
  (forall h h' name,
      default_branch_name repository h = (h', Ok name) -> name <> b) ->
  List.filter is_branch_or_pull_request
    (trace (solve_github_issue cfg repository issue prompt_function (Some b) w).1)
  = List.filter is_branch_or_pull_request (trace w).
Proof. intros Hb. by apply logs_filter, solve_github_issue_calm. Qed.

Lemma continuing_sends_no_pull_request_witness :
  let c := Scripted.collaborators
             (Scripted.Script [Scripted.create_new_py] "main" false false) in
  List.filter is_branch_or_pull_request
    (trace (solve_github_issue Scripted.cfg "owner/repo" 5 Scripted.ask
              (Some "feature") Scripted.start).1)
  = [].
Proof.
  intros c.
  apply (continuing_sends_no_pull_request (H0 := c) Scripted.cfg "owner/repo" 5
           Scripted.ask "feature" Scripted.start).
  intros h h' name [= _ <-]. done.
Defined.

(** ** Files that are not notebooks *)

Section PlainFiles.
Context {H : Type} `{Collaborators H}.
Variable cfg : settings.
Variables (repository : string) (issue : Z).
Variables (filename branch_name issue_summary : string).
Variable prompt_function : string -> ext H string.
Hypothesis plain : endswith filename ".ipynb" = false.

Local Abbreviation unboxed := (logs (fun ev => is_sandbox_step ev = false)).

Lemma materialize_plain (new_content : string) :
  materialize repository filename branch_name prompt_function None new_content
  = ret (new_content, []).
Proof. unfold materialize, reconcile. rewrite plain. reflexivity. Qed.

Lemma attempt_body_plain :
  keeps unboxed
    (attempt_body cfg repository issue filename branch_name issue_summary
       prompt_function).
Proof.
  unfold attempt_body. rewrite plain.
  keeps_by @keeps_bind; [apply logs_query|]. intros exists_.
  eapply (keeps_bind_returns _ (fun p => p.1 = None)).
  - keeps_steps logs_base.
  - destruct exists_.
    + repeat (apply returns_bind; intros ?). by apply returns_ret.
    + by apply returns_ret.
  - intros [original instruction_text] Ho. simpl in Ho. subst original.
    keeps_by @keeps_bind; [logs_base|]. intros response.
    keeps_by @keeps_bind; [keeps_by @keeps_lift|]. intros [new_content message].
    rewrite materialize_plain. keeps_steps logs_base.
Qed.

Lemma create_or_modify_file_plain (n : Z) :
  keeps unboxed
    (create_or_modify_file cfg repository issue filename branch_name
       issue_summary prompt_function n).
Proof.
  unfold create_or_modify_file. keeps_by @keeps_bind.
  - intros w. destruct (range n) as [|attempt rest].
    + simpl. reflexivity.
    + rewrite attempt_loop_exits.
      revert w. keeps_by @keeps_bind; [apply attempt_body_plain|].
      intros locals. keeps_by @keeps_ret.
  - intros [locals|]; keeps_steps logs_base.
Qed.
End PlainFiles.

(** For a file whose name does not end in [.ipynb], [create_or_modify_file]
    never enters the notebook sandbox: no directory is made, the working
    directory is not changed and nothing is executed. *)
Theorem plain_file_is_never_executed {H} `{Collaborators H} (cfg : settings)
    (repository : string) (issue : Z)
    (filename branch_name issue_summary : string)
    (prompt_function : string -> ext H string)
    (number_of_attempts : Z) (w : world H) :
  endswith filename ".ipynb" = false ->
  List.filter is_sandbox_step
    (trace (create_or_modify_file cfg repository issue filename branch_name
              issue_summary prompt_function number_of_attempts w).1)
  = List.filter is_sandbox_step (trace w).
Proof. intros Hplain. by apply logs_filter, create_or_modify_file_plain. Qed.

Lemma plain_file_is_never_executed_witness :
  let c := Scripted.collaborators (Scripted.Script [] "main" false false) in
  List.filter is_sandbox_step
    (trace (create_or_modify_file Scripted.cfg "owner/repo" 5 "old.py" "b"
              "summary" Scripted.ask 3 Scripted.start).1)
  = [].
Proof.
  intros c.
  exact (plain_file_is_never_executed (H0 := c) Scripted.cfg "owner/repo" 5
           "old.py" "b" "summary" Scripted.ask 3 Scripted.start eq_refl).
Defined.

(** ** New notebooks, failing runs and the final write *)

Lemma materialize_new {H} `{Collaborators H}
    (repository filename branch_name : string)
    (prompt_function : string -> ext H string) (new_content : string)
    (w : world H) :
  endswith filename ".ipynb" = true ->
  materialize repository filename branch_name prompt_function None new_content w
  = match erase_outputs_of_code_cells new_content with
    | Ok erased =>
        execute_in_sandbox repository filename branch_name prompt_function
          erased w
    | Raised e => (w, Raised e)
    end.
Proof.
  intros Hnb. unfold materialize, reconcile. rewrite Hnb. unfold bind, lift.
  by destruct (erase_outputs_of_code_cells new_content).
Qed.

(** A newly created notebook: the outputs of the generated content are
    always erased and the notebook block is always entered with the erased
    content; if erasing fails, the attempt ends with that exception and
    nothing is executed. *)
Theorem new_notebook_is_erased_and_executed {H} `{Collaborators H}
    (cfg : settings) (repository : string) (issue : Z)
    (filename branch_name issue_summary : string)
    (prompt_function : string -> ext H string)
    (w : world H) (h1 h2 : H) (response new_content commit_message : string) :
  check_if_file_exists repository branch_name filename (host w) = (h1, Ok false) ->
  endswith filename ".ipynb" = true ->
  prompt_function
    (content_prompt cfg issue filename issue_summary
       (create_instruction issue filename)) h1 = (h2, Ok response) ->
  split_content_and_summary response = Ok (new_content, commit_message) ->
  let attempt :=
    attempt_body cfg repository issue filename branch_name issue_summary
      prompt_function w in
  let prompted :=
    World (environ w) (cwd w) h2
      (trace w ++ [EvPrompt (content_prompt cfg issue filename issue_summary
                               (create_instruction issue filename))]) in
  (forall erased,
      erase_outputs_of_code_cells new_content = Ok erased ->
      attempt =
      bind (execute_in_sandbox repository filename branch_name prompt_function
              erased)
        (fun '(content, files) =>
           ret (AttemptLocals (redact_text content) commit_message
                  (files ++ [filename]) false))
        prompted) /\
  (forall e,
      erase_outputs_of_code_cells new_content = Raised e ->
      attempt = (prompted, Raised e)).
Proof.
  intros Hex Hnb Hpr Hsp attempt prompted.
  assert (Hbody : attempt =
            bind (materialize repository filename branch_name prompt_function
                    None new_content)
              (fun '(content, files) =>
                 ret (AttemptLocals (redact_text content) commit_message
                        (files ++ [filename]) false))
              prompted).
  { subst attempt. unfold attempt_body.
    unfold bind at 1. unfold query at 1. rewrite Hex. cbn [host environ cwd trace].
    unfold bind at 1. unfold ret at 1.
    unfold bind at 1. unfold call at 1. cbn [host environ cwd trace]. rewrite Hpr.
    unfold bind at 1. unfold lift at 1. by rewrite Hsp. }
  rewrite Hbody. unfold bind. rewrite materialize_new by done. split.
  - intros erased Her. by rewrite Her.
  - intros e Her. by rewrite Her.
Qed.

Lemma new_notebook_is_erased_and_executed_witness :
  let c := Scripted.collaborators (Scripted.Script [] "main" false false) in
  let prompt :=
    content_prompt Scripted.cfg 5 "new.ipynb" "summary"
      (create_instruction 5 "new.ipynb") in
  attempt_body Scripted.cfg "owner/repo" 5 "new.ipynb" "b" "summary"
    Scripted.ask Scripted.start =
  bind (execute_in_sandbox "owner/repo" "new.ipynb" "b" Scripted.ask "print(2)")
    (fun '(content, files) =>
       ret (AttemptLocals (redact_text content) "Edit the cell"
              (files ++ ["new.ipynb"]) false))
    (World (environ Scripted.start) (cwd Scripted.start) []
       (trace Scripted.start ++ [EvPrompt prompt])).
Proof.
  intros c prompt.
  refine (proj1 (new_notebook_is_erased_and_executed (H0 := c) Scripted.cfg
                   "owner/repo" 5 "new.ipynb" "b" "summary" Scripted.ask
                   Scripted.start [] []
                   ("print(2)!" +:+ nl +:+ "Edit the cell") "print(2)!"
                   "Edit the cell" _ _ _ _) "print(2)" _);
    by vm_compute.
Defined.

(** An exception that leaves the notebook block is either one that the
    operating system raised outside the protected statements (at
    [os.getcwd], at [os.makedirs], at the [os.chdir] into the directory of
    the notebook or at the [os.chdir] back in the [finally] clause), or a
    [ValueError] whose message starts with
    [Error during notebook execution: ]: whatever was raised by the run,
    the oracle, the parsing of its listing or the writing of a created file
    reaches the caller in that form. *)
Theorem sandbox_failures_are_value_errors {H} `{Collaborators H}
    (repository filename branch_name : string)
    (prompt_function : string -> ext H string)
    (new_content : string) (w : world H) (e : exn) :
  (execute_in_sandbox repository filename branch_name prompt_function
     new_content w).2 = Raised e ->
  (exn_cls e = ValueError /\
   startswith (exn_str e) "Error during notebook execution: " = true) \/
  os_getcwd (cwd w) (host w) = Raised e \/
  (os_makedirs (cwd w) (dirname filename) (host w)).2 = Raised e \/
  (exists h, os_chdir (cwd w) (dirname filename) h = Raised e) \/
  (exists dir h, os_chdir dir (cwd w) h = Raised e).
Proof.
  unfold execute_in_sandbox. unfold bind at 1. unfold getcwd.
  destruct (os_getcwd (cwd w) (host w)) as [[]|e0]; [|intros [= <-]; auto].
  assert (Hblock : forall (m : M H (string * list string)) d saved w0,
             (try_finally
                (try_except m
                   (fun e0 => raise (Exn ValueError
                      ("Error during notebook execution: " +:+ exn_str e0))))
                (let* _ := chdir d in restore_environment saved) w0).2
             = Raised e ->
             (exn_cls e = ValueError /\
              startswith (exn_str e) "Error during notebook execution: " = true)
             \/ exists dir h, os_chdir dir d h = Raised e).
  { intros m d saved w0. unfold try_finally, try_except, raise, bind, chdir.
    destruct (m w0) as [w1 [a|e0]];
      destruct (os_chdir (cwd w1) d (host w1)) as [[]|e1] eqn:Hc; simpl;
      intros [= <-].
    - right. by eexists _, _.
    - left. split; [done|]. unfold startswith. apply prefix_append.
    - right. by eexists _, _. }
  destruct (0 <? String.length (dirname filename))%nat.
  - unfold bind at 1. unfold bind at 1. unfold call at 1.
    destruct (os_makedirs (cwd w) (dirname filename) (host w)) as [h [[]|e0]];
      cbn [host environ cwd trace fst snd].
    + unfold chdir. cbn [host environ cwd trace].
      destruct (os_chdir (cwd w) (dirname filename) h) as [[]|e0] eqn:Hc.
      * unfold bind at 1.
        cbn [save_and_clear_environment host environ cwd trace].
        intros Hr. destruct (Hblock _ _ _ _ Hr) as [Hv|Hback]; auto 7.
      * intros [= <-]. do 3 right. left. by eexists.
    + intros [= <-]. auto.
  - unfold bind at 1. cbn [ret]. unfold bind at 1.
    cbn [save_and_clear_environment host environ cwd trace].
    intros Hr. destruct (Hblock _ _ _ _ Hr) as [Hv|Hback]; auto 7.
Qed.

Lemma sandbox_failures_are_value_errors_witness :
  let c := Scripted.collaborators (Scripted.Script [] "main" false false) in
  let e := Exn ValueError "Error during notebook execution: kernel died" in
  (execute_in_sandbox "owner/repo" "new.ipynb" "b" Scripted.ask "crash"
     Scripted.start).2 = Raised e /\
  ((exn_cls e = ValueError /\
    startswith (exn_str e) "Error during notebook execution: " = true) \/
   os_getcwd "/work" [] = Raised e \/
   (os_makedirs "/work" EmptyString []).2 = Raised e \/
   (exists h, os_chdir "/work" EmptyString h = Raised e) \/
   (exists dir h, os_chdir dir "/work" h = Raised e)).
Proof.
  intros c e. split; [by vm_compute|].
  exact (sandbox_failures_are_value_errors (H0 := c) "owner/repo" "new.ipynb"
           "b" Scripted.ask "crash" Scripted.start e eq_refl).
Defined.

(** In the world in which the run removes the starting directory, the
    exception that leaves the block is the one of the [os.chdir] back. *)
Example failed_return_is_raised :
  let c := ScriptedRemoval.collaborators in
  let e := Exn OSError "[Errno 2] No such file or directory" in
  (execute_in_sandbox "owner/repo" "new.ipynb" "b" Scripted.ask "print(2)"
     Scripted.start).2 = Raised e /\
  os_chdir "/" "/work" ["/work/"] = Raised e.
Proof. by vm_compute. Qed.

(** With an attempt budget of zero or less the loop body never runs:
    [create_or_modify_file] raises an [UnboundLocalError] at the final
    write, having asked nothing of the oracle or the host. *)
Theorem no_attempt_budget_raises {H} `{Collaborators H} (cfg : settings)
    (repository : string) (issue : Z)
    (filename branch_name issue_summary : string)
    (prompt_function : string -> ext H string)
    (number_of_attempts : Z) (w : world H) :
  (number_of_attempts <= 0)%Z ->
  exists message,
    create_or_modify_file cfg repository issue filename branch_name
      issue_summary prompt_function number_of_attempts w
    = (w, Raised (Exn UnboundLocalError message)).
Proof.
  intros Hn. unfold create_or_modify_file, range.
  replace (Z.to_nat number_of_attempts) with 0 by lia. by eexists.
Qed.

Lemma no_attempt_budget_raises_witness :
  let c := Scripted.collaborators (Scripted.Script [] "main" false false) in
  exists message,
    create_or_modify_file Scripted.cfg "owner/repo" 5 "old.py" "b" "summary"
      Scripted.ask 0 Scripted.start
    = (Scripted.start, Raised (Exn UnboundLocalError message)).
Proof.
  intros c.
  apply (no_attempt_budget_raises (H0 := c) Scripted.cfg "owner/repo" 5 "old.py"
           "b" "summary" Scripted.ask 0 Scripted.start).
  lia.
Defined.

(** ** The final write of [create_or_modify_file] *)

Section FinalWrite.
Context {H : Type} `{Collaborators H}.
Variable cfg : settings.
Variables (repository : string) (issue : Z).
Variables (filename branch_name issue_summary : string).
Variable prompt_function : string -> ext H string.

Lemma attempt_body_lists_file :
  returns (fun locals => exists files, created_files locals = files ++ [filename])
    (attempt_body cfg repository issue filename branch_name issue_summary
       prompt_function).
Proof.
  unfold attempt_body.
  repeat match goal with
         | |- returns _ (bind _ _) => apply returns_bind; intros ?
         | |- returns _ (let '(_, _) := ?p in _) => destruct p
         | |- returns _ _ => progress cbv zeta
         end.
  apply returns_ret. by eexists.
Qed.

Lemma attempt_loop_result (n : Z) (attempts : list nat) (w w1 : world H)
    (last : option attempt_locals) :
  attempt_loop cfg repository issue filename branch_name issue_summary
    prompt_function n attempts None w = (w1, Ok last) ->
  (exists evs, trace w1 = trace w ++ evs) /\
  match last with
  | Some locals => exists files, created_files locals = files ++ [filename]
  | None => True
  end.
Proof.
  destruct attempts as [|attempt rest].
  - simpl. intros [= <- <-]. split; [|done]. exists []. by rewrite app_nil_r.
  - rewrite attempt_loop_exits. unfold bind.
    pose proof (attempt_body_quiet cfg repository issue filename branch_name
                  issue_summary prompt_function (fun _ => false)
                  (fun _ => eq_refl) (fun _ _ _ _ _ => eq_refl)
                  (fun _ => eq_refl) (fun _ => eq_refl) (fun _ => eq_refl)
                  (fun _ => eq_refl) w) as (evs & Hevs & _).
    pose proof (attempt_body_lists_file w) as Hfiles.
    destruct (attempt_body cfg repository issue filename branch_name
                issue_summary prompt_function w) as [w2 [locals|e]]; [|done].
    intros [= <- <-]. split; [by exists evs|]. by eapply Hfiles.
Qed.
End FinalWrite.

(** When [create_or_modify_file] succeeds, the last thing it did is to
    write the file itself, with a content that ends with a newline; the
    text it returns lists that file as the last of the created files. *)
Theorem primary_file_is_written_last {H} `{Collaborators H} (cfg : settings)
    (repository : string) (issue : Z)
    (filename branch_name issue_summary : string)
    (prompt_function : string -> ext H string)
    (number_of_attempts : Z) (w w' : world H) (summary : string) :
  create_or_modify_file cfg repository issue filename branch_name
    issue_summary prompt_function number_of_attempts w = (w', Ok summary) ->
  exists evs content message commit files,
    trace w' = trace w ++ evs ++
               [EvWriteFile repository branch_name filename (content +:+ nl)
                  message] /\
    summary = commit +:+ nl +:+ nl +:+ "Created files:" +:+ nl +:+ "* "
              +:+ join (nl +:+ "* ") (files ++ [filename]).
Proof.
  unfold create_or_modify_file. unfold bind at 1.
  destruct (attempt_loop cfg repository issue filename branch_name
              issue_summary prompt_function number_of_attempts
              (range number_of_attempts) None w) as [w1 [last|e]] eqn:Hloop;
    [|done].
  destruct (attempt_loop_result _ _ _ _ _ _ _ _ _ _ _ _ Hloop)
    as [[evs Hevs] Hlast].
  destruct last as [locals|]; [|done]. destruct Hlast as [files Hfiles].
  unfold bind, call.
  destruct (write_file_in_branch repository branch_name filename
              (new_content locals +:+ nl) (redact_text (commit_message locals))
              (host w1)) as [h [[]|e]]; [|done].
  intros [= <- <-]. simpl.
  exists evs, (new_content locals), (redact_text (commit_message locals)),
    (commit_message locals), files.
  split; [by rewrite Hevs, app_assoc|]. by rewrite Hfiles.
Qed.

Lemma primary_file_is_written_last_witness :
  let c := Scripted.collaborators (Scripted.Script [] "main" false false) in
  let r := create_or_modify_file Scripted.cfg "owner/repo" 5 "new.ipynb" "b"
             "summary" Scripted.ask 3 Scripted.start in
  exists evs content message commit files,
    trace r.1 = trace Scripted.start ++ evs ++
                [EvWriteFile "owner/repo" "b" "new.ipynb" (content +:+ nl) message] /\
    default EmptyString (match r.2 with Ok s => Some s | Raised _ => None end)
    = commit +:+ nl +:+ nl +:+ "Created files:" +:+ nl +:+ "* "
      +:+ join (nl +:+ "* ") (files ++ ["new.ipynb"]).
Proof.
  intros c r.
  destruct (primary_file_is_written_last (H0 := c) Scripted.cfg "owner/repo" 5
              "new.ipynb" "b" "summary" Scripted.ask 3 Scripted.start r.1
              ("Edit the cell" +:+ nl +:+ nl +:+ "Created files:" +:+ nl
               +:+ "* plot.png" +:+ nl +:+ "* new.ipynb"))
    as (evs & content & message & commit & files & Htrace & Hsum);
    [by vm_compute|].
  exists evs, content, message, commit, files. split; [exact Htrace|].
  rewrite <- Hsum. by vm_compute.
Defined.

(** ** More on the entry script *)

Global Instance only_prints_preorder {H} : PreOrder (@only_prints H).
Proof.
  split.
  - intros w. split; [done|]. exists []. by rewrite app_nil_r.
  - intros a b c [Hh1 (e1 & H1 & F1)] [Hh2 (e2 & H2 & F2)]. split; [congruence|].
    exists (e1 ++ e2). split; [by rewrite H2, H1, app_assoc|by apply Forall_app].
Qed.

Section ManagerSteps.
Context {H : Type} `{Manager.Collaborators H}.
Variable argv : list string.

Lemma print_only_prints line : keeps only_prints (Manager.print (H := H) line).
Proof.
  intros w. split; [done|]. exists [EvPrint line]. split; [done|]. by constructor.
Qed.

Lemma print_all_only_prints lines :
  keeps only_prints (Manager.print_all (H := H) lines).
Proof.
  induction lines as [|line rest IH]; simpl.
  - keeps_by @keeps_ret.
  - keeps_by @keeps_bind; [apply print_only_prints|]. intros _. apply IH.
Qed.

Lemma environ_get_keeps (R : relation (world H)) `{!PreOrder R} name :
  keeps R (Manager.environ_get name).
Proof. intros w. simpl. reflexivity. Qed.

Lemma print_all_logs (P : event -> Prop) lines :
  (forall line, P (EvPrint line)) ->
  keeps (logs P) (Manager.print_all (H := H) lines).
Proof.
  intros HP. induction lines as [|line rest IH]; simpl.
  - keeps_by @keeps_ret.
  - keeps_by @keeps_bind; [by apply logs_emit|]. intros _. apply IH.
Qed.

Lemma main_prompts_only :
  keeps (prompts_only Manager.response_prompt) (Manager.main argv).
Proof.
  unfold Manager.main, Manager.first_char, Manager.argv_item, Manager.print,
    prompts_only.
  keeps_steps ltac:(first
    [ apply logs_emit; by intros p
    | apply logs_call; intros p; by intros [= <-] || done
    | apply logs_query
    | keeps_by @environ_get_keeps
    | apply print_all_logs; by intros line p ]).
Qed.

Lemma argv_item_returns n :
  returns (fun a => argv !! n = Some a) (Manager.argv_item (H := H) argv n).
Proof.
  unfold Manager.argv_item. destruct (argv !! n) as [a|].
  - by apply returns_ret.
  - apply returns_raise.
Qed.

Lemma main_other_task :
  argv !! 1 <> Some "response-pull-request" ->
  keeps only_prints (Manager.main argv).
Proof.
  intros Htask. unfold Manager.main.
  do 8 (keeps_by @keeps_bind;
        [ first [ apply print_only_prints | keeps_by @environ_get_keeps
                | apply print_all_only_prints
                | unfold Manager.first_char;
                  keeps_steps ltac:(apply print_only_prints)
                | keeps_steps ltac:(apply print_only_prints) ]
        | intros ? ]).
  eapply (keeps_bind_returns _ (fun a => argv !! 1 = Some a));
    [unfold Manager.argv_item; keeps_steps fail|apply argv_item_returns|].
  intros task Hitem.
  keeps_by @keeps_bind.
  { unfold Manager.argv_item. keeps_steps fail. }
  intros issue. rewrite bool_decide_eq_false_2 by congruence.
  keeps_by @keeps_ret.
Qed.
End ManagerSteps.

(** The prompt that the entry script sends to the model is a fixed text:
    the discussion it has fetched is not part of it (the text holds the
    placeholder [{discussion}] as it is written). *)
Theorem manager_prompt_is_fixed {H} `{Manager.Collaborators H}
    (argv : list string) (w : world H) :
  contains "{discussion}" Manager.response_prompt = true /\
  exists evs,
    trace (Manager.main argv w).1 = trace w ++ evs /\
    Forall (fun ev => forall p, ev = EvPrompt p -> p = Manager.response_prompt) evs.
Proof. split; [by vm_compute|]. apply main_prompts_only. Qed.

(** With a task other than [response-pull-request], or with no task
    argument, the entry script only prints: it does not reach the host or
    the model. *)
Theorem manager_other_task_only_prints {H} `{Manager.Collaborators H}
    (argv : list string) (w : world H) :
  argv !! 1 <> Some "response-pull-request" ->
  let after := (Manager.main argv w).1 in
  host after = host w /\
  exists evs, trace after = trace w ++ evs /\
              Forall (fun ev => is_print ev = true) evs.
Proof. intros Htask. by apply main_other_task. Qed.

Lemma manager_other_task_only_prints_witness :
  let w := World {[ "ANTHROPIC_API_KEY" := "key" ]} "/work" [] [] in
  let after :=
    (Manager.main (H0 := Scripted.manager_collaborators)
       ["manager.py"; "solve-issue"; "owner/repo"; "12"] w).1 in
  host after = [] /\
  exists evs, trace after = [] ++ evs /\
              Forall (fun ev => is_print ev = true) evs.
Proof.
  intros w.
  apply (manager_other_task_only_prints (H0 := Scripted.manager_collaborators)
           ["manager.py"; "solve-issue"; "owner/repo"; "12"] w).
  by vm_compute.
Defined.

(** With [ANTHROPIC_API_KEY] set to the empty string, the entry script
    greets and raises an [IndexError] at the quote check, before reading
    its arguments. *)
Theorem empty_api_key_raises {H} `{Manager.Collaborators H}
    (argv : list string) (w : world H) :
  environ w !! "ANTHROPIC_API_KEY" = Some EmptyString ->
  Manager.main argv w =
  (World (environ w) (cwd w) (host w)
     (trace w ++ [EvPrint "Hello"; EvPrint "Hello"; EvPrint "world!"]),
   Raised (Exn IndexError "string index out of range")).
Proof.
  intros Hkey. unfold Manager.main.
  unfold bind at 1. unfold Manager.print at 1, emit at 1.
  unfold bind at 1. unfold Manager.environ_get at 1.
  cbn [host environ cwd trace]. rewrite Hkey.
  unfold bind at 1. unfold Manager.print at 1, emit at 1.
  cbn [host environ cwd trace].
  rewrite bool_decide_eq_true_2 by done.
  unfold bind at 1. unfold Manager.print at 1, emit at 1.
  cbn [host environ cwd trace].
  unfold bind at 1. unfold Manager.first_char, raise.
  by rewrite <- !app_assoc.
Qed.

Lemma empty_api_key_raises_witness :
  let w := World {[ "ANTHROPIC_API_KEY" := EmptyString ]} "/work" [] [] in
  Manager.main (H0 := Scripted.manager_collaborators)
    ["manager.py"; "response-pull-request"; "owner/repo"; "12"] w
  = (World (environ w) "/work" []
       [EvPrint "Hello"; EvPrint "Hello"; EvPrint "world!"],
     Raised (Exn IndexError "string index out of range")).
Proof.
  intros w.
  exact (empty_api_key_raises (H0 := Scripted.manager_collaborators)
           ["manager.py"; "response-pull-request"; "owner/repo"; "12"] w eq_refl).
Defined.

(** ** The responders *)

Section Responding.
Context {H : Type} `{Collaborators H} `{Responders H}.
Variable cfg : settings.
Variables (repository : string) (issue : Z).
Variable prompt_function : string -> ext H string.

Local Abbreviation gentle := (logs (fun ev => is_mutation ev = false)).



Lemma summarize_github_issue_gentle :
  keeps gentle (summarize_github_issue repository issue prompt_function).
Proof. unfold summarize_github_issue. keeps_steps logs_base. Qed.


End Responding.





(** ** Splitting an issue *)

Section Splitting.
Context {H : Type} `{Collaborators H} `{Responders H}.
Variable cfg : settings.
Variables (repository : string) (issue : Z).
Variable prompt_function : string -> ext H string.

End Splitting.



(** ** A notebook of which a cell fails *)

(** When [execute_notebook] gives back an error message, the notebook
    block of a notebook at the top of the repository does not raise it: it
    returns the notebook as far as it was executed, with no created file,
    and does not ask the oracle for the files; the caller goes on to
    commit that notebook. (If the operating system refuses the change back
    to the starting directory, that refusal is what the block raises.) *)
Theorem cell_error_is_not_raised {H} `{Collaborators H}
    (repository filename branch_name : string)
    (prompt_function : string -> ext H string)
    (new_content executed message : string) (w : world H)
    (env1 : gmap string string) (cwd1 : string) (h1 : H) :
  dirname filename = EmptyString ->
  os_getcwd (cwd w) (host w) = Ok tt ->
  execute_notebook new_content ∅ (cwd w) (host w)
  = ((env1, cwd1, h1), Ok (executed, Some message)) ->
  execute_in_sandbox repository filename branch_name prompt_function
    new_content w
  = match os_chdir cwd1 (cwd w) h1 with
    | Ok _ =>
        (World (environ w) (path_join cwd1 (cwd w)) h1
           (trace w ++ [EvExecuteNotebook new_content; EvChdir (cwd w)]),
         Ok (executed, []))
    | Raised e =>
        (World (environ w) cwd1 h1
           (trace w ++ [EvExecuteNotebook new_content; EvChdir (cwd w)]),
         Raised e)
    end.
Proof.
  intros Hdir Hcwd Hrun. unfold execute_in_sandbox. rewrite Hdir.
  unfold bind at 1. unfold getcwd. rewrite Hcwd.
  cbn [String.length Nat.ltb Nat.leb].
  unfold bind at 1. cbn [ret]. unfold bind at 1.
  cbn [save_and_clear_environment host environ cwd trace].
  unfold try_finally, try_except, run_and_scan.
  unfold bind at 1. unfold run_notebook at 1.
  cbn [host environ cwd trace]. rewrite Hrun.
  unfold bind, chdir. cbn [restore_environment ret host environ cwd trace].
  destruct (os_chdir cwd1 (cwd w) h1) as [[]|e];
    cbn [restore_environment ret host environ cwd trace];
    by rewrite <- app_assoc.
Qed.

Lemma cell_error_is_not_raised_witness :
  execute_in_sandbox (H0 := ScriptedCellError.collaborators) "owner/repo"
    "new.ipynb" "b" Scripted.ask "print(x)" Scripted.start
  = (World (environ Scripted.start) "/work" []
       [EvExecuteNotebook "print(x)"; EvChdir "/work"],
     Ok ("print(x)!", [])).
Proof.
  exact (cell_error_is_not_raised (H0 := ScriptedCellError.collaborators)
           "owner/repo" "new.ipynb" "b" Scripted.ask "print(x)" "print(x)!"
           "NameError: name 'x' is not defined" Scripted.start ∅ "/work" []
           eq_refl eq_refl eq_refl).
Defined.

(** The whole function on that notebook: the notebook with the failed cell
    is written to the branch and no error reaches the caller. *)
Example cell_error_is_committed :
  let r := create_or_modify_file (H0 := ScriptedCellError.collaborators)
             Scripted.cfg "owner/repo" 5 "new.ipynb" "b" "summary"
             Scripted.ask 3 Scripted.start in
  List.filter is_write (trace r.1)
  = [EvWriteFile "owner/repo" "b" "new.ipynb" ("print(2)!" +:+ nl) "Edit the cell"]
  /\ is_ok r.2 = true.
Proof. by vm_compute. Qed.

(** ** The filename check *)

Lemma check_filenames_keeps {H} `{Collaborators H} (keys : list string)
    (i : instruction) (errors checked : list string) (entry : string) :
  check_filenames keys i errors = Ok checked ->
  entry ∈ errors -> entry ∈ checked.
Proof.
  intros Hc Hin. rewrite check_filenames_app in Hc.
  destruct (check_filenames keys i []) as [new|e]; [|done].
  injection Hc as <-. apply elem_of_app. by left.
Qed.

Lemma check_filenames_reports {H} `{Collaborators H} (keys : list string)
    (i : instruction) (errors checked : list string) (key : string)
    (filename : value) :
  key ∈ keys -> i !! key = Some filename ->
  value_contains ".github" filename = Ok true ->
  check_filenames keys i errors = Ok checked ->
  workflow_error (str_value filename) ∈ checked.
Proof.
  intros Hkey Hlook Hin. revert errors.
  induction Hkey as [key keys|key k keys _ IH]; intros errors; simpl.
  - rewrite Hlook, Hin. intros Hc.
    apply (check_filenames_keeps _ _ _ _ _ Hc).
    apply elem_of_app. right. by left.
  - specialize (IH Hlook). destruct (i !! k) as [f|]; [|apply IH].
    destruct (value_contains ".github" f) as [[|]|e]; [apply IH|apply IH|done].
Qed.

(** When the filename check of an action completes, an error is recorded
    for every filename field whose value has [.github] in it: for a
    string, anywhere in it, also in the middle of a name. *)
Theorem protected_names_are_reported {H} `{Collaborators H} (i : instruction)
    (errors checked : list string) (key : string) (filename : value) :
  key ∈ filename_keys -> i !! key = Some filename ->
  value_contains ".github" filename = Ok true ->
  check_filenames filename_keys i errors = Ok checked ->
  workflow_error (str_value filename) ∈ checked.
Proof. apply check_filenames_reports. Qed.

Lemma protected_names_are_reported_witness :
  let c := Scripted.collaborators (Scripted.Script [] "main" false false) in
  workflow_error "docs/my.github.io.md"
  ∈ ["Error processing docs/my.github.io.md: Modifying workflow files is not allowed."].
Proof.
  intros c.
  apply (protected_names_are_reported (H0 := c)
           {[ "action" := VStr "rename"; "old_filename" := VStr "a.md";
              "new_filename" := VStr "docs/my.github.io.md" ]}
           [] _ "new_filename" (VStr "docs/my.github.io.md")).
  - unfold filename_keys. set_solver.
  - by vm_compute.
  - by vm_compute.
  - by vm_compute.
Defined.

(** ** The remark *)

(** Whatever the agent is called, the remark credits git-bob with a link
    to its repository. *)
Theorem remark_credits_git_bob (cfg : settings) :
  contains "[git-bob](https://github.com/haesleinhuepf/git-bob)"
    (setup_ai_remark cfg) = true.
Proof.
  destruct (remark_has_link cfg) as (pre & post & ->).
  apply contains_append_l, contains_prefix, prefix_append.
Qed.

(** ** With no base branch *)

(** Without a base branch, a run of [solve_github_issue] that succeeds has
    created one branch and then sent one pull request, from the branch
    that [create_branch] returned (which the host accepted or refused);
    nothing was done in place. *)
Theorem no_base_branch_ends_in_pull_request {H} `{Collaborators H}
    (cfg : settings) (repository : string) (issue : Z)
    (prompt_function : string -> ext H string) (w w' : world H) :
  solve_github_issue cfg repository issue prompt_function None w = (w', Ok tt) ->
  exists h h' branch title description,
    create_branch repository None h = (h', Ok branch) /\
    List.filter is_branch_or_pull_request (trace w')
    = List.filter is_branch_or_pull_request (trace w) ++
      [EvCreateBranch repository None;
       EvSendPullRequest repository branch None title description].
Proof.
  unfold solve_github_issue, select_branch, execute_and_report.
  unfold bind at 1. unfold query at 1.
  destruct (get_repository_handle repository (host w)) as [h1 [[]|e]]; [|done].
  cbn [host environ cwd trace]. unfold bind at 1. unfold query at 1.
  cbn [host environ cwd trace].
  destruct (get_conversation_on_issue repository issue h1)
    as [h2 [conversation|e]]; [|done].
  unfold bind at 1. unfold query at 1. cbn [host environ cwd trace].
  destruct (list_repository_files repository h2) as [h3 [files|e]]; [|done].
  unfold bind at 1. unfold call at 1. cbn [host environ cwd trace].
  destruct (prompt_function _ h3) as [h4 [modifications|e]]; [|done].
  unfold bind at 1. unfold lift at 1.
  destruct (text_to_json_instructions modifications) as [plan|e]; [|done].
  unfold bind at 1. unfold call at 1. cbn [host environ cwd trace].
  destruct (create_branch repository None h4) as [h5 [branch|e]] eqn:Hbranch;
    [|done].
  unfold bind at 1.
  match goal with
  | |- context [process_instructions ?c ?r ?i ?p ?b ?d ?l ?st ?w0] =>
      pose proof (logs_filter _ _ _
                    (process_instructions_calm c r i p b d l st w0)) as Hloop;
      destruct (process_instructions c r i p b d l st w0) as [w1 [st1|e]];
        [|done]
  end.
  cbn [host environ cwd trace fst] in Hloop.
  unfold report. unfold bind at 1. unfold query at 1.
  destruct (get_diff_of_branches repository branch None (host w1))
    as [h6 [diffs|e]]; [|done].
  rewrite bool_decide_eq_true_2 by done.
  cbn [host environ cwd trace]. unfold bind at 1. unfold call at 1.
  cbn [host environ cwd trace].
  destruct (prompt_function _ h6) as [h7 [summary|e]]; [|done].
  unfold bind at 1. unfold lift at 1.
  destruct (split_content_and_summary summary) as [[description title]|e]; [|done].
  unfold try_except, call. cbn [host environ cwd trace].
  destruct (send_pull_request _ _ _ _ _ h7) as [h8 [[]|e]].
  - intros [= <- ]. cbn [trace]. eexists h4, h5, branch, _, _.
    split; [exact Hbranch|].
    rewrite !List.filter_app, Hloop, !List.filter_app. simpl.
    by rewrite !app_nil_r, <- app_assoc.
  - destruct (exn_cls e); try done. cbn [host environ cwd trace].
    destruct (add_comment_to_issue _ _ _ h8) as [h9 [[]|e']]; [|done].
    intros [= <- ]. cbn [trace]. eexists h4, h5, branch, _, _.
    split; [exact Hbranch|].
    rewrite !List.filter_app, Hloop, !List.filter_app. simpl.
    by rewrite !app_nil_r, <- app_assoc.
Qed.

Lemma no_base_branch_ends_in_pull_request_witness :
  let c := Scripted.collaborators
             (Scripted.Script [Scripted.create_new_py] "main" true false) in
  let r := solve_github_issue Scripted.cfg "owner/repo" 5 Scripted.ask None
             Scripted.start in
  exists h h' branch title description,
    create_branch "owner/repo" None h = (h', Ok branch) /\
    List.filter is_branch_or_pull_request (trace r.1)
    = [] ++ [EvCreateBranch "owner/repo" None;
             EvSendPullRequest "owner/repo" branch None title description].
Proof.
  intros c r.
  apply (no_base_branch_ends_in_pull_request (H0 := c) Scripted.cfg "owner/repo"
           5 Scripted.ask Scripted.start r.1).
  by vm_compute.
Defined.

(** ** The entry script and the mention *)

Section Mention.
Context {H : Type} `{Manager.Collaborators H}.
Variable argv : list string.
Hypothesis no_mention :
  forall repository issue h h' user text,
    Manager.get_most_recent_comment_on_issue repository issue h
    = (h', Ok (user, text)) ->
    contains "@bob" text = false.

Lemma main_without_mention :
  keeps (logs (fun ev => is_prompt_or_comment ev = false)) (Manager.main argv).
Proof.
  unfold Manager.main.
  do 10 (keeps_by @keeps_bind;
         [ unfold Manager.print, Manager.first_char, Manager.argv_item;
           keeps_steps ltac:(first
             [ logs_base | keeps_by @environ_get_keeps
             | apply print_all_logs; reflexivity ])
         | intros ? ]).
  match goal with |- keeps _ (if ?b then _ else _) => destruct b end;
    [|keeps_by @keeps_ret].
  eapply (keeps_bind_returns _ (fun p => contains "@bob" p.2 = false)).
  - apply logs_query.
  - apply returns_query. intros h h' [user text] Hq. simpl. by eapply no_mention.
  - intros [user text] Hno. simpl in Hno. rewrite Hno. keeps_by @keeps_ret.
Qed.
End Mention.

(** If the most recent comment does not mention [@bob], the entry script
    sends nothing to the model and posts nothing. *)
Theorem manager_needs_a_mention {H} `{Manager.Collaborators H}
    (argv : list string) (w : world H) :
  (forall repository issue h h' user text,
      Manager.get_most_recent_comment_on_issue repository issue h
      = (h', Ok (user, text)) ->
      contains "@bob" text = false) ->
  List.filter is_prompt_or_comment (trace (Manager.main argv w).1)
  = List.filter is_prompt_or_comment (trace w).
Proof. intros Hno. by apply logs_filter, main_without_mention. Qed.

Lemma manager_needs_a_mention_witness :
  let w := World {[ "ANTHROPIC_API_KEY" := "key" ]} "/work" [] [] in
  List.filter is_prompt_or_comment
    (trace (Manager.main (H0 := ScriptedQuiet.manager_collaborators)
              ["manager.py"; "response-pull-request"; "owner/repo"; "12"] w).1)
  = List.filter is_prompt_or_comment (trace w).
Proof.
  intros w.
  apply (manager_needs_a_mention (H0 := ScriptedQuiet.manager_collaborators)
           ["manager.py"; "response-pull-request"; "owner/repo"; "12"] w).
  intros repository issue h h' user text [= _ _ <-]. reflexivity.
Defined.

(** In the same world but with a mention, the script prompts and posts. *)
Example manager_answers_a_mention :
  let w := World {[ "ANTHROPIC_API_KEY" := "key" ]} "/work" [] [] in
  exists body,
    List.filter is_prompt_or_comment
      (trace (Manager.main (H0 := Scripted.manager_collaborators)
                ["manager.py"; "response-pull-request"; "owner/repo"; "12"] w).1)
    = [EvPrompt Manager.response_prompt;
       EvCommentOnIssue (Some "owner/repo") (Some 12%Z) body].
Proof. intros w. eexists. by vm_compute. Qed.
